(** * Solar logger firmware: sensor acquisition, energy integration, rollups

    A shallow embedding of the firmware variants of the repository:

    - [Fixed]     : Code/solar_logger_ina219_fixed.ino (first sketch) and
                    Code/solar_logger_complete_with_ota.ino, which share the
                    register-level INA219 driver and the [/data] handler;
    - [Legacy]    : the esp_http_server sketch that still decodes the
                    registers with the INA226 scaling (1.25 mV per bit) and
                    carries the CSV rollups over /log.csv
                    ([hourly_get_handler], [daily_get_handler],
                    [monthly_get_handler]) and the checked calibration load;
    - [Snapshot]  : the second sketch of solar_logger_ina219_fixed.ino
                    (Adafruit driver, double-buffered snapshot);
    - [Adalogger] : the Feather ESP32 + Adalogger sketch (RTC, SD card,
                    /solar_log.csv: [logSample], [handleHourly],
                    [handleDaily]).

    Conventions.  [uint16_t], [int16_t] and [unsigned long] values are
    integers of [Z] with the wrap-around written out.  [float] and [double]
    values are modelled by [Flt.float]: exact rationals extended with the two
    infinities and NaN.  The arithmetic is the exact one: binary rounding,
    overflow to infinity and the sign of zero are not modelled.  What the
    hardware and the libraries answer (bus transactions, the Adafruit
    driver, the RTC, the C library) is an input of the functions. *)

From Stdlib Require Import ZArith QArith Qabs Qround List Bool Lia Lqa String Ascii.
From Stdlib Require Import SpecFloat.
From Stdlib Require DecimalString.
Import ListNotations.

Local Open Scope Z_scope.

(* ================================================================== *)
(** * Floating-point values *)

Module Flt.

Inductive float : Type :=
| Num (q : Q)
| Inf (neg : bool)
| NaN.

Definition of_Z (z : Z) : float := Num (inject_Z z).

Definition isnan (x : float) : bool :=
  match x with NaN => true | _ => false end.

Definition isfinite (x : float) : bool :=
  match x with Num _ => true | _ => false end.

Definition Qneg (q : Q) : bool := (Qnum q <? 0)%Z.
Definition Qzero (q : Q) : bool := (Qnum q =? 0)%Z.
Definition Qltb (a b : Q) : bool := negb (Qle_bool b a).

Definition fabs (x : float) : float :=
  match x with
  | Num q => Num (Qabs q)
  | Inf _ => Inf false
  | NaN => NaN
  end.

Definition fadd (x y : float) : float :=
  match x, y with
  | NaN, _ | _, NaN => NaN
  | Num a, Num b => Num (a + b)
  | Inf s, Inf t => if Bool.eqb s t then Inf s else NaN
  | Inf s, Num _ => Inf s
  | Num _, Inf t => Inf t
  end.

Definition fmul (x y : float) : float :=
  match x, y with
  | NaN, _ | _, NaN => NaN
  | Num a, Num b => Num (a * b)
  | Inf s, Inf t => Inf (xorb s t)
  | Inf s, Num b => if Qzero b then NaN else Inf (xorb s (Qneg b))
  | Num a, Inf t => if Qzero a then NaN else Inf (xorb (Qneg a) t)
  end.

Definition fdiv (x y : float) : float :=
  match x, y with
  | NaN, _ | _, NaN => NaN
  | Num a, Num b =>
      if Qzero b then (if Qzero a then NaN else Inf (Qneg a)) else Num (a / b)
  | Inf _, Inf _ => NaN
  | Inf s, Num b => Inf (xorb s (Qneg b))
  | Num _, Inf _ => Num 0
  end.

(** [x < y]; false as soon as one side is NaN. *)
Definition fltb (x y : float) : bool :=
  match x, y with
  | NaN, _ | _, NaN => false
  | Num a, Num b => Qltb a b
  | Num _, Inf t => negb t
  | Inf s, Num _ => s
  | Inf s, Inf t => s && negb t
  end.

(** [x <= y]; false as soon as one side is NaN. *)
Definition fleb (x y : float) : bool :=
  match x, y with
  | NaN, _ | _, NaN => false
  | Num a, Num b => Qle_bool a b
  | Num _, Inf t => negb t
  | Inf s, Num _ => s
  | Inf s, Inf t => s || negb t
  end.

(** Same value (rationals up to [Qeq]). *)
Definition feq (x y : float) : Prop :=
  match x, y with
  | Num a, Num b => (a == b)%Q
  | Inf s, Inf t => s = t
  | NaN, NaN => True
  | _, _ => False
  end.

(** C's conversion of a floating value to an integer: truncation toward
    zero.  The conversion of an infinity, of NaN or of a value out of range
    is undefined in C; the sketches convert one value only, about 4194.3. *)
Definition Qtrunc (q : Q) : Z := Z.quot (Qnum q) (Zpos (Qden q)).

Definition to_uint16 (x : float) : Z :=
  match x with
  | Num q => Qtrunc q mod 65536
  | _ => 0
  end.

End Flt.

Import Flt.

Declare Scope flt_scope.
Delimit Scope flt_scope with flt.
Infix "+" := fadd : flt_scope.
Infix "*" := fmul : flt_scope.
Infix "/" := fdiv : flt_scope.
Infix "<?" := fltb : flt_scope.
Infix "<=?" := fleb : flt_scope.
Infix "=~" := feq (at level 70, no associativity).

(** Decimal literals of the sources. *)
Definition lit (q : Q) : float := Num q.

(* ================================================================== *)
(** * Machine integers *)

Definition uint16 (z : Z) : Z := z mod 65536.

(** [(int16_t)raw] for a 16-bit [raw]. *)
Definition int16 (raw : Z) : Z :=
  let r := raw mod 65536 in if r <? 32768 then r else r - 65536.

(** [unsigned long] subtraction on the ESP32 (32 bits). *)
Definition ulong_sub (a b : Z) : Z := (a - b) mod 4294967296.

(* ================================================================== *)
(** * The two-wire bus

    The device side of the bus is the environment: every transaction consumes
    one pending response, [Some v] for an acknowledged transaction (carrying
    the two data bytes [v] of a read), [None] for a failed one.  The bus
    records what the firmware did. *)

Inductive event : Type :=
| EvWrite (addr reg value : Z) (ok : bool)
| EvRead (addr reg : Z) (res : option Z)
| EvProbe (addr : Z) (ok : bool).

Record bus : Type := mkBus {
  pending : list (option Z);
  trace : list event
}.

Definition respond (b : bus) : option Z * list (option Z) :=
  match pending b with
  | [] => (None, [])
  | r :: rest => (r, rest)
  end.

Definition is_some {A} (o : option A) : bool :=
  match o with Some _ => true | None => false end.

(** The device acknowledges the next transaction. *)
Definition acked (l : list (option Z)) : bool :=
  match l with
  | Some _ :: _ => true
  | _ => false
  end.

(** [i2c_write16] and [i2c_read16] of the sketches. *)
Definition i2c_write16 (addr reg value : Z) (b : bus) : bool * bus :=
  let (r, rest) := respond b in
  let ok := is_some r in
  (ok, mkBus rest (trace b ++ [EvWrite addr reg (uint16 value) ok])).

(** [value] is the caller's variable, left untouched by a failed read. *)
Definition i2c_read16 (addr reg : Z) (value : Z) (b : bus) : bool * Z * bus :=
  let (r, rest) := respond b in
  let b' := mkBus rest (trace b ++ [EvRead addr reg (option_map uint16 r)]) in
  match r with
  | Some v => (true, uint16 v, b')
  | None => (false, value, b')
  end.

Definition probe (addr : Z) (b : bus) : bool * bus :=
  let (r, rest) := respond b in
  let ok := is_some r in
  (ok, mkBus rest (trace b ++ [EvProbe addr ok])).

(* ================================================================== *)
(** * Register-level INA219 firmware
    (solar_logger_ina219_fixed.ino, solar_logger_complete_with_ota.ino) *)

Module Fixed.

Definition INA219_ADDR : Z := 0x40.

(** [#define SHUNT_OHMS 0.1f] and [#define MAX_CURRENT 3.2f] are binary32
    literals: the numbers the sketch computes with are the binary32 numbers
    nearest to 1/10 and 32/10, 13421773 * 2^-27 = 0.100000001490116... and
    13421773 * 2^-22 = 3.200000047683715..., both a little above the
    decimal. *)
Definition SHUNT_OHMS : float := lit (13421773 # 134217728).
Definition MAX_CURRENT : float := lit (13421773 # 4194304).

Definition INA219_REG_CONFIG : Z := 0x00.
Definition INA219_REG_SHUNTVOLTAGE : Z := 0x01.
Definition INA219_REG_BUSVOLTAGE : Z := 0x02.
Definition INA219_REG_POWER : Z := 0x03.
Definition INA219_REG_CURRENT : Z := 0x04.
Definition INA219_REG_CALIBRATION : Z := 0x05.

Definition INA219_CONFIG_RESET : Z := 0x8000.
Definition INA219_CONFIG_BVOLTAGERANGE_32V : Z := 0x2000.
Definition INA219_CONFIG_GAIN_8_320MV : Z := 0x1800.
Definition INA219_CONFIG_BADCRES_12BIT : Z := 0x0180.
Definition INA219_CONFIG_SADCRES_12BIT_1S_532US : Z := 0x0018.
Definition INA219_CONFIG_MODE_SANDBVOLT_CONTINUOUS : Z := 0x0007.

(** The module-level variables of the sketch, the bus and the SD card's
    calibration file.  [cal_cfg] is [None] when the card does not mount or
    /cal.cfg is absent or cannot be opened; otherwise it holds the numbers
    that successive [parseFloat] calls find in the file. *)
Record state : Type := mkState {
  energy_Wh : float;
  lastEnergyMs : Z;
  CAL_I : float;
  CAL_V : float;
  ina219_calValue : Z;
  current_lsb : float;
  i2c : bus;
  cal_cfg : option (list float)
}.

Definition initial (b : bus) (cfg : option (list float)) : state :=
  mkState (lit 0) 0 (lit 1) (lit 1) 0 (lit 0) b cfg.

Definition set_i2c (st : state) (b : bus) : state :=
  mkState (energy_Wh st) (lastEnergyMs st) (CAL_I st) (CAL_V st)
          (ina219_calValue st) (current_lsb st) b (cal_cfg st).

Definition INA219_config : Z :=
  Z.lor INA219_CONFIG_BVOLTAGERANGE_32V
    (Z.lor INA219_CONFIG_GAIN_8_320MV
       (Z.lor INA219_CONFIG_BADCRES_12BIT
          (Z.lor INA219_CONFIG_SADCRES_12BIT_1S_532US
             INA219_CONFIG_MODE_SANDBVOLT_CONTINUOUS))).

Definition INA219_init (st : state) : bool * state :=
  let (ok0, b0) := i2c_write16 INA219_ADDR INA219_REG_CONFIG INA219_CONFIG_RESET (i2c st) in
  if negb ok0 then (false, set_i2c st b0)
  else
    let lsb := (MAX_CURRENT / lit 32768)%flt in
    let cal := to_uint16 (lit 0.04096 / (lsb * SHUNT_OHMS))%flt in
    let (ok1, b1) := i2c_write16 INA219_ADDR INA219_REG_CALIBRATION cal b0 in
    let st1 := mkState (energy_Wh st) (lastEnergyMs st) (CAL_I st) (CAL_V st)
                       cal lsb b1 (cal_cfg st) in
    if negb ok1 then (false, st1)
    else
      let (ok2, b2) := i2c_write16 INA219_ADDR INA219_REG_CONFIG INA219_config b1 in
      if negb ok2 then (false, set_i2c st1 b2) else (true, set_i2c st1 b2).

(** [((raw >> 3) * 4.0) / 1000.0] *)
Definition decode_vbus (raw : Z) : float :=
  ((of_Z (Z.shiftr raw 3) * lit 4) / lit 1000)%flt.

(** [(int16_t)raw * current_lsb] *)
Definition decode_current (raw : Z) (lsb : float) : float :=
  (of_Z (int16 raw) * lsb)%flt.

Definition INA219_read_vbus_V (vbusV : float) (st : state) : bool * float * state :=
  match i2c_read16 INA219_ADDR INA219_REG_BUSVOLTAGE 0 (i2c st) with
  | (false, _, b) => (false, vbusV, set_i2c st b)
  | (true, raw, b) => (true, (decode_vbus raw * CAL_V st)%flt, set_i2c st b)
  end.

Definition INA219_read_current_A (currentA : float) (st : state) : bool * float * state :=
  match i2c_read16 INA219_ADDR INA219_REG_CURRENT 0 (i2c st) with
  | (false, _, b) => (false, currentA, set_i2c st b)
  | (true, raw, b) => (true, (decode_current raw (current_lsb st) * CAL_I st)%flt, set_i2c st b)
  end.

(** The numbers of the JSON object sent by [/data] (before formatting). *)
Record reply : Type := mkReply {
  r_epoch : Z;
  r_voltage : float;
  r_current : float;
  r_power : float;
  r_energy_Wh : float;
  r_rawBus : Z;
  r_busReadOk : bool
}.

(** The debug block of [data_get_handler]: five register reads and two
    address probes. *)
Definition debug_reads (b : bus) : Z * bool * bus :=
  match i2c_read16 INA219_ADDR INA219_REG_BUSVOLTAGE 0 b with
  | (busReadOk, rawBus, b1) =>
    match i2c_read16 INA219_ADDR INA219_REG_CONFIG 0 b1 with
    | (_, _, b2) =>
      match i2c_read16 INA219_ADDR INA219_REG_CURRENT 0 b2 with
      | (_, _, b3) =>
        match i2c_read16 INA219_ADDR INA219_REG_SHUNTVOLTAGE 0 b3 with
        | (_, _, b4) =>
          match i2c_read16 INA219_ADDR INA219_REG_CALIBRATION 0 b4 with
          | (_, _, b5) =>
            let (_, b6) := probe 0x40 b5 in
            let (_, b7) := probe 0x41 b6 in
            (rawBus, busReadOk, b7)
          end
        end
      end
    end
  end.

(** [now_ms] is [millis()], [now] is [time(nullptr)]. *)
Definition data_get_handler (now_ms now : Z) (st : state) : reply * state :=
  match INA219_read_vbus_V (lit 0) st with
  | (vOk, v, st1) =>
    match INA219_read_current_A (lit 0) st1 with
    | (iOk, i, st2) =>
      let p := (v * i)%flt in
      let energy :=
        if (0 <? lastEnergyMs st2) && (lit 0 <? p)%flt then
          let hours := (of_Z (ulong_sub now_ms (lastEnergyMs st2)) / lit 3600000)%flt in
          (energy_Wh st2 + p * hours)%flt
        else energy_Wh st2 in
      match debug_reads (i2c st2) with
      | (rawBus, busReadOk, b) =>
        (mkReply now v i p energy rawBus busReadOk,
         mkState energy now_ms (CAL_I st2) (CAL_V st2)
                 (ina219_calValue st2) (current_lsb st2) b (cal_cfg st2))
      end
    end
  end.

(** [Stream::parseFloat] on the calibration file: the next number of the
    file, 0 when there is none left. *)
Definition parseFloat (f : list float) : float * list float :=
  match f with
  | [] => (lit 0, [])
  | x :: rest => (x, rest)
  end.

(** The part of [setup] that touches the state: calibration load, then
    [INA219_init]. *)
Definition setup (st : state) : state :=
  let st1 :=
    match cal_cfg st with
    | Some f =>
        let (ci, f1) := parseFloat f in
        let (cv, _) := parseFloat f1 in
        mkState (energy_Wh st) (lastEnergyMs st) ci cv
                (ina219_calValue st) (current_lsb st) (i2c st) (cal_cfg st)
    | None => st
    end in
  snd (INA219_init st1).

(** The numbers of the page sent by [/diag]; a register that cannot be read
    shows as 0. *)
Record diag : Type := mkDiag {
  d_config : Z;
  d_busV : float;
  d_shuntmV : float;
  d_currentA : float;
  d_cal : Z
}.

(** [diag_get_handler]: the six registers in turn, decoded without the
    multipliers. *)
Definition diag_get_handler (st : state) : diag * state :=
  match i2c_read16 INA219_ADDR 0x00 0 (i2c st) with
  | (_, config, b1) =>
    match i2c_read16 INA219_ADDR 0x01 0 b1 with
    | (_, shunt, b2) =>
      match i2c_read16 INA219_ADDR 0x02 0 b2 with
      | (_, bus, b3) =>
        match i2c_read16 INA219_ADDR 0x03 0 b3 with
        | (_, power, b4) =>
          match i2c_read16 INA219_ADDR 0x04 0 b4 with
          | (_, current, b5) =>
            match i2c_read16 INA219_ADDR 0x05 0 b5 with
            | (_, cal, b6) =>
              (mkDiag config
                      ((of_Z (Z.shiftr bus 3) * lit 4) / lit 1000)%flt
                      (of_Z (int16 shunt) * lit 0.01)%flt
                      (of_Z (int16 current) * current_lsb st)%flt
                      cal,
               set_i2c st b6)
            end
          end
        end
      end
    end
  end.

(** The query of a [/cal] request.  [q_i] and [q_v] are what [atof] makes of
    the parameters i and v, [None] for a parameter that is absent; [atof]
    reads inf and nan as well, so any value can arrive.  [q_saved] is the
    card: [None] when [SD.open] fails, otherwise what /cal.cfg holds once
    [printf] has written the two multipliers, as the numbers that
    [parseFloat] will find there at the next power-up. *)
Record cal_query : Type := mkCalQuery {
  q_i : option float;
  q_v : option float;
  q_saved : option (list float)
}.

(** [cal_set_handler]: without a query string ([None]) nothing is changed;
    with one, each parameter present replaces its multiplier, unchecked, and
    the file is rewritten when it opens. *)
Definition cal_set_handler (q : option cal_query) (st : state) : state :=
  match q with
  | None => st
  | Some q =>
      let ci := match q_i q with Some x => x | None => CAL_I st end in
      let cv := match q_v q with Some x => x | None => CAL_V st end in
      mkState (energy_Wh st) (lastEnergyMs st) ci cv
              (ina219_calValue st) (current_lsb st) (i2c st)
              (match q_saved q with Some f => Some f | None => cal_cfg st end)
  end.

(** The requests that read or change the state: [/data] (with the request's
    [millis()] and [time()]), [/diag] and [/cal].  The other routes (/,
    /charts, /agg/..., /cal/show) send text and change nothing, and [loop]
    is empty. *)
Inductive request : Type :=
| ReqData (now_ms now : Z)
| ReqDiag
| ReqCal (q : option cal_query).

(** The firmware after power-up: [setup], then the requests in turn.  The
    result lists the replies to the [/data] requests. *)
Fixpoint serve (reqs : list request) (st : state) : list reply * state :=
  match reqs with
  | [] => ([], st)
  | ReqData now_ms now :: rest =>
      let (r, st1) := data_get_handler now_ms now st in
      let (rs, st2) := serve rest st1 in
      (r :: rs, st2)
  | ReqDiag :: rest => serve rest (snd (diag_get_handler st))
  | ReqCal q :: rest => serve rest (cal_set_handler q st)
  end.

Definition run (b : bus) (cfg : option (list float)) (reqs : list request)
  : list reply * state :=
  serve reqs (setup (initial b cfg)).

End Fixed.

(* ================================================================== *)
(** * The calibration value in IEEE 754 arithmetic

    [INA219_init] once more, this time with the binary32 and binary64
    operations of the standard library's [SpecFloat] in place of the exact
    ones, to check that rounding does not move the calibration value.
    [MAX_CURRENT] and [SHUNT_OHMS] are [float] literals, [32768.0] and
    [0.04096] are [double] literals and [current_lsb] is a [float]. *)

Module Ieee.

Definition b32_div := SFdiv 24 128.
Definition b32_mul := SFmul 24 128.
Definition b64_div := SFdiv 53 1024.

Definition to_b32 (x : spec_float) : spec_float :=
  match x with
  | S754_finite s m e => binary_normalize 24 128 (if s then Zneg m else Zpos m) e s
  | _ => x
  end.

Definition to_b64 (x : spec_float) : spec_float :=
  match x with
  | S754_finite s m e => binary_normalize 53 1024 (if s then Zneg m else Zpos m) e s
  | _ => x
  end.

Definition b32_of_Z (z : Z) : spec_float := binary_normalize 24 128 z 0 false.
Definition b64_of_Z (z : Z) : spec_float := binary_normalize 53 1024 z 0 false.

(** [3.2f] and [0.1f]: the binary32 numbers nearest to 32/10 and 1/10. *)
Definition MAX_CURRENT : spec_float := b32_div (b32_of_Z 32) (b32_of_Z 10).
Definition SHUNT_OHMS : spec_float := b32_div (b32_of_Z 1) (b32_of_Z 10).

(** [current_lsb = MAX_CURRENT / 32768.0;] *)
Definition current_lsb : spec_float :=
  to_b32 (b64_div (to_b64 MAX_CURRENT) (b64_of_Z 32768)).

(** Truncation toward zero of a finite value. *)
Definition trunc (x : spec_float) : Z :=
  match x with
  | S754_finite s m e =>
      let v := if e <? 0 then Z.quot (Zpos m) (2 ^ (- e)) else Zpos m * 2 ^ e in
      if s then - v else v
  | _ => 0
  end.

(** [ina219_calValue = (uint16_t)(0.04096 / (current_lsb * SHUNT_OHMS));] *)
Definition ina219_calValue : Z :=
  trunc (b64_div (b64_div (b64_of_Z 4096) (b64_of_Z 100000))
                 (to_b64 (b32_mul current_lsb SHUNT_OHMS))) mod 65536.

End Ieee.

(* ================================================================== *)
(** * Arduino [String] operations used by the CSV code

    Indices are C [int]s: [indexOf] answers -1 when the character is absent.
    The sketches only pass non-negative indices to [substring]. *)

Module Str.

Definition length (s : string) : Z := Z.of_nat (String.length s).

Definition indexOf (ch : ascii) (from : Z) (s : string) : Z :=
  match String.index (Z.to_nat from) (String ch EmptyString) s with
  | Some n => Z.of_nat n
  | None => -1
  end.

(** [s.substring(left, right)]: the characters at [left .. right-1], with
    [right] clipped to the length. *)
Definition substring (left right : Z) (s : string) : string :=
  let l := Z.min left right in
  let r := Z.min (Z.max left right) (length s) in
  if length s <=? l then EmptyString
  else String.substring (Z.to_nat l) (Z.to_nat (r - l)) s.

(** [s.substring(left)] *)
Definition substring_from (left : Z) (s : string) : string :=
  substring left (length s) s.

Definition startsWith (p s : string) : bool := String.prefix p s.

Definition isspace (c : ascii) : bool :=
  let n := nat_of_ascii c in
  orb (Nat.eqb n 32) (andb (Nat.leb 9 n) (Nat.leb n 13)).

Fixpoint trim_left (s : string) : string :=
  match s with
  | String c r => if isspace c then trim_left r else s
  | EmptyString => EmptyString
  end.

(** Drops the trailing white space. *)
Fixpoint trim_right (s : string) : string :=
  match s with
  | EmptyString => EmptyString
  | String c r =>
      match trim_right r with
      | EmptyString => if isspace c then EmptyString else String c EmptyString
      | r' => String c r'
      end
  end.

Definition trim (s : string) : string := trim_right (trim_left s).

(** The lines that [while (f.available()) f.readStringUntil('\n')] yields on
    a file of content [s]. *)
Fixpoint readLines_aux (s : string) (cur : string) : list string :=
  match s with
  | EmptyString =>
      match cur with EmptyString => [] | _ => [cur] end
  | String c r =>
      if Ascii.eqb c "010"%char then cur :: readLines_aux r EmptyString
      else readLines_aux r (cur ++ String c EmptyString)
  end.

Definition readLines (s : string) : list string := readLines_aux s EmptyString.

End Str.

(* ================================================================== *)
(** * The C library and the clock

    [localtime_r], [mktime], [atol] ([String::toInt]) and [atof]
    ([String::toFloat]) belong to the platform, not to the sketches; the
    firmware is modelled over any implementation of them.  [mktime]
    normalises its argument in place, hence the pair. *)

Record tm : Type := mkTm {
  tm_sec : Z;
  tm_min : Z;
  tm_hour : Z;
  tm_mday : Z;
  tm_mon : Z;
  tm_year : Z
}.

Record Platform : Type := mkPlatform {
  localtime_r : Z -> tm;
  mktime : tm -> Z * tm;
  toInt : string -> Z;
  toFloat : string -> float
}.

(** Arduino's [Print] and the C library's formatting belong to the platform
    as well: [print(long)], [print(float, digits)], [printf] with "%.6f" and
    [strftime] with "%Y-%m-%d %H:%M:%S". *)
Record Printer : Type := mkPrinter {
  print_long : Z -> string;
  print_float : float -> Z -> string;
  printf_6f : float -> string;
  strftime_iso : tm -> string
}.

Definition CR : ascii := "013"%char.
Definition LF : ascii := "010"%char.

(** The line end of [println]. *)
Definition CRLF : string := String CR (String LF EmptyString).

(** Arrays of the sketches, indexed by C [int]s. *)
Definition array (A : Type) : Type := Z -> A.

Definition upd {A} (a : array A) (k : Z) (v : A) : array A :=
  fun j => if j =? k then v else a j.

(** [0, 1, ..., n-1] *)
Definition upto (n : nat) : list Z := map Z.of_nat (seq 0 n).

(* ================================================================== *)
(** * The sketch with the INA226 scaling and the CSV rollups *)

Module Legacy.

Definition SHUNT_OHMS : float := lit 0.0015.
Definition MAX_CURRENT : float := lit 15.

Record state : Type := mkState {
  energy_Wh : float;
  lastEnergyMs : Z;
  CAL_I : float;
  CAL_V : float;
  i2c : bus
}.

Definition initial (b : bus) : state := mkState (lit 0) 0 (lit 1) (lit 1) b.

(** What the Adafruit driver answers when the sketch falls back to it. *)
Record adafruit : Type := mkAdafruit {
  getBusVoltage_V : float;
  getCurrent_mA : float
}.

Definition INA219_read_vbus_V (vbusV : float) (b : bus) : bool * float * bus :=
  match i2c_read16 0x40 0x02 0 b with
  | (false, _, b') => (false, vbusV, b')
  | (true, raw, b') => (true, (of_Z raw * lit 0.00125)%flt, b')
  end.

Definition INA219_read_vshunt_mV (vshunt_mV : float) (b : bus) : bool * float * bus :=
  match i2c_read16 0x40 0x01 0 b with
  | (false, _, b') => (false, vshunt_mV, b')
  | (true, rawU, b') => (true, (of_Z (int16 rawU) * lit 0.0025)%flt, b')
  end.

Definition INA219_read_current_A (amps : float) (b : bus) : bool * float * bus :=
  match INA219_read_vshunt_mV (lit 0) b with
  | (false, _, b') => (false, amps, b')
  | (true, vshunt_mV, b') => (true, ((vshunt_mV / lit 1000) / SHUNT_OHMS)%flt, b')
  end.

Record reply : Type := mkReply {
  r_epoch : Z;
  r_voltage : float;
  r_current : float;
  r_power : float;
  r_energy_Wh : float
}.

(** One line of /log.csv as [data_get_handler] prints it. *)
Record row : Type := mkRow {
  row_epoch : Z;
  row_volts : float;
  row_amps : float;
  row_watts : float
}.

Definition data_get_handler (lib : adafruit) (nowMs now : Z) (st : state)
  : reply * row * state :=
  match INA219_read_vbus_V (lit 0) (i2c st) with
  | (vOk, v0, b1) =>
    let v_raw := if vOk then v0 else getBusVoltage_V lib in
    match INA219_read_current_A (lit 0) b1 with
    | (iOk, i0, b2) =>
      let i_raw := if iOk then i0 else (getCurrent_mA lib / lit 1000)%flt in
      let v := (v_raw * CAL_V st)%flt in
      let i := (i_raw * CAL_I st)%flt in
      let p := (v * i)%flt in
      let last := if lastEnergyMs st =? 0 then nowMs else lastEnergyMs st in
      let dt_h := (of_Z (ulong_sub nowMs last) / lit 3600000)%flt in
      let energy := (energy_Wh st + p * dt_h)%flt in
      match i2c_read16 0x40 0x02 0 b2 with
      | (_, _, b3) =>
        match i2c_read16 0x40 0x00 0 b3 with
        | (_, _, b4) =>
          let (_, b5) := probe 0x40 b4 in
          let (_, b6) := probe 0x41 b5 in
          (mkReply now v i p energy, mkRow now v i p,
           mkState energy nowMs (CAL_I st) (CAL_V st) b6)
        end
      end
    end
  end.

(** ** CSV rollups *)

Section Rollups.

Variable P : Platform.

(** [parseLogLine]: the epoch before the first comma and the watts after
    the fourth. *)
Definition parseLogLine (line : string) : option (Z * float) :=
  let a := Str.indexOf ","%char 0 line in
  if a <? 0 then None else
  let b := Str.indexOf ","%char (a + 1) line in
  if b <? 0 then None else
  let c := Str.indexOf ","%char (b + 1) line in
  if c <? 0 then None else
  let d := Str.indexOf ","%char (c + 1) line in
  if d <? 0 then None else
  let sEpoch := Str.substring 0 a line in
  let sWatts := Str.substring_from (d + 1) line in
  Some (toInt P sEpoch, toFloat P sWatts).

(** The lines the three loops look at: at least 10 characters, not the
    header, and accepted by [parseLogLine]. *)
Definition readRecord (line : string) : option (Z * float) :=
  if (Str.length line <? 10) || Str.startsWith "epoch" line then None
  else parseLogLine line.

Definition midnight (t : tm) : tm :=
  mkTm 0 0 0 (tm_mday t) (tm_mon t) (tm_year t).

Definition hourly_step (startDay endDay : Z)
  (acc : array float * array Z) (line : string) : array float * array Z :=
  match readRecord line with
  | None => acc
  | Some (ep, w) =>
      if (ep <? startDay) || (endDay <=? ep) then acc
      else
        let h := tm_hour (localtime_r P ep) in
        (upd (fst acc) h (fst acc h + w)%flt, upd (snd acc) h (snd acc h + 1))
  end.

(** [file] is the content of /log.csv, [None] when it cannot be opened.
    The result lists the 24 pairs (hour, value) of the JSON arrays. *)
Definition hourly_get_handler (now : Z) (file : option string) : list (Z * float) :=
  let startDay := fst (mktime P (midnight (localtime_r P now))) in
  let endDay := startDay + 24 * 3600 in
  let zero : array float * array Z := (fun _ => lit 0, fun _ => 0) in
  let acc :=
    match file with
    | Some s => fold_left (hourly_step startDay endDay) (Str.readLines s) zero
    | None => zero
    end in
  map (fun h =>
         (h, if snd acc h =? 0 then lit 0 else (fst acc h / of_Z (snd acc h))%flt))
      (upto 24).

Definition DAYS : Z := 30.

(** The loop state of [daily_get_handler] and [monthly_get_handler]. *)
Record trapz : Type := mkTrapz {
  wh : array float;
  epPrev : Z;
  wPrev : float
}.

(** [dt_h * pw] for the pair of readings (epPrev, wPrev), (ep, w). *)
Definition pair_energy (epPrev : Z) (wPrev : float) (ep : Z) (w : float) : float :=
  let dt_h := (of_Z (ep - epPrev) / lit 3600)%flt in
  let pw := (lit 0.5 * (wPrev + w))%flt in
  (pw * dt_h)%flt.

Definition day_index (today0 epPrev : Z) : Z :=
  let dayStartA := fst (mktime P (midnight (localtime_r P epPrev))) in
  Z.quot (today0 - dayStartA) 86400.

Definition daily_step (today0 : Z) (acc : trapz) (line : string) : trapz :=
  match readRecord line with
  | None => acc
  | Some (ep, w) =>
      let wh' :=
        if (0 <? epPrev acc) && (epPrev acc <? ep) then
          let idx := day_index today0 (epPrev acc) in
          if (0 <=? idx) && (idx <? DAYS) then
            upd (wh acc) (DAYS - 1 - idx)
                (wh acc (DAYS - 1 - idx) + pair_energy (epPrev acc) (wPrev acc) ep w)%flt
          else wh acc
        else wh acc in
      mkTrapz wh' ep w
  end.

(** The 30 pairs (slot, Wh); slot [i] is the day [DAYS-1-i] days before
    today. *)
Definition daily_get_handler (now : Z) (file : option string) : list (Z * float) :=
  let today0 := fst (mktime P (midnight (localtime_r P now))) in
  let zero := mkTrapz (fun _ => lit 0) 0 (lit 0) in
  let acc :=
    match file with
    | Some s => fold_left (daily_step today0) (Str.readLines s) zero
    | None => zero
    end in
  map (fun i => (i, wh acc i)) (upto 30).

Definition MOS : Z := 12.

Definition first_of_month (t : tm) : tm :=
  mkTm 0 0 0 1 (tm_mon t) (tm_year t).

(** [monthStart[i]] for [i < MOS]: [mktime] is called twice on the same
    structure. *)
Definition monthStart (now : Z) (i : Z) : Z :=
  let t := first_of_month (localtime_r P now) in
  let tt := mkTm (tm_sec t) (tm_min t) (tm_hour t) (tm_mday t)
                 (tm_mon t - (MOS - 1 - i)) (tm_year t) in
  fst (mktime P (snd (mktime P tt))).

(** The first [k] of [ks] with [ms == monthStart[k]]. *)
Fixpoint find_month (now ms : Z) (ks : list Z) : option Z :=
  match ks with
  | [] => None
  | k :: rest => if ms =? monthStart now k then Some k else find_month now ms rest
  end.

Definition month_index (now epPrev : Z) : option Z :=
  let ms := fst (mktime P (first_of_month (localtime_r P epPrev))) in
  find_month now ms (upto 12).

Definition monthly_step (now : Z) (acc : trapz) (line : string) : trapz :=
  match readRecord line with
  | None => acc
  | Some (ep, w) =>
      let wh' :=
        if (0 <? epPrev acc) && (epPrev acc <? ep) then
          match month_index now (epPrev acc) with
          | Some k => upd (wh acc) k (wh acc k + pair_energy (epPrev acc) (wPrev acc) ep w)%flt
          | None => wh acc
          end
        else wh acc in
      mkTrapz wh' ep w
  end.

Definition monthly_get_handler (now : Z) (file : option string) : list (Z * float) :=
  let zero := mkTrapz (fun _ => lit 0) 0 (lit 0) in
  let acc :=
    match file with
    | Some s => fold_left (monthly_step now) (Str.readLines s) zero
    | None => zero
    end in
  map (fun i => (i, wh acc i)) (upto 12).

(** ** Calibration file *)

Definition loadCal_step (cal : float * float) (line0 : string) : float * float :=
  let line := Str.trim line0 in
  if Str.startsWith "CAL_V=" line then (toFloat P (Str.substring_from 6 line), snd cal)
  else if Str.startsWith "CAL_I=" line then (fst cal, toFloat P (Str.substring_from 6 line))
  else cal.

(** [cal] is the pair (CAL_V, CAL_I); [file] is the content of /cal.cfg,
    [None] when it cannot be opened. *)
Definition loadCal (file : option string) (cal : float * float) : float * float :=
  match file with
  | None => cal
  | Some s => fold_left loadCal_step (Str.readLines s) cal
  end.

(** [if (CAL<=0 || !isfinite(CAL)) CAL=1.0f;] *)
Definition sanitize (x : float) : float :=
  if (x <=? lit 0)%flt || negb (isfinite x) then lit 1 else x.

(** The calibration part of [setup]: [loadCal] when the card mounts, then
    the two range checks.  The result is (CAL_V, CAL_I). *)
Definition setup_cal (sd_mounted : bool) (file : option string) : float * float :=
  let cal := if sd_mounted then loadCal file (lit 1, lit 1) else (lit 1, lit 1) in
  (sanitize (fst cal), sanitize (snd cal)).

End Rollups.

(** ** What the sketch writes to the card *)

Section Files.

Variable P : Platform.
Variable Pr : Printer.

Definition isoTime (ts : Z) : string := strftime_iso Pr (localtime_r P ts).

Definition CSV_HEADER : string := "epoch,iso,volts,amps,watts".

(** The text that [data_get_handler] appends to /log.csv for the row [r]. *)
Definition csv_line (r : row) : string :=
  (print_long Pr (row_epoch r) ++ ","
   ++ isoTime (row_epoch r) ++ ","
   ++ print_float Pr (row_volts r) 3 ++ ","
   ++ print_float Pr (row_amps r) 3 ++ ","
   ++ print_float Pr (row_watts r) 3 ++ CRLF)%string.

(** [ensureCsvHeader] on the content of /log.csv, [None] when the file does
    not exist; [opens] tells whether [SD.open] succeeds. *)
Definition ensureCsvHeader (opens : bool) (file : option string) : option string :=
  match file with
  | Some s => Some s
  | None => if opens then Some (CSV_HEADER ++ CRLF)%string else None
  end.

(** The append at the end of [data_get_handler]; opening for append creates
    a missing file. *)
Definition append_row (opens : bool) (file : option string) (r : row) : option string :=
  if opens then
    Some (match file with Some s => s | None => EmptyString end ++ csv_line r)%string
  else file.

(** [saveCal] on the content of /cal.cfg; [cal] is the pair (CAL_V, CAL_I).
    Opening for writing truncates the file. *)
Definition saveCal (opens : bool) (cal : float * float) (file : option string)
  : option string :=
  if opens then
    Some ("CAL_V=" ++ printf_6f Pr (fst cal) ++ String LF
            ("CAL_I=" ++ printf_6f Pr (snd cal) ++ String LF EmptyString))%string
  else file.

(** [cal_set_handler]: [qi] and [qv] are the values of the query parameters
    i and v, [None] when absent.  The result is the new pair (CAL_V, CAL_I)
    and the new content of /cal.cfg. *)
Definition cal_set_handler (qi qv : option float) (opens : bool)
  (cal : float * float) (file : option string) : (float * float) * option string :=
  let cal_i := match qi with Some i => i | None => snd cal end in
  let cal_v := match qv with Some v => v | None => fst cal end in
  ((cal_v, cal_i), saveCal opens (cal_v, cal_i) file).

End Files.

(** The [/data] requests of a run in turn, each with what the Adafruit
    driver would answer, its [millis()] and its [time()]; the result lists
    the replies. *)
Fixpoint serve (reqs : list (adafruit * Z * Z)) (st : state) : list reply * state :=
  match reqs with
  | [] => ([], st)
  | (lib, nowMs, now) :: rest =>
      match data_get_handler lib nowMs now st with
      | (r, _, st1) =>
          let (rs, st2) := serve rest st1 in
          (r :: rs, st2)
      end
  end.

End Legacy.

(* ================================================================== *)
(** * The sketch with the double-buffered snapshot
    (second sketch of solar_logger_ina219_fixed.ino) *)

Module Snapshot.

Definition SAMPLE_INTERVAL_MS : Z := 800.

Record Sample : Type := mkSample {
  v_bus_V : float;
  v_shunt_mV : float;
  current_mA : float;
  power_mW : float;
  v_source_V : float;
  ms : Z
}.

(** [Sample s;] with the member initialisers of the struct. *)
Definition Sample_default : Sample := mkSample NaN NaN NaN NaN NaN 0.

Record state : Type := mkState {
  SNAP : array Sample;
  SNAP_SEQ : Z;
  haveINA : bool;
  lastSampleMs : Z;
  lastEnergyMs : Z;
  energyToday_Wh : float
}.

Definition initial (have : bool) : state :=
  mkState (fun _ => Sample_default) 0 have 0 0 (lit 0).

Definition uint32 (z : Z) : Z := z mod 4294967296.

(** The reader's loop, for a reader that runs between two publications
    ([SNAP_SEQ] does not move while it runs); [fuel] bounds the number of
    iterations. *)
Fixpoint getSnapshotCopy (fuel : nat) (st : state) : option Sample :=
  match fuel with
  | O => None
  | S fuel' =>
      let s1 := SNAP_SEQ st in
      if negb (Z.land s1 1 =? 0) then getSnapshotCopy fuel' st
      else
        let out := SNAP st (Z.land s1 1) in
        let s2 := SNAP_SEQ st in
        if (s1 =? s2) && (Z.land s2 1 =? 0) then Some out
        else getSnapshotCopy fuel' st
  end.

Definition publishSnapshot (s : Sample) (st : state) : state :=
  let n := uint32 (SNAP_SEQ st + 1) in
  mkState (upd (SNAP st) (Z.land n 1) s) (uint32 (n + 1))
          (haveINA st) (lastSampleMs st) (lastEnergyMs st) (energyToday_Wh st).

(** What the Adafruit driver returns for the four readings. *)
Record readings : Type := mkReadings {
  getBusVoltage_V : float;
  getShuntVoltage_mV : float;
  getCurrent_mA : float;
  getPower_mW : float
}.

(** [now_ms] is [millis()]. *)
Definition sampleINA (lib : readings) (now_ms : Z) (st : state) : state :=
  let s := mkSample NaN NaN NaN NaN NaN now_ms in
  if negb (haveINA st) then publishSnapshot s st
  else
    let busV := getBusVoltage_V lib in
    let shunt_mV := getShuntVoltage_mV lib in
    let src :=
      if negb (isnan busV) && negb (isnan shunt_mV)
      then (busV + shunt_mV / lit 1000)%flt else NaN in
    publishSnapshot
      (mkSample busV shunt_mV (getCurrent_mA lib) (getPower_mW lib) src now_ms) st.

(** The numbers of [handleData]'s JSON object; [safeStr] prints the NaN
    ones as the text NaN. *)
Definition handleData (fuel : nat) (st : state) : option Sample :=
  getSnapshotCopy fuel st.

(** One turn of [loop] at [millis() = nowMs]. *)
Definition loop (fuel : nat) (lib : readings) (nowMs : Z) (st : state) : option state :=
  if SAMPLE_INTERVAL_MS <=? ulong_sub nowMs (lastSampleMs st) then
    let st1 := sampleINA lib nowMs st in
    match getSnapshotCopy fuel st1 with
    | None => None
    | Some s =>
        let hours := (of_Z (ulong_sub nowMs (lastEnergyMs st1)) / lit 3600000)%flt in
        let energy :=
          if negb (isnan (power_mW s))
          then (energyToday_Wh st1 + (power_mW s / lit 1000) * hours)%flt
          else energyToday_Wh st1 in
        Some (mkState (SNAP st1) (SNAP_SEQ st1) (haveINA st1) nowMs nowMs energy)
    end
  else Some st.

(** [setup]: [have] is the result of [ina219.begin], then one sample at
    [millis() = t0] and both time stamps at the [millis()] read after it,
    [t1]. *)
Definition setup (have : bool) (lib : readings) (t0 t1 : Z) : state :=
  let st := sampleINA lib t0 (initial have) in
  mkState (SNAP st) (SNAP_SEQ st) (haveINA st) t1 t1 (energyToday_Wh st).

(** The turns of [loop] in order, each with what the driver returns and
    its [millis()]. *)
Fixpoint run (fuel : nat) (turns : list (readings * Z)) (st : state) : option state :=
  match turns with
  | [] => Some st
  | (lib, nowMs) :: rest =>
      match loop fuel lib nowMs st with
      | Some st1 => run fuel rest st1
      | None => None
      end
  end.

End Snapshot.

(* ================================================================== *)
(** * The RTC + SD sketch *)

Module Adalogger.

Definition SHUNT_RESISTANCE_OHMS : float := lit 0.0015.
Definition SHUNT_MAX_CURRENT_A : float := lit 50.
Definition SHUNT_CALIBRATION_FACTOR : float := lit 6.2.
Definition LOG_INTERVAL_MS : Z := 5000.

(** RTClib's [DateTime]. *)
Record DateTime : Type := mkDateTime {
  year : Z;
  month : Z;
  day : Z;
  hour : Z;
  minute : Z;
  second : Z
}.

Record state : Type := mkState {
  lastLogMs : Z;
  lastEnergyMs : Z;
  energyToday_Wh : float;
  haveRTC : bool;
  haveINA : bool;
  haveSD : bool;
  lastDayOfYear : Z
}.

Definition initial : state := mkState 0 0 (lit 0) false false false (-1).

Definition dim : list Z := [31; 28; 31; 30; 31; 30; 31; 31; 30; 31; 30; 31].

Definition leap (y : Z) : bool :=
  ((Z.rem y 4 =? 0) && negb (Z.rem y 100 =? 0)) || (Z.rem y 400 =? 0).

(** [for (int m = 1; m < dt.month(); m++)] *)
Definition dayOfYear (dt : DateTime) : Z :=
  fold_left
    (fun d m =>
       let d1 := d + nth (Z.to_nat (m - 1)) dim 0 in
       if (m =? 2) && leap (year dt) then d1 + 1 else d1)
    (map (fun k => k + 1) (upto (Z.to_nat (month dt - 1))))
    (day dt).

Definition set_energy (st : state) (e : float) (doy : Z) : state :=
  mkState (lastLogMs st) (lastEnergyMs st) e
          (haveRTC st) (haveINA st) (haveSD st) doy.

Definition maybeMidnightReset (now : DateTime) (st : state) : state :=
  let doy := dayOfYear now in
  if lastDayOfYear st =? -1 then set_energy st (energyToday_Wh st) doy
  else if negb (doy =? lastDayOfYear st) then set_energy st (lit 0) doy
  else st.

(** [initRTC]: [rtc_now] is [None] when [rtc.begin()] fails. *)
Definition initRTC (rtc_now : option DateTime) (st : state) : state :=
  match rtc_now with
  | None =>
      mkState (lastLogMs st) (lastEnergyMs st) (energyToday_Wh st)
              false (haveINA st) (haveSD st) (lastDayOfYear st)
  | Some now =>
      mkState (lastLogMs st) (lastEnergyMs st) (energyToday_Wh st)
              true (haveINA st) (haveSD st) (dayOfYear now)
  end.

(** What the Adafruit driver returns. *)
Record readings : Type := mkReadings {
  getShuntVoltage_mV : float;
  getBusVoltage_V : float
}.

(** The numbers of one CSV line. *)
Record row : Type := mkRow {
  row_sourceV : float;
  row_busV : float;
  row_shunt_mV : float;
  row_current_mA : float;
  row_power_mW : float;
  row_energy : float
}.

(** [(abs(shunt_mV / 1000.0) / SHUNT_RESISTANCE_OHMS) * SHUNT_CALIBRATION_FACTOR] *)
Definition current_A_of (shunt_mV : float) : float :=
  ((fabs (shunt_mV / lit 1000) / SHUNT_RESISTANCE_OHMS) * SHUNT_CALIBRATION_FACTOR)%flt.

(** [rtc_now] is what [rtc.now()] returns (used only when [haveRTC]),
    [tNow] is [millis()]. *)
Definition logSample (rtc_now : DateTime) (lib : readings) (tNow : Z) (st : state)
  : row * state :=
  let st1 := if haveRTC st then maybeMidnightReset rtc_now st else st in
  let shunt_mV := if haveINA st1 then getShuntVoltage_mV lib else NaN in
  let busV := if haveINA st1 then getBusVoltage_V lib else NaN in
  let current_A := current_A_of shunt_mV in
  let current_mA := if haveINA st1 then (current_A * lit 1000)%flt else NaN in
  let power_mW := if haveINA st1 then ((busV * current_A) * lit 1000)%flt else NaN in
  let sourceV :=
    if negb (isnan busV) && negb (isnan shunt_mV)
    then (busV + shunt_mV / lit 1000)%flt else NaN in
  let hours := (of_Z (ulong_sub tNow (lastEnergyMs st1)) / lit 3600000)%flt in
  let energy :=
    if negb (isnan power_mW)
    then (energyToday_Wh st1 + (power_mW / lit 1000) * hours)%flt
    else energyToday_Wh st1 in
  (mkRow sourceV busV shunt_mV current_mA power_mW energy,
   mkState (lastLogMs st1) tNow energy
           (haveRTC st1) (haveINA st1) (haveSD st1) (lastDayOfYear st1)).

(** [initINA] and [initSD] record whether the device answered. *)
Definition initINA (ok : bool) (st : state) : state :=
  mkState (lastLogMs st) (lastEnergyMs st) (energyToday_Wh st)
          (haveRTC st) ok (haveSD st) (lastDayOfYear st).

Definition initSD (ok : bool) (st : state) : state :=
  mkState (lastLogMs st) (lastEnergyMs st) (energyToday_Wh st)
          (haveRTC st) (haveINA st) ok (lastDayOfYear st).

(** [setup]: the three device initialisations, then
    [lastEnergyMs = millis()]. *)
Definition setup (ina_ok : bool) (rtc_now : option DateTime) (sd_ok : bool) (now_ms : Z)
  : state :=
  let st := initSD sd_ok (initRTC rtc_now (initINA ina_ok initial)) in
  mkState (lastLogMs st) now_ms (energyToday_Wh st)
          (haveRTC st) (haveINA st) (haveSD st) (lastDayOfYear st).

(** One turn of [loop] at [millis() = nowMs]. *)
Definition loop (rtc_now : DateTime) (lib : readings) (nowMs : Z) (st : state) : state :=
  if LOG_INTERVAL_MS <=? ulong_sub nowMs (lastLogMs st) then
    snd (logSample rtc_now lib nowMs
           (mkState nowMs (lastEnergyMs st) (energyToday_Wh st)
                    (haveRTC st) (haveINA st) (haveSD st) (lastDayOfYear st)))
  else st.

(** The states the sketch goes through; the RTC reports days of the month
    as unsigned numbers. *)
Inductive reachable : state -> Prop :=
| reach_setup ina_ok rtc_now sd_ok now_ms :
    (forall dt, rtc_now = Some dt -> 0 <= day dt) ->
    reachable (setup ina_ok rtc_now sd_ok now_ms)
| reach_loop rtc_now lib nowMs st :
    reachable st -> 0 <= day rtc_now ->
    reachable (loop rtc_now lib nowMs st).

(** ** Rollups over /solar_log.csv *)

Section Rollups.

Variable P : Platform.

(** [parseLogLine]: timestamp, source voltage, current (A) and power (mW)
    of a line with at least six commas. *)
Definition parseLogLine (line : string) : option (string * float * float * float) :=
  let idx1 := Str.indexOf ","%char 0 line in
  if idx1 <? 0 then None else
  let idx2 := Str.indexOf ","%char (idx1 + 1) line in
  if idx2 <? 0 then None else
  let idx3 := Str.indexOf ","%char (idx2 + 1) line in
  if idx3 <? 0 then None else
  let idx4 := Str.indexOf ","%char (idx3 + 1) line in
  if idx4 <? 0 then None else
  let idx5 := Str.indexOf ","%char (idx4 + 1) line in
  if idx5 <? 0 then None else
  let idx6 := Str.indexOf ","%char (idx5 + 1) line in
  if idx6 <? 0 then None else
  Some (Str.substring 0 idx1 line,
        toFloat P (Str.substring (idx1 + 1) idx2 line),
        (toFloat P (Str.substring (idx4 + 1) idx5 line) / lit 1000)%flt,
        toFloat P (Str.substring (idx5 + 1) idx6 line)).

(** The hour field of a timestamp such as 2025-09-21T10:13:45, when the
    three tests of [handleHourly] let it through.  [ts.length() - 8] is an
    unsigned subtraction. *)
Definition hour_of (ts : string) : option Z :=
  let tPos := Str.indexOf "T"%char 0 ts in
  if (0 <? tPos) && (tPos <? (Str.length ts - 8) mod 4294967296) then
    let timeStr := Str.substring_from (tPos + 1) ts in
    let colonPos := Str.indexOf ":"%char 0 timeStr in
    if 2 <=? colonPos then
      let h := toInt P (Str.substring 0 colonPos timeStr) in
      if (0 <=? h) && (h <? 24) then Some h else None
    else None
  else None.

Definition hourly_step (acc : array float * array Z) (line0 : string)
  : array float * array Z :=
  let line := Str.trim line0 in
  if Str.length line =? 0 then acc
  else
    match parseLogLine line with
    | None => acc
    | Some (ts, _, _, p) =>
        match hour_of ts with
        | Some h => (upd (fst acc) h (fst acc h + p)%flt, upd (snd acc) h (snd acc h + 1))
        | None => acc
        end
    end.

(** [file] is the content of /solar_log.csv when the card is present and the
    file opens; [rtc_hour] is [now.hour()] when the RTC is present.  The
    result lists the pairs (hour, value in W) of the JSON arrays. *)
Definition handleHourly (rtc_hour : option Z) (file : option string) : list (Z * float) :=
  let zero : array float * array Z := (fun _ => lit 0, fun _ => 0) in
  let acc :=
    match file with
    | Some s => fold_left hourly_step (tl (Str.readLines s)) zero
    | None => zero
    end in
  let currentHour := match rtc_hour with Some h => h | None => 23 end in
  map (fun h =>
         (h, if 0 <? snd acc h
             then ((fst acc h / of_Z (snd acc h)) / lit 1000)%flt
             else lit 0))
      (filter (fun h => h <=? currentHour) (upto 24)).

(** The date fields of a timestamp, when the tests of [handleDaily] let it
    through. *)
Definition date_of (ts : string) : option (Z * Z * Z) :=
  let tPos := Str.indexOf "T"%char 0 ts in
  if 0 <? tPos then
    let dateStr := Str.substring 0 tPos ts in
    let dash1 := Str.indexOf "-"%char 0 dateStr in
    let dash2 := Str.indexOf "-"%char (dash1 + 1) dateStr in
    if (0 <? dash1) && (0 <? dash2) then
      Some (toInt P (Str.substring 0 dash1 dateStr),
            toInt P (Str.substring (dash1 + 1) dash2 dateStr),
            toInt P (Str.substring_from (dash2 + 1) dateStr))
    else None
  else None.

Definition DAYS : Z := 30.

Definition daily_step (today : DateTime) (acc : array float * array Z) (line0 : string)
  : array float * array Z :=
  let line := Str.trim line0 in
  if Str.length line =? 0 then acc
  else
    match parseLogLine line with
    | None => acc
    | Some (ts, _, _, p) =>
        match date_of ts with
        | Some (y, m, d) =>
            let daysAgo := (year today - y) * 365 + (month today - m) * 30 + (day today - d) in
            if (0 <=? daysAgo) && (daysAgo <? DAYS) then
              let idx := DAYS - 1 - daysAgo in
              (upd (fst acc) idx (fst acc idx + p)%flt, upd (snd acc) idx (snd acc idx + 1))
            else acc
        | None => acc
        end
    end.

(** Daily energy from the average power and the number of readings, each
    reading standing for 5 seconds. *)
Definition daily_wh (dailySum : float) (dailyCnt : Z) : float :=
  if 0 <? dailyCnt then
    let hours := ((of_Z dailyCnt * lit 5) / lit 3600)%flt in
    (((dailySum / of_Z dailyCnt) * hours) / lit 1000)%flt
  else lit 0.

(** [rtc_now] is [None] without RTC; the result lists the pairs (slot, Wh)
    of the last seven of the thirty slots. *)
Definition handleDaily (rtc_now : option DateTime) (file : option string)
  : list (Z * float) :=
  let zero : array float * array Z := (fun _ => lit 0, fun _ => 0) in
  let acc :=
    match rtc_now, file with
    | Some today, Some s => fold_left (daily_step today) (tl (Str.readLines s)) zero
    | _, _ => zero
    end in
  map (fun i => (i, daily_wh (fst acc i) (snd acc i)))
      (map (fun k => k + 23) (upto 7)).


End Rollups.

(** ** Bus scan, raw register page and live readings *)

(** One hexadecimal digit, upper case. *)
Definition hex_digit (n : Z) : ascii :=
  nth (Z.to_nat n) (list_ascii_of_string "0123456789ABCDEF") "0"%char.

(** [snprintf(buf, sizeof(buf), "0x%02X", a)] for a 7-bit address. *)
Definition hex_addr (a : Z) : string :=
  String "0" (String "x" (String (hex_digit (a / 16)) (String (hex_digit (a mod 16)) EmptyString))).

(** The body of the scan loop for address [a]: [s] is [i2cSeen], [n] the
    number of devices found so far. *)
Definition scan_step (acc : string * Z * bus) (a : Z) : string * Z * bus :=
  let '(s, n, b) := acc in
  let (ok, b') := probe a b in
  if ok then (String.append (if n =? 0 then s else String.append s " ") (hex_addr a), n + 1, b')
  else (s, n, b').

(** [detectI2CDevices]: addresses 1 to 126 in turn; the result is the new
    [i2cSeen]. *)
Definition detectI2CDevices (b : bus) : string * bus :=
  let '(s, _, b') :=
    fold_left scan_step (map (fun k => k + 1) (upto 126)) (EmptyString, 0, b) in
  (if Str.length s =? 0 then "none"%string else s, b').

(** [inaReadRegSafe]: up to [retries] attempts, each one the register
    pointer write followed by the two-byte read.  The second component is
    [outVal], 0xFFFF when every attempt failed. *)
Fixpoint inaReadRegSafe (addr reg : Z) (retries : nat) (b : bus) : bool * Z * bus :=
  match retries with
  | O => (false, 0xFFFF, b)
  | S n =>
      match i2c_read16 addr reg 0 b with
      | (true, v, b') => (true, v, b')
      | (false, _, b') => inaReadRegSafe addr reg n b'
      end
  end.

(** The numbers of the page sent by [/ina219]. *)
Record regs : Type := mkRegs {
  g_cfg : Z;
  g_shunt : Z;
  g_bus : Z;
  g_power : Z;
  g_curr : Z;
  g_cal : Z
}.

(** [handleINAregs]: the six registers with the default of four attempts
    each. *)
Definition handleINAregs (b : bus) : regs * bus :=
  match inaReadRegSafe 0x40 0x00 4 b with
  | (ok_cfg, cfg, b1) =>
    match inaReadRegSafe 0x40 0x01 4 b1 with
    | (ok_shunt, shunt, b2) =>
      match inaReadRegSafe 0x40 0x02 4 b2 with
      | (ok_bus, vbus, b3) =>
        match inaReadRegSafe 0x40 0x03 4 b3 with
        | (ok_power, power, b4) =>
          match inaReadRegSafe 0x40 0x04 4 b4 with
          | (ok_curr, curr, b5) =>
            match inaReadRegSafe 0x40 0x05 4 b5 with
            | (ok_cal, cal, b6) =>
              (mkRegs (if ok_cfg then cfg else 65535)
                      (if ok_shunt then int16 shunt else -1)
                      (if ok_bus then vbus else 65535)
                      (if ok_power then power else 65535)
                      (if ok_curr then int16 curr else -1)
                      (if ok_cal then cal else 65535),
               b6)
            end
          end
        end
      end
    end
  end.

(** [handleData]: the numbers of the JSON object of [/data], in the order
    source voltage, load voltage, shunt voltage, current, power, energy of
    the day. *)
Definition handleData (lib : readings) (st : state) : row :=
  let shunt_mV := if haveINA st then getShuntVoltage_mV lib else NaN in
  let busV := if haveINA st then getBusVoltage_V lib else NaN in
  let srcV :=
    if haveINA st && negb (isnan busV) && negb (isnan shunt_mV)
    then (busV + shunt_mV / lit 1000)%flt else NaN in
  let current_A := current_A_of shunt_mV in
  let measured := haveINA st && negb (isnan shunt_mV) in
  mkRow srcV busV shunt_mV
        (if measured then (current_A * lit 1000)%flt else NaN)
        (if measured then ((busV * current_A) * lit 1000)%flt else NaN)
        (energyToday_Wh st).

(** ** What the sketch writes to the card *)

Definition CSV_HEADER : string :=
  "timestamp,voltage_source_V,voltage_load_V,shunt_mV,current_mA,power_mW,energy_today_Wh".

(** The time stamp of [logSample] without RTC: the seconds since power-up
    followed by the letter s. *)
Definition uptime_stamp (Pr : Printer) (tNow : Z) : string :=
  (print_long Pr (tNow / 1000) ++ "s")%string.

(** The text that [logSample] appends to /solar_log.csv for the time stamp
    [ts] and the row [r]. *)
Definition csv_line (Pr : Printer) (ts : string) (r : row) : string :=
  (ts ++ ","
   ++ print_float Pr (row_sourceV r) 3 ++ ","
   ++ print_float Pr (row_busV r) 3 ++ ","
   ++ print_float Pr (row_shunt_mV r) 3 ++ ","
   ++ print_float Pr (row_current_mA r) 3 ++ ","
   ++ print_float Pr (row_power_mW r) 2 ++ ","
   ++ print_float Pr (row_energy r) 3 ++ CRLF)%string.

(** The file part of [initSD] on the content of /solar_log.csv, [None] when
    the file does not exist; [opens] tells whether [SD.open] succeeds. *)
Definition initSD_file (opens : bool) (file : option string) : option string :=
  match file with
  | Some s => Some s
  | None => if opens then Some (CSV_HEADER ++ CRLF)%string else None
  end.

(** The append at the end of [logSample]; nothing is written without card
    or when the file does not open. *)
Definition append_sample (Pr : Printer) (opens : bool) (st : state)
  (file : option string) (ts : string) (r : row) : option string :=
  if haveSD st && opens then
    Some (match file with Some s => s | None => EmptyString end ++ csv_line Pr ts r)%string
  else file.

(** ** Weekly chart *)

(** [(currentDayOfWeek - (DAYS - 1 - i) + 7) % 7], the index of the label of
    bar [i]; 0 is Sunday. *)
Definition weekly_label (currentDayOfWeek i : Z) : Z :=
  Z.rem (currentDayOfWeek - (7 - 1 - i) + 7) 7.

(** [handleWeekly]: the seven bars as pairs (label index, value); [dow] is
    [now.dayOfTheWeek()] with an RTC. *)
Definition handleWeekly (dow : option Z) (st : state) : list (Z * float) :=
  let currentDayOfWeek := match dow with Some d => d | None => 0 end in
  map (fun i =>
         (weekly_label currentDayOfWeek i,
          (energyToday_Wh st * (if i =? 7 - 1 then lit 1 else lit 0))%flt))
      (upto 7).

End Adalogger.

(* ================================================================== *)
(** * A concrete platform, for running the rollups

    UTC calendar ([localtime_r] and [mktime] by the usual days-from-civil
    arithmetic) and plain decimal [atol]/[atof] (optional sign, digits,
    optional fraction; the words nan and inf).  Used by the examples only:
    the statements about the rollups hold for every [Platform]. *)

Module Utc.

Definition digit_of (c : ascii) : option Z :=
  let n := Z.of_nat (nat_of_ascii c) in
  if (48 <=? n) && (n <=? 57) then Some (n - 48) else None.

(** Reads the leading digits of [s]: their value after [acc], how many there
    were, and the rest of the string. *)
Fixpoint digits (s : string) (acc : Z) (n : nat) : Z * nat * string :=
  match s with
  | EmptyString => (acc, n, s)
  | String c r =>
      match digit_of c with
      | Some d => digits r (10 * acc + d) (S n)
      | None => (acc, n, s)
      end
  end.

Definition unsigned_part (s : string) : string * bool :=
  match s with
  | String c r =>
      if Ascii.eqb c "-"%char then (r, true)
      else if Ascii.eqb c "+"%char then (r, false)
      else (s, false)
  | EmptyString => (s, false)
  end.

Definition atol (s : string) : Z :=
  let (u, neg) := unsigned_part (Str.trim_left s) in
  let v := fst (fst (digits u 0 0)) in
  if neg then - v else v.

Definition atof (s : string) : float :=
  let (u, neg) := unsigned_part (Str.trim_left s) in
  if Str.startsWith "nan" u then NaN
  else if Str.startsWith "inf" u then Inf neg
  else
    match digits u 0 0 with
    | (ip, _, rest) =>
        let q :=
          match rest with
          | String c r =>
              if Ascii.eqb c "."%char then
                match digits r 0 0 with
                | (fp, k, _) => (inject_Z ip + inject_Z fp / inject_Z (10 ^ Z.of_nat k))%Q
                end
              else inject_Z ip
          | EmptyString => inject_Z ip
          end in
        Num (Qred (if neg then - q else q))
    end.

Definition days_from_civil (y0 m d : Z) : Z :=
  let y := if m <=? 2 then y0 - 1 else y0 in
  let era := y / 400 in
  let yoe := y - era * 400 in
  let mp := if 2 <? m then m - 3 else m + 9 in
  let doy := (153 * mp + 2) / 5 + d - 1 in
  let doe := yoe * 365 + yoe / 4 - yoe / 100 + doy in
  era * 146097 + doe - 719468.

Definition civil_from_days (z0 : Z) : Z * Z * Z :=
  let z := z0 + 719468 in
  let era := z / 146097 in
  let doe := z - era * 146097 in
  let yoe := (doe - doe / 1460 + doe / 36524 - doe / 146096) / 365 in
  let y := yoe + era * 400 in
  let doy := doe - (365 * yoe + yoe / 4 - yoe / 100) in
  let mp := (5 * doy + 2) / 153 in
  let d := doy - (153 * mp + 2) / 5 + 1 in
  let m := if mp <? 10 then mp + 3 else mp - 9 in
  (if m <=? 2 then y + 1 else y, m, d).

(** [tm_mon] counts from 0 and [tm_year] from 1900. *)
Definition gmtime (t : Z) : tm :=
  let days := t / 86400 in
  let secs := t mod 86400 in
  match civil_from_days days with
  | (y, m, d) => mkTm (secs mod 60) ((secs / 60) mod 60) (secs / 3600) d (m - 1) (y - 1900)
  end.

Definition timegm (t : tm) : Z * tm :=
  let y := tm_year t + 1900 + tm_mon t / 12 in
  let m := tm_mon t mod 12 + 1 in
  let e := days_from_civil y m (tm_mday t) * 86400
           + tm_hour t * 3600 + tm_min t * 60 + tm_sec t in
  (e, gmtime e).

Definition platform : Platform := mkPlatform gmtime timegm atol atof.

(** A printer for the examples: decimal integers, fixed-point numbers
    rounded half up in the last place as [Print::printFloat] does, and the
    ISO format of [strftime]. *)
Definition print_long (n : Z) : string :=
  DecimalString.NilZero.string_of_int (Z.to_int n).

Fixpoint frac_digits (w : nat) (frac : Z) : string :=
  match w with
  | O => EmptyString
  | S w' =>
      (frac_digits w' (frac / 10)
       ++ String (ascii_of_nat (48 + Z.to_nat (frac mod 10))) EmptyString)%string
  end.

Definition print_float (x : float) (digits : Z) : string :=
  match x with
  | NaN => "nan"%string
  | Inf _ => "inf"%string
  | Num q =>
      let scale := inject_Z (10 ^ digits) in
      let a := (Qabs q + (1 # 2) / scale)%Q in
      let ip := Qfloor a in
      let frac := Qfloor ((a - inject_Z ip) * scale)%Q in
      let sign : string := if Qneg q then "-"%string else EmptyString in
      let tail : string :=
        if 0 <? digits then String "."%char (frac_digits (Z.to_nat digits) frac)
        else EmptyString in
      (sign ++ print_long ip ++ tail)%string
  end.

Definition pad2 (n : Z) : string :=
  if n <? 10 then String "0"%char (print_long n) else print_long n.

Definition strftime_iso (t : tm) : string :=
  (print_long (tm_year t + 1900) ++ "-" ++ pad2 (tm_mon t + 1) ++ "-" ++ pad2 (tm_mday t)
   ++ " " ++ pad2 (tm_hour t) ++ ":" ++ pad2 (tm_min t) ++ ":" ++ pad2 (tm_sec t))%string.

Definition printer : Printer :=
  mkPrinter print_long print_float (fun x => print_float x 6) strftime_iso.

End Utc.

(* ================================================================== *)
(** * A platform with daylight time, for running the rollups

    US Central time in 2023, the zone of the string CST6CDT,M3.2.0,M11.1.0
    that the sketches give as example: six hours behind UTC, five hours
    from 12 March 08:00 UTC to 5 November 07:00 UTC.  12 March has 23 hours
    and 5 November 25.  Used by the examples only. *)

Module Dst.

Definition summer_begin : Z := 1678608000.
Definition summer_end : Z := 1699167600.

(** Local time minus UTC, in seconds. *)
Definition utc_offset (t : Z) : Z :=
  if (summer_begin <=? t) && (t <? summer_end) then -18000 else -21600.

Definition localtime (t : Z) : tm := Utc.gmtime (t + utc_offset t).

(** The instant at which the local clock shows [t]: the reading as a summer
    time when that instant lies in the summer, as a winter time otherwise. *)
Definition mktime (t : tm) : Z * tm :=
  let e := fst (Utc.timegm t) in
  let r := if (summer_begin <=? e + 18000) && (e + 18000 <? summer_end)
           then e + 18000 else e + 21600 in
  (r, localtime r).

Definition platform : Platform := mkPlatform localtime mktime Utc.atol Utc.atof.

End Dst.

(* ================================================================== *)
(** * What the rollups and the calibration load are meant to compute

    These definitions follow the specification's words; the theorems below
    compare them with the loops of the sketches.  Where the first sketch
    measures the day in seconds from the local midnight, the sums are given
    twice: by calendar day ([in_hour], [in_day]) and by these seconds
    ([in_window], [in_period]); likewise for the months, by calendar month
    ([in_month]) and by the instants at which the month slots start
    ([in_month_slot]). *)

Module Spec.

Section WithPlatform.

Variable P : Platform.

(** The records of a log, in file order: the lines the loops accept. *)
Definition records (lines : list string) : list (Z * float) :=
  flat_map (fun l => match Legacy.readRecord P l with Some r => [r] | None => [] end) lines.

Definition fsum (l : list float) : float := fold_left fadd l (lit 0).

(** Start of the local day of [now]. *)
Definition day_start (now : Z) : Z :=
  fst (mktime P (Legacy.midnight (localtime_r P now))).

(** The number of the local calendar day of the instant [t]: the days from
    1 January 1970 to the date that the local clock shows at [t]. *)
Definition date_number (t : Z) : Z :=
  let d := localtime_r P t in
  Utc.days_from_civil (tm_year d + 1900) (tm_mon d + 1) (tm_mday d).

(** The record is of today, the local calendar day of [now], and its
    timestamp falls in hour [h]. *)
Definition in_hour (now h : Z) (r : Z * float) : bool :=
  (date_number (fst r) =? date_number now)
  && (tm_hour (localtime_r P (fst r)) =? h).

(** The record lies in the 24 * 3600 seconds that follow the start of the
    local day of [now] and its timestamp shows hour [h]. *)
Definition in_window (now h : Z) (r : Z * float) : bool :=
  (day_start now <=? fst r) && (fst r <? day_start now + 24 * 3600)
  && (tm_hour (localtime_r P (fst r)) =? h).

(** Sum divided by count, 0 for an empty bucket. *)
Definition mean (ws : list float) : float :=
  match ws with
  | [] => lit 0
  | _ => (fsum ws / of_Z (Z.of_nat (List.length ws)))%flt
  end.

(** The hourly means of today's records: for each of the 24 hours the mean
    power of the records of today whose timestamp falls in that hour. *)
Definition hourly_today (now : Z) (recs : list (Z * float)) : list (Z * float) :=
  map (fun h => (h, mean (map snd (filter (in_hour now h) recs)))) (upto 24).

(** The hourly means over the window of 24 * 3600 seconds that starts with
    the local day of [now]. *)
Definition hourly (now : Z) (recs : list (Z * float)) : list (Z * float) :=
  map (fun h => (h, mean (map snd (filter (in_window now h) recs)))) (upto 24).

(** At the instant [t] the local days start [off] seconds after the days of
    UTC: the local day of [t] starts at [86400 * date_number t + off], and
    [t] lies in the 86400 seconds from there. *)
Definition steady_at (off t : Z) : bool :=
  (day_start t =? 86400 * date_number t + off)
  && (day_start t <=? t) && (t <? day_start t + 86400).

(** The local clock keeps one offset from UTC over the records and the
    present. *)
Definition steady (off now : Z) (recs : list (Z * float)) : bool :=
  forallb (steady_at off) (now :: map fst recs).

(** Consecutive pairs of readings. *)
Fixpoint pairs_from (prev : Z * float) (recs : list (Z * float))
  : list ((Z * float) * (Z * float)) :=
  match recs with
  | [] => []
  | r :: rest => (prev, r) :: pairs_from r rest
  end.

Definition pairs (recs : list (Z * float)) : list ((Z * float) * (Z * float)) :=
  match recs with
  | [] => []
  | r :: rest => pairs_from r rest
  end.

(** Elapsed hours times the average of the two powers. *)
Definition trapezoid (pr : (Z * float) * (Z * float)) : float :=
  ((lit 0.5 * (snd (fst pr) + snd (snd pr)))
   * (of_Z (fst (snd pr) - fst (fst pr)) / lit 3600))%flt.

(** The pair counts: its earlier reading has a positive epoch and lies
    strictly before the later one. *)
Definition advancing (pr : (Z * float) * (Z * float)) : bool :=
  (0 <? fst (fst pr)) && (fst (fst pr) <? fst (snd pr)).

(** Energy of the pairs whose earlier reading falls in the bucket [sel]. *)
Definition energy (sel : Z -> bool) (recs : list (Z * float)) : float :=
  fsum (map trapezoid
          (filter (fun pr => advancing pr && sel (fst (fst pr))) (pairs recs))).

(** The local calendar day of the earlier reading is the day of slot
    [slot], which is [29 - slot] calendar days before today. *)
Definition in_day (now slot : Z) (ep : Z) : bool :=
  let back := date_number now - date_number ep in
  (0 <=? back) && (back <? 30) && (slot =? 29 - back).

(** The local day of the earlier reading starts [29 - slot] whole periods
    of 86400 seconds before the local day of [now] does. *)
Definition in_period (now slot : Z) (ep : Z) : bool :=
  let idx := Z.quot (day_start now - day_start ep) 86400 in
  (0 <=? idx) && (idx <? 30) && (slot =? 29 - idx).

(** The daily energies of the last 30 calendar days: each pair of readings
    counts for the calendar day of its earlier reading. *)
Definition daily_by_date (now : Z) (recs : list (Z * float)) : list (Z * float) :=
  map (fun i => (i, energy (in_day now i) recs)) (upto 30).

(** The daily energies by periods of 86400 seconds between the starts of
    the local days. *)
Definition daily (now : Z) (recs : list (Z * float)) : list (Z * float) :=
  map (fun i => (i, energy (in_period now i) recs)) (upto 30).

(** Start of the local month of [ep]. *)
Definition month_start (ep : Z) : Z :=
  fst (mktime P (Legacy.first_of_month (localtime_r P ep))).

(** The number of the local calendar month of the instant [t]: the months
    from January of the year 0 to the month that the local clock shows at
    [t]. *)
Definition month_number (t : Z) : Z :=
  let d := localtime_r P t in
  (tm_year d + 1900) * 12 + tm_mon d.


(** Slot [k] is the first of the twelve month slots that starts where the
    month of the earlier reading starts. *)
Definition in_month_slot (now k : Z) (ep : Z) : bool :=
  match find (fun j => month_start ep =? Legacy.monthStart P now j) (upto 12) with
  | Some j => j =? k
  | None => false
  end.


(** The monthly energies by the instants at which the twelve month slots
    start. *)
Definition monthly (now : Z) (recs : list (Z * float)) : list (Z * float) :=
  map (fun i => (i, energy (in_month_slot now i) recs)) (upto 12).

(** The local clock counts the month of [t] from 0 to 11, and the start of
    the month of [t], as [mktime] gives it, lies in that month. *)
Definition month_at (t : Z) : bool :=
  (0 <=? tm_mon (localtime_r P t)) && (tm_mon (localtime_r P t) <? 12)
  && (month_number (month_start t) =? month_number t).

(** Slot [k] of the twelve month slots starts the calendar month that lies
    [11 - k] months before the present one. *)
Definition month_slot_at (now k : Z) : bool :=
  let s := Legacy.monthStart P now k in
  (0 <=? tm_mon (localtime_r P s)) && (tm_mon (localtime_r P s) <? 12)
  && (month_number s =? month_number now - (11 - k))
  && (month_start s =? s).

(** [mktime] and [localtime_r] agree on the months of the twelve slots and
    of the records. *)
Definition months_agree (now : Z) (recs : list (Z * float)) : bool :=
  forallb (month_slot_at now) (upto 12) && forallb (fun r => month_at (fst r)) recs.

(** The readings of the RTC + SD log that carry an hour of the day, in file
    order, as pairs (hour, power in mW); [lines] are the lines after the
    header. *)
Definition hour_readings (lines : list string) : list (Z * float) :=
  flat_map
    (fun l0 =>
       let l := Str.trim l0 in
       if Str.length l =? 0 then []
       else
         match Adalogger.parseLogLine P l with
         | Some (ts, _, _, p) =>
             match Adalogger.hour_of P ts with
             | Some h => [(h, p)]
             | None => []
             end
         | None => []
         end)
    lines.

(** Mean of powers in mW, in W; 0 for an empty bucket. *)
Definition mean_W (ws : list float) : float :=
  match ws with
  | [] => lit 0
  | _ => ((fsum ws / of_Z (Z.of_nat (List.length ws))) / lit 1000)%flt
  end.

(** Hour-of-day means over the whole log, for the hours up to [rtc_hour]
    (all 24 without RTC). *)
Definition hourly_all_days (rtc_hour : option Z) (lines : list string) : list (Z * float) :=
  let last := match rtc_hour with Some h => h | None => 23 end in
  map (fun h => (h, mean_W (map snd (filter (fun r => fst r =? h) (hour_readings lines)))))
      (filter (fun h => h <=? last) (upto 24)).

(** The readings of the RTC + SD log, in file order, with the date and the
    hour that their timestamp shows ([None] for a field that cannot be
    read) and the power in mW; [lines] are the lines after the header. *)
Definition stamped (lines : list string)
  : list (option (Z * Z * Z) * option Z * float) :=
  flat_map
    (fun l0 =>
       let l := Str.trim l0 in
       if Str.length l =? 0 then []
       else
         match Adalogger.parseLogLine P l with
         | Some (ts, _, _, p) => [(Adalogger.date_of P ts, Adalogger.hour_of P ts, p)]
         | None => []
         end)
    lines.

(** The timestamp shows the date of [today]. *)
Definition dated (today : Adalogger.DateTime) (d : option (Z * Z * Z)) : bool :=
  match d with
  | Some (y, m, dd) =>
      (y =? Adalogger.year today) && (m =? Adalogger.month today)
      && (dd =? Adalogger.day today)
  | None => false
  end.

(** The timestamp shows hour [h]. *)
Definition at_hour (h : Z) (o : option Z) : bool :=
  match o with
  | Some k => k =? h
  | None => false
  end.

(** The hourly means of today's records of the RTC + SD log, in W, for the
    hours up to the present one. *)
Definition hourly_of_date (today : Adalogger.DateTime) (lines : list string)
  : list (Z * float) :=
  map (fun h =>
         (h, mean_W (map snd
                       (filter (fun r => dated today (fst (fst r)) && at_hour h (snd (fst r)))
                               (stamped lines)))))
      (filter (fun h => h <=? Adalogger.hour today) (upto 24)).





(** The value of the last line of the calibration file that carries the
    key, if any. *)
Definition stored (key : string) (lines : list string) : option float :=
  fold_left
    (fun acc l =>
       if Str.startsWith key (Str.trim l)
       then Some (toFloat P (Str.substring_from 6 (Str.trim l))) else acc)
    lines None.

(** Finite and strictly positive, else 1.0. *)
Definition sanitized (v : option float) : float :=
  match v with
  | Some (Num q) => if Qltb 0 q then Num q else lit 1
  | _ => lit 1
  end.

End WithPlatform.

End Spec.
(* ================================================================== *)
(** * Vocabulary of the statements *)

(** The bus only grows a trace. *)
Definition extends (b b' : bus) : Prop := exists tail, trace b' = trace b ++ tail.

(** The values a sum of energy contributions is made of: not negative
    (NaN is let through, it stands for no value at all). *)
Definition nonneg (x : float) : Prop :=
  match x with
  | Num q => (0 <= q)%Q
  | Inf s => s = false
  | NaN => True
  end.

(** [b] is not below [a]: it is NaN, or [a <= b]. *)
Definition grows (a b : float) : Prop :=
  isnan b = true \/ (a <=? b)%flt = true.

(** A multiplier that no line of the calibration file sets keeps its
    initial value 1.0. *)
Definition or_default (o : option float) : float :=
  match o with Some x => x | None => lit 1 end.

(** ** Bucketed sums

    The rollup loops have one of two shapes; the statements about them go
    through these two generic loops. *)

Section Buckets.

(** What a line contributes: a bucket and a value, or nothing. *)
Variable classify : string -> option (Z * float).

Definition bucket_step (acc : array float * array Z) (line : string)
  : array float * array Z :=
  match classify line with
  | None => acc
  | Some (h, w) => (upd (fst acc) h (fst acc h + w)%flt, upd (snd acc) h (snd acc h + 1))
  end.

Definition keyed (lines : list string) : list (Z * float) :=
  flat_map (fun l => match classify l with Some kw => [kw] | None => [] end) lines.

Definition in_bucket (h : Z) (kw : Z * float) : bool := fst kw =? h.

End Buckets.

Section Slots.

(** The lines that carry a reading, and the slot the energy of a pair goes
    to, from the epoch of its earlier reading. *)
Variable reading : string -> option (Z * float).
Variable slot_of : Z -> option Z.

Definition slot_step (acc : Legacy.trapz) (line : string) : Legacy.trapz :=
  match reading line with
  | None => acc
  | Some (ep, w) =>
      let wh' :=
        if (0 <? Legacy.epPrev acc) && (Legacy.epPrev acc <? ep) then
          match slot_of (Legacy.epPrev acc) with
          | Some k =>
              upd (Legacy.wh acc) k
                  (Legacy.wh acc k
                   + Legacy.pair_energy (Legacy.epPrev acc) (Legacy.wPrev acc) ep w)%flt
          | None => Legacy.wh acc
          end
        else Legacy.wh acc in
      Legacy.mkTrapz wh' ep w
  end.

Definition to_slot (k : Z) (pr : (Z * float) * (Z * float)) : bool :=
  match slot_of (fst (fst pr)) with
  | Some j => j =? k
  | None => false
  end.

End Slots.

(** The slot of [daily_get_handler]. *)
Definition daily_slot (P : Platform) (today0 epPrev : Z) : option Z :=
  let idx := Legacy.day_index P today0 epPrev in
  if (0 <=? idx) && (idx <? Legacy.DAYS) then Some (Legacy.DAYS - 1 - idx) else None.

(** What a line contributes to [hourly_get_handler] at time [now]. *)
Definition classify_today (P : Platform) (startDay : Z) (line : string) : option (Z * float) :=
  match Legacy.readRecord P line with
  | None => None
  | Some (ep, w) =>
      if (ep <? startDay) || (startDay + 24 * 3600 <=? ep) then None
      else Some (tm_hour (localtime_r P ep), w)
  end.

(** What a line contributes to [handleHourly]. *)
Definition classify_hour (P : Platform) (line0 : string) : option (Z * float) :=
  let line := Str.trim line0 in
  if Str.length line =? 0 then None
  else
    match Adalogger.parseLogLine P line with
    | None => None
    | Some (ts, _, _, p) =>
        match Adalogger.hour_of P ts with
        | Some h => Some (h, p)
        | None => None
        end
    end.


(** A file made of the given lines, each ended by a newline. *)
Definition unlines (ls : list string) : string :=
  fold_right (fun l acc => (l ++ String "010"%char acc)%string) EmptyString ls.

(** The lines of a file that may be missing. *)
Definition lines_of (file : option string) : list string :=
  match file with
  | Some s => Str.readLines s
  | None => []
  end.

(** Two series with the same labels and the same values. *)
Definition same_series (a b : list (Z * float)) : Prop :=
  Forall2 (fun x y => fst x = fst y /\ snd x =~ snd y) a b.

(** The device at 7-bit address [a] acknowledges when the bus is scanned
    from address 1 on: the scan spends one response per address. *)
Definition answers (b : bus) (a : Z) : bool :=
  is_some (nth (Z.to_nat (a - 1)) (pending b) None).

(** The addresses of a bus scan. *)
Definition scanned : list Z := map (fun k => k + 1) (upto 126).

(** Length of month [m] in year [y]. *)
Definition days_in_month (y m : Z) : Z :=
  nth (Z.to_nat (m - 1)) Adalogger.dim 0
  + (if (m =? 2) && Adalogger.leap y then 1 else 0).

(** A date of the calendar. *)
Definition valid_date (dt : Adalogger.DateTime) : Prop :=
  1 <= Adalogger.month dt <= 12 /\
  1 <= Adalogger.day dt <= days_in_month (Adalogger.year dt) (Adalogger.month dt).

(** [a] comes before [b] in the same year. *)
Definition earlier_in_year (a b : Adalogger.DateTime) : Prop :=
  Adalogger.year a = Adalogger.year b /\
  (Adalogger.month a < Adalogger.month b \/
   (Adalogger.month a = Adalogger.month b /\ Adalogger.day a < Adalogger.day b)).

(** Days of year [y] that lie before month [m]. *)
Definition days_before (y m : Z) : Z :=
  fold_left Z.add
    (map (days_in_month y) (map (fun k => k + 1) (upto (Z.to_nat (m - 1))))) 0.

(** A bus event that reads or probes: no register is written. *)
Definition is_query (e : event) : bool :=
  match e with
  | EvWrite _ _ _ _ => false
  | _ => true
  end.

(** From [b] to [b'] the firmware made [n] transactions, none of them a
    register write. *)
Definition queries (n : nat) (b b' : bus) : Prop :=
  exists tail,
    trace b' = trace b ++ tail /\ forallb is_query tail = true /\ List.length tail = n.

(** Bus transactions of a list of requests: nine for [/data], six for
    [/diag], none for [/cal]. *)
Definition transactions (reqs : list Fixed.request) : nat :=
  fold_right
    (fun r n => (match r with
                  | Fixed.ReqData _ _ => 9
                  | Fixed.ReqDiag => 6
                  | Fixed.ReqCal _ => 0
                  end + n)%nat)
    0%nat reqs.

(** The value is zero or not a number. *)
Definition zero_or_nan (x : float) : Prop := x =~ lit 0 \/ x = NaN.

(** A multiplier that is a number of magnitude at most 10^6, far from where
    a product with a reading could leave the range of binary32. *)
Definition moderate (x : float) : bool :=
  match x with
  | Num q => Qle_bool (Qabs q) 1000000
  | _ => false
  end.

(** Every multiplier that a [/cal] request supplies is moderate. *)
Definition moderate_query (r : Fixed.request) : bool :=
  match r with
  | Fixed.ReqCal (Some q) =>
      match Fixed.q_i q with Some x => moderate x | None => true end
      && match Fixed.q_v q with Some x => moderate x | None => true end
  | _ => true
  end.

(** The two multipliers that [setup] reads from the calibration file, when
    there is one, are moderate. *)
Definition moderate_file (cfg : option (list float)) : bool :=
  match cfg with
  | Some f =>
      moderate (fst (Fixed.parseFloat f))
      && moderate (fst (Fixed.parseFloat (snd (Fixed.parseFloat f))))
  | None => true
  end.

(** ** Text

    Occurrences of a character in a field or a line. *)

Fixpoint has_char (c : ascii) (s : string) : bool :=
  match s with
  | EmptyString => false
  | String a r => Ascii.eqb a c || has_char c r
  end.

Fixpoint count_char (c : ascii) (s : string) : nat :=
  match s with
  | EmptyString => O
  | String a r => if Ascii.eqb a c then S (count_char c r) else count_char c r
  end.

(** No white space anywhere in the text. *)
Fixpoint no_space (s : string) : bool :=
  match s with
  | EmptyString => true
  | String a r => negb (Str.isspace a) && no_space r
  end.

(** No comma and no line feed: the text can stand as a field of a CSV
    line. *)
Definition clean (s : string) : bool :=
  negb (has_char ","%char s) && negb (has_char LF s).

(** The row [r] of /log.csv can be read back: the first four fields hold no
    separator, no field holds a line feed, the epoch does not start with the
    letter e of the header and the line reaches the ten characters the
    rollups ask for. *)
Definition printable (P : Platform) (Pr : Printer) (r : Legacy.row) : bool :=
  clean (print_long Pr (Legacy.row_epoch r))
  && clean (Legacy.isoTime P Pr (Legacy.row_epoch r))
  && clean (print_float Pr (Legacy.row_volts r) 3)
  && clean (print_float Pr (Legacy.row_amps r) 3)
  && negb (has_char LF (print_float Pr (Legacy.row_watts r) 3))
  && negb (Str.startsWith "e" (print_long Pr (Legacy.row_epoch r)))
  && (11 <=? Str.length (Legacy.csv_line P Pr r)).

(** /log.csv after [setup] on a card without the file and one [/data]
    request for each of [rows]. *)
Definition legacy_log (P : Platform) (Pr : Printer) (rows : list Legacy.row)
  : option string :=
  fold_left (Legacy.append_row P Pr true) rows (Legacy.ensureCsvHeader true None).

(** What the rollups read in the line of [r]: the printed epoch, and the
    printed watts with the carriage return of the line end. *)
Definition read_back (P : Platform) (Pr : Printer) (r : Legacy.row) : Z * float :=
  (toInt P (print_long Pr (Legacy.row_epoch r)),
   toFloat P (print_float Pr (Legacy.row_watts r) 3 ++ String CR EmptyString)).

(** The first [k] commas of [line] from position [from] on, as the two
    [parseLogLine] look for them; [None] when there are fewer. *)
Fixpoint comma_positions (k : nat) (from : Z) (line : string) : option (list Z) :=
  match k with
  | O => Some []
  | S k' =>
      let i := Str.indexOf ","%char from line in
      if i <? 0 then None else option_map (cons i) (comma_positions k' (i + 1) line)
  end.

(** The line of [r] as the rollups read it: without the line feed, with the
    carriage return. *)
Definition written_line (P : Platform) (Pr : Printer) (r : Legacy.row) : string :=
  (print_long Pr (Legacy.row_epoch r) ++ ","
   ++ Legacy.isoTime P Pr (Legacy.row_epoch r) ++ ","
   ++ print_float Pr (Legacy.row_volts r) 3 ++ ","
   ++ print_float Pr (Legacy.row_amps r) 3 ++ ","
   ++ (print_float Pr (Legacy.row_watts r) 3 ++ String CR EmptyString))%string.

(** No comma and no white space. *)
Definition tidy (s : string) : bool :=
  negb (has_char ","%char s) && no_space s.

(** The line of /solar_log.csv for [ts] and [r] without its line end, which
    is what the rollups parse after [trim]. *)
Definition logged_line (Pr : Printer) (ts : string) (r : Adalogger.row) : string :=
  (ts ++ ","
   ++ print_float Pr (Adalogger.row_sourceV r) 3 ++ ","
   ++ print_float Pr (Adalogger.row_busV r) 3 ++ ","
   ++ print_float Pr (Adalogger.row_shunt_mV r) 3 ++ ","
   ++ print_float Pr (Adalogger.row_current_mA r) 3 ++ ","
   ++ print_float Pr (Adalogger.row_power_mW r) 2 ++ ","
   ++ print_float Pr (Adalogger.row_energy r) 3)%string.

(** The time stamp and the six printed numbers can be told apart when read
    back. *)
Definition loggable (Pr : Printer) (ts : string) (r : Adalogger.row) : bool :=
  tidy ts
  && tidy (print_float Pr (Adalogger.row_sourceV r) 3)
  && tidy (print_float Pr (Adalogger.row_busV r) 3)
  && tidy (print_float Pr (Adalogger.row_shunt_mV r) 3)
  && tidy (print_float Pr (Adalogger.row_current_mA r) 3)
  && tidy (print_float Pr (Adalogger.row_power_mW r) 2)
  && tidy (print_float Pr (Adalogger.row_energy r) 3).

(** /solar_log.csv after one [logSample] for each of [samples], given with
    their time stamps, on a card that did not hold the file before [initSD];
    without card there is no file. *)
Definition adalogger_log (Pr : Printer) (st : Adalogger.state)
  (samples : list (string * Adalogger.row)) : option string :=
  fold_left (fun f s => Adalogger.append_sample Pr true st f (fst s) (snd s))
            samples
            (if Adalogger.haveSD st then Adalogger.initSD_file true None else None).

(* ================================================================== *)
(** * Properties *)

Local Open Scope Q_scope.

(** ** Lists *)

Lemma fold_left_ext {A B} (f g : A -> B -> A) (l : list B) (a : A) :
  (forall x y, f x y = g x y) -> fold_left f l a = fold_left g l a.
Proof.
  intro H. revert a. induction l as [|b l IH]; intro a; simpl; [reflexivity|].
  now rewrite H, IH.
Qed.

Lemma filter_ext_map {A B} (f g : A -> bool) (h : A -> B) (l : list A) :
  (forall x, f x = g x) -> map h (filter f l) = map h (filter g l).
Proof.
  intro H. now rewrite (filter_ext f g H).
Qed.

(** ** Rationals and floating-point values *)

(** Case analysis on the signs of the infinities in the context. *)
Ltac case_signs := repeat match goal with b : bool |- _ => destruct b end.

Lemma Qltb_iff (a b : Q) : Qltb a b = true <-> a < b.
Proof.
  unfold Qltb. rewrite negb_true_iff. split; intro H.
  - apply Qnot_le_lt. intro L. apply Qle_bool_iff in L. congruence.
  - destruct (Qle_bool b a) eqn:E; auto. apply Qle_bool_iff in E. exfalso; lra.
Qed.

Lemma Qltb_false_iff (a b : Q) : Qltb a b = false <-> b <= a.
Proof.
  unfold Qltb. rewrite negb_false_iff. apply Qle_bool_iff.
Qed.

Lemma Qzero_iff (q : Q) : Qzero q = true <-> q == 0.
Proof.
  unfold Qzero, Qeq. simpl. rewrite Z.eqb_eq. lia.
Qed.

Lemma Qneg_iff (q : Q) : Qneg q = true <-> q < 0.
Proof.
  unfold Qneg, Qlt. simpl. rewrite Z.ltb_lt. lia.
Qed.

Lemma feq_refl (x : float) : x =~ x.
Proof. destruct x; simpl; auto. reflexivity. Qed.


Lemma inject_Z_nonneg (z : Z) : (0 <= z)%Z -> 0 <= inject_Z z.
Proof. intro H. change 0 with (inject_Z 0). now rewrite <- Zle_Qle. Qed.

(** ** Bus voltage (register-level sketch) *)

(** The decoded bus voltage is [(raw >> 3) * 0.004] volts. *)
Lemma fixed_decode_vbus_shift (raw : Z) :
  Fixed.decode_vbus raw =~ Num (inject_Z (Z.shiftr raw 3) * 0.004).
Proof.
  unfold Fixed.decode_vbus, of_Z, lit. simpl. field.
Qed.

(** The three status bits do not reach the decoded voltage. *)
Lemma fixed_decode_vbus_status_bits (hi s1 s2 : Z) :
  (0 <= s1 < 8)%Z -> (0 <= s2 < 8)%Z ->
  Fixed.decode_vbus (8 * hi + s1) = Fixed.decode_vbus (8 * hi + s2).
Proof.
  intros H1 H2. unfold Fixed.decode_vbus.
  rewrite !Z.shiftr_div_pow2 by lia. change (2 ^ 3)%Z with 8%Z.
  replace ((8 * hi + s1) / 8)%Z with hi by (apply Z.div_unique with s1; lia).
  replace ((8 * hi + s2) / 8)%Z with hi by (apply Z.div_unique with s2; lia).
  reflexivity.
Qed.

(** [INA219_read_vbus_V] on an acknowledged read of [raw], with the voltage
    multiplier at 1.0. *)
Lemma fixed_read_vbus_V (raw : Z) (rest : list (option Z)) (v0 : float) (st : Fixed.state) :
  (0 <= raw < 65536)%Z ->
  pending (Fixed.i2c st) = Some raw :: rest ->
  Fixed.CAL_V st = lit 1 ->
  let '(ok, v, _) := Fixed.INA219_read_vbus_V v0 st in
  ok = true /\ v =~ Num (inject_Z (Z.shiftr raw 3) * 0.004).
Proof.
  intros Hraw Hp Hc. unfold Fixed.INA219_read_vbus_V, i2c_read16, respond.
  rewrite Hp, Hc. unfold uint16. rewrite Z.mod_small by lia.
  split; [reflexivity|]. unfold Fixed.decode_vbus, of_Z, lit. simpl. field.
Qed.

(** C1.  The sketch that kept the INA226 scaling does not shift the status
    bits out: the register value 9 comes out as 9 * 1.25 mV = 0.01125 V
    instead of 0.004 V, and the result moves with the status bits (8 and 9
    decode differently), whereas the register-level sketch gives 0.004 V. *)
Theorem legacy_vbus_not_shifted :
  let read raw := Legacy.INA219_read_vbus_V (lit 0) (mkBus [Some raw] []) in
  fst (fst (read 9%Z)) = true /\
  snd (fst (read 9%Z)) =~ lit 0.01125 /\
  ~ snd (fst (read 9%Z)) =~ lit 0.004 /\
  ~ snd (fst (read 8%Z)) =~ snd (fst (read 9%Z)) /\
  Fixed.decode_vbus 9 =~ lit 0.004.
Proof.
  simpl. repeat split; try reflexivity; intro H; vm_compute in H; discriminate.
Qed.

(** ** Calibration register (register-level sketch) *)


Lemma extends_refl (b : bus) : extends b b.
Proof. exists []. now rewrite app_nil_r. Qed.

Lemma extends_trans (b1 b2 b3 : bus) : extends b1 b2 -> extends b2 b3 -> extends b1 b3.
Proof.
  intros [t1 H1] [t2 H2]. exists (t1 ++ t2). now rewrite H2, H1, app_assoc.
Qed.

Lemma i2c_read16_extends (addr reg v : Z) (b : bus) :
  extends b (snd (i2c_read16 addr reg v b)).
Proof.
  unfold i2c_read16. destruct (respond b) as [[r|] rest]; simpl; eexists; reflexivity.
Qed.

Lemma probe_extends (addr : Z) (b : bus) : extends b (snd (probe addr b)).
Proof.
  unfold probe. destruct (respond b) as [r rest]; simpl; eexists; reflexivity.
Qed.

Lemma debug_reads_extends (b : bus) : extends b (snd (Fixed.debug_reads b)).
Proof.
  unfold Fixed.debug_reads.
  pose proof (i2c_read16_extends Fixed.INA219_ADDR Fixed.INA219_REG_BUSVOLTAGE 0 b) as E1.
  destruct (i2c_read16 _ Fixed.INA219_REG_BUSVOLTAGE 0 b) as [[o1 v1] b1].
  pose proof (i2c_read16_extends Fixed.INA219_ADDR Fixed.INA219_REG_CONFIG 0 b1) as E2.
  destruct (i2c_read16 _ Fixed.INA219_REG_CONFIG 0 b1) as [[o2 v2] b2].
  pose proof (i2c_read16_extends Fixed.INA219_ADDR Fixed.INA219_REG_CURRENT 0 b2) as E3.
  destruct (i2c_read16 _ Fixed.INA219_REG_CURRENT 0 b2) as [[o3 v3] b3].
  pose proof (i2c_read16_extends Fixed.INA219_ADDR Fixed.INA219_REG_SHUNTVOLTAGE 0 b3) as E4.
  destruct (i2c_read16 _ Fixed.INA219_REG_SHUNTVOLTAGE 0 b3) as [[o4 v4] b4].
  pose proof (i2c_read16_extends Fixed.INA219_ADDR Fixed.INA219_REG_CALIBRATION 0 b4) as E5.
  destruct (i2c_read16 _ Fixed.INA219_REG_CALIBRATION 0 b4) as [[o5 v5] b5].
  pose proof (probe_extends 64 b5) as E6. destruct (probe 64 b5) as [o6 b6].
  pose proof (probe_extends 65 b6) as E7. destruct (probe 65 b6) as [o7 b7].
  simpl in *. eauto 10 using extends_trans.
Qed.

(** A [/data] request leaves the calibration value and the current LSB
    alone and only appends to the trace. *)
Lemma data_get_handler_keeps (now_ms now : Z) (st : Fixed.state) :
  let st' := snd (Fixed.data_get_handler now_ms now st) in
  Fixed.ina219_calValue st' = Fixed.ina219_calValue st /\
  Fixed.current_lsb st' = Fixed.current_lsb st /\
  Fixed.CAL_I st' = Fixed.CAL_I st /\
  Fixed.CAL_V st' = Fixed.CAL_V st /\
  extends (Fixed.i2c st) (Fixed.i2c st').
Proof.
  unfold Fixed.data_get_handler, Fixed.INA219_read_vbus_V, Fixed.INA219_read_current_A.
  pose proof (i2c_read16_extends Fixed.INA219_ADDR Fixed.INA219_REG_BUSVOLTAGE 0 (Fixed.i2c st)) as E1.
  destruct (i2c_read16 _ Fixed.INA219_REG_BUSVOLTAGE 0 (Fixed.i2c st)) as [[o1 v1] b1].
  destruct o1; simpl;
    pose proof (i2c_read16_extends Fixed.INA219_ADDR Fixed.INA219_REG_CURRENT 0 b1) as E2;
    destruct (i2c_read16 _ Fixed.INA219_REG_CURRENT 0 b1) as [[o2 v2] b2];
    destruct o2; simpl;
    pose proof (debug_reads_extends b2) as E3;
    destruct (Fixed.debug_reads b2) as [[rb ok] b3]; simpl in *;
    repeat split; eauto using extends_trans.
Qed.

Lemma diag_get_handler_keeps (st : Fixed.state) :
  let st' := snd (Fixed.diag_get_handler st) in
  Fixed.ina219_calValue st' = Fixed.ina219_calValue st /\
  Fixed.current_lsb st' = Fixed.current_lsb st /\
  Fixed.energy_Wh st' = Fixed.energy_Wh st /\
  extends (Fixed.i2c st) (Fixed.i2c st').
Proof.
  unfold Fixed.diag_get_handler.
  pose proof (i2c_read16_extends Fixed.INA219_ADDR 0 0 (Fixed.i2c st)) as E1.
  destruct (i2c_read16 Fixed.INA219_ADDR 0 0 (Fixed.i2c st)) as [[o1 v1] b1].
  pose proof (i2c_read16_extends Fixed.INA219_ADDR 1 0 b1) as E2.
  destruct (i2c_read16 Fixed.INA219_ADDR 1 0 b1) as [[o2 v2] b2].
  pose proof (i2c_read16_extends Fixed.INA219_ADDR 2 0 b2) as E3.
  destruct (i2c_read16 Fixed.INA219_ADDR 2 0 b2) as [[o3 v3] b3].
  pose proof (i2c_read16_extends Fixed.INA219_ADDR 3 0 b3) as E4.
  destruct (i2c_read16 Fixed.INA219_ADDR 3 0 b3) as [[o4 v4] b4].
  pose proof (i2c_read16_extends Fixed.INA219_ADDR 4 0 b4) as E5.
  destruct (i2c_read16 Fixed.INA219_ADDR 4 0 b4) as [[o5 v5] b5].
  pose proof (i2c_read16_extends Fixed.INA219_ADDR 5 0 b5) as E6.
  destruct (i2c_read16 Fixed.INA219_ADDR 5 0 b5) as [[o6 v6] b6].
  simpl in *. repeat split. eauto 10 using extends_trans.
Qed.

(** A [/cal] request touches the multipliers and the card, nothing else. *)
Lemma cal_set_handler_keeps (q : option Fixed.cal_query) (st : Fixed.state) :
  let st' := Fixed.cal_set_handler q st in
  Fixed.ina219_calValue st' = Fixed.ina219_calValue st /\
  Fixed.current_lsb st' = Fixed.current_lsb st /\
  Fixed.energy_Wh st' = Fixed.energy_Wh st /\
  Fixed.lastEnergyMs st' = Fixed.lastEnergyMs st /\
  Fixed.i2c st' = Fixed.i2c st.
Proof.
  destruct q as [q|]; cbn; repeat split.
Qed.

Lemma serve_keeps (reqs : list Fixed.request) (st : Fixed.state) :
  let st' := snd (Fixed.serve reqs st) in
  Fixed.ina219_calValue st' = Fixed.ina219_calValue st /\
  Fixed.current_lsb st' = Fixed.current_lsb st /\
  extends (Fixed.i2c st) (Fixed.i2c st').
Proof.
  revert st. induction reqs as [|[now_ms now| |q] rest IH]; intro st; simpl.
  - repeat split. apply extends_refl.
  - pose proof (data_get_handler_keeps now_ms now st) as K.
    destruct (Fixed.data_get_handler now_ms now st) as [r st1]. simpl in K.
    specialize (IH st1). destruct (Fixed.serve rest st1) as [rs st2]. simpl in *.
    destruct K as (K1 & K2 & _ & _ & K3), IH as (I1 & I2 & I3).
    repeat split; try congruence. eauto using extends_trans.
  - pose proof (diag_get_handler_keeps st) as (K1 & K2 & _ & K3).
    specialize (IH (snd (Fixed.diag_get_handler st))). cbv zeta in *.
    destruct IH as (I1 & I2 & I3).
    repeat split; try congruence. eauto using extends_trans.
  - pose proof (cal_set_handler_keeps q st) as (K1 & K2 & _ & _ & K3).
    specialize (IH (Fixed.cal_set_handler q st)). cbv zeta in *.
    destruct IH as (I1 & I2 & I3).
    repeat split; try congruence.
Qed.

(** What [INA219_init] does once the reset write is acknowledged. *)
Lemma INA219_init_after_reset (st : Fixed.state) (v : Z) (rest : list (option Z)) :
  pending (Fixed.i2c st) = Some v :: rest ->
  let st' := snd (Fixed.INA219_init st) in
  Fixed.current_lsb st' = (Fixed.MAX_CURRENT / lit 32768)%flt /\
  Fixed.ina219_calValue st' = 4194%Z /\
  (fst (Fixed.INA219_init st) = true -> acked rest = true) /\
  exists tail,
    trace (Fixed.i2c st') =
    trace (Fixed.i2c st)
      ++ EvWrite 0x40 0x00 0x8000 true :: EvWrite 0x40 0x05 4194 (acked rest) :: tail.
Proof.
  intro Hp. unfold Fixed.INA219_init, i2c_write16, respond. rewrite Hp. simpl.
  destruct rest as [|[v1|] rest1]; simpl.
  - repeat split; [discriminate|]. exists []. now rewrite <- app_assoc.
  - destruct rest1 as [|[v2|] rest2]; simpl; repeat split;
      eexists; rewrite <- !app_assoc; reflexivity.
  - repeat split; [discriminate|]. exists []. now rewrite <- app_assoc.
Qed.

(** The constants of the register-level sketch are the binary32 numbers
    nearest to 3.2 and 0.1, and the current LSB is exact in binary32. *)
Lemma binary32_constants :
  Ieee.MAX_CURRENT = S754_finite false 13421773 (-22) /\
  Ieee.SHUNT_OHMS = S754_finite false 13421773 (-27) /\
  Ieee.current_lsb = S754_finite false 13421773 (-37) /\
  Fixed.MAX_CURRENT =~ lit (inject_Z 13421773 / inject_Z (2 ^ 22)) /\
  Fixed.SHUNT_OHMS =~ lit (inject_Z 13421773 / inject_Z (2 ^ 27)) /\
  (Fixed.MAX_CURRENT / lit 32768)%flt =~ lit (inject_Z 13421773 / inject_Z (2 ^ 37)).
Proof.
  vm_compute. repeat split.
Qed.

(** C2 (counterexample).  With MAX_CURRENT = 3.2f and SHUNT_OHMS = 0.1f the
    current LSB is 13421773 * 2^-37 A, within 2e-12 of 3.2/32768, and the
    calibration value that [INA219_init] computes and writes is
    trunc(0.04096 / (current_lsb * SHUNT_OHMS)) = trunc(4194.30...) = 4194,
    not 4096; the binary32/binary64 evaluation gives 4194 as well. *)
Lemma calValue_is_not_4096 :
  let b := mkBus [Some 0%Z; Some 0%Z; Some 0%Z] [] in
  let st := snd (Fixed.INA219_init (Fixed.initial b None)) in
  fst (Fixed.INA219_init (Fixed.initial b None)) = true /\
  Fixed.current_lsb st =~ lit (13421773 # 137438953472) /\
  (lit (3.2 / 32768) <? Fixed.current_lsb st)%flt = true /\
  (Fixed.current_lsb st <? lit (3.2 / 32768 + 0.000000000002))%flt = true /\
  Fixed.ina219_calValue st
  = to_uint16 (lit 0.04096 / (Fixed.current_lsb st * Fixed.SHUNT_OHMS))%flt /\
  Fixed.ina219_calValue st = 4194%Z /\
  Fixed.ina219_calValue st <> 4096%Z /\
  In (EvWrite 0x40 0x05 4194 true) (trace (Fixed.i2c st)) /\
  Ieee.ina219_calValue = 4194%Z.
Proof.
  vm_compute. repeat split; try discriminate; auto.
Qed.

(** C2 (amended).  Whenever the reset write of [INA219_init] is
    acknowledged, the sketch sets the current LSB to MAX_CURRENT / 32768 and
    the calibration value to trunc(0.04096 / (current_lsb * SHUNT_OHMS)),
    which is 4194 for 3.2 A and 0.1 ohm, and the write of exactly this value
    to the calibration register (0x05) is the second bus transaction after
    power-up, right after the reset: every register read of every later
    [/data] or [/diag] request comes after it.  The write succeeds when the
    device acknowledges that second transaction. *)
Theorem init_programs_calibration
  (b : bus) (cfg : option (list float)) (reqs : list Fixed.request) (v : Z)
  (rest : list (option Z)) :
  pending b = Some v :: rest ->
  let st := snd (Fixed.run b cfg reqs) in
  Fixed.current_lsb st = (Fixed.MAX_CURRENT / lit 32768)%flt /\
  Fixed.ina219_calValue st
  = to_uint16 (lit 0.04096 / (Fixed.current_lsb st * Fixed.SHUNT_OHMS))%flt /\
  Fixed.ina219_calValue st = 4194%Z /\
  exists tail,
    trace (Fixed.i2c st)
    = trace b
        ++ EvWrite 0x40 0x00 0x8000 true :: EvWrite 0x40 0x05 4194 (acked rest) :: tail.
Proof.
  intro Hp. unfold Fixed.run.
  set (st0 := Fixed.setup (Fixed.initial b cfg)).
  assert (H0 : Fixed.current_lsb st0 = (Fixed.MAX_CURRENT / lit 32768)%flt /\
               Fixed.ina219_calValue st0 = 4194%Z /\
               exists tail,
                 trace (Fixed.i2c st0)
                 = trace b ++ EvWrite 0x40 0x00 0x8000 true
                           :: EvWrite 0x40 0x05 4194 (acked rest) :: tail).
  { unfold st0, Fixed.setup.
    match goal with |- context [Fixed.INA219_init ?s] => set (s1 := s) end.
    assert (Hb : Fixed.i2c s1 = b).
    { unfold s1. simpl. destruct cfg as [f|]; [|reflexivity].
      destruct (Fixed.parseFloat f) as [ci f1]. destruct (Fixed.parseFloat f1). reflexivity. }
    destruct (INA219_init_after_reset s1 v rest) as (L & C & _ & tail & T).
    { now rewrite Hb. }
    rewrite Hb in T. eauto 6. }
  destruct H0 as (L & C & tail & T).
  destruct (serve_keeps reqs st0) as (K1 & K2 & [t K3]).
  simpl. rewrite K1, K2, L, C. repeat split.
  exists (tail ++ t). rewrite K3, T, <- app_assoc. reflexivity.
Qed.

Lemma init_programs_calibration_witness :
  let b := mkBus [Some 0%Z; Some 0%Z; Some 0%Z; Some 12000%Z; Some 100%Z] [] in
  let st := snd (Fixed.run b None [Fixed.ReqDiag; Fixed.ReqData 1000 1700000000]) in
  Fixed.current_lsb st = (Fixed.MAX_CURRENT / lit 32768)%flt /\
  Fixed.ina219_calValue st
  = to_uint16 (lit 0.04096 / (Fixed.current_lsb st * Fixed.SHUNT_OHMS))%flt /\
  Fixed.ina219_calValue st = 4194%Z /\
  exists tail,
    trace (Fixed.i2c st)
    = [] ++ EvWrite 0x40 0x00 0x8000 true :: EvWrite 0x40 0x05 4194 true :: tail.
Proof.
  exact (init_programs_calibration
           (mkBus [Some 0%Z; Some 0%Z; Some 0%Z; Some 12000%Z; Some 100%Z] [])
           None [Fixed.ReqDiag; Fixed.ReqData 1000 1700000000] 0%Z
           [Some 0%Z; Some 0%Z; Some 12000%Z; Some 100%Z] eq_refl).
Defined.

(** ** Current (register-level sketch and RTC + SD sketch) *)


(** [logSample] of the RTC + SD sketch reads no current register: it takes
    the shunt voltage from the driver and derives the current from its
    absolute value, so that with a reverse current (shunt reading -0.01 mV)
    the logged current is positive. *)
Lemma logSample_current_not_negative :
  let st := Adalogger.mkState 0 0 (lit 0) false true false (-1) in
  let lib := Adalogger.mkReadings (lit (-0.01)) (lit 12) in
  let r := fst (Adalogger.logSample (Adalogger.mkDateTime 2025 9 21 10 0 0) lib 5000 st) in
  (Adalogger.row_shunt_mV r <? lit 0)%flt = true /\
  (Adalogger.row_current_mA r <? lit 0)%flt = false /\
  (lit 0 <? Adalogger.row_current_mA r)%flt = true.
Proof.
  vm_compute. auto.
Qed.




(** ** Failed register reads (register-level sketch) *)

(** C4.  When a register read of a [/data] request fails, the request
    publishes the initial value 0 of the variable in place of the reading
    (voltage for a failed bus-voltage read, current for a failed current
    read): the outcome flags of the reads are never consulted and no field
    is marked unavailable. *)
Theorem data_handler_zero_on_failed_read
  (now_ms now : Z) (st : Fixed.state) (r1 r2 : option Z) (rest : list (option Z)) :
  pending (Fixed.i2c st) = r1 :: r2 :: rest ->
  let r := fst (Fixed.data_get_handler now_ms now st) in
  (r1 = None -> Fixed.r_voltage r = lit 0 /\ isnan (Fixed.r_voltage r) = false) /\
  (r2 = None -> Fixed.r_current r = lit 0 /\ isnan (Fixed.r_current r) = false).
Proof.
  intro Hp. unfold Fixed.data_get_handler, Fixed.INA219_read_vbus_V,
              Fixed.INA219_read_current_A, i2c_read16, respond.
  rewrite Hp. destruct r1 as [v1|], r2 as [v2|]; simpl;
    destruct (Fixed.debug_reads _) as [[rb ok] b]; simpl;
    split; intro E; try discriminate E; auto.
Qed.

Lemma data_handler_zero_on_failed_read_witness :
  let st := Fixed.setup (Fixed.initial (mkBus [Some 0%Z; Some 0%Z; Some 0%Z; None; None] []) None) in
  let r := fst (Fixed.data_get_handler 1000 1700000000 st) in
  (Fixed.r_voltage r = lit 0 /\ isnan (Fixed.r_voltage r) = false) /\
  (Fixed.r_current r = lit 0 /\ isnan (Fixed.r_current r) = false).
Proof.
  pose proof (data_handler_zero_on_failed_read 1000 1700000000
                (Fixed.setup (Fixed.initial
                   (mkBus [Some 0%Z; Some 0%Z; Some 0%Z; None; None] []) None))
                None None [] eq_refl) as [V C].
  split; [exact (V eq_refl)|exact (C eq_refl)].
Defined.

(** The sketch with the snapshot, by contrast, publishes NaN fields when the
    sensor is absent. *)
Lemma sampleINA_without_sensor (lib : Snapshot.readings) (now_ms : Z) (st : Snapshot.state) :
  Snapshot.haveINA st = false ->
  Snapshot.sampleINA lib now_ms st
  = Snapshot.publishSnapshot (Snapshot.mkSample NaN NaN NaN NaN NaN now_ms) st.
Proof.
  intro H. unfold Snapshot.sampleINA. now rewrite H.
Qed.

(** ** Energy accumulation *)

Lemma fleb_refl (x : float) : isnan x = false -> (x <=? x)%flt = true.
Proof.
  destruct x as [q|s|]; simpl; intro H; try discriminate.
  - apply Qle_bool_iff. lra.
  - destruct s; reflexivity.
Qed.

Lemma fleb_trans (a b c : float) :
  (a <=? b)%flt = true -> (b <=? c)%flt = true -> (a <=? c)%flt = true.
Proof.
  destruct a as [x|s|], b as [y|t|], c as [z|u|]; simpl; try discriminate; auto;
    try (rewrite !Qle_bool_iff; intros; lra);
    case_signs;
    simpl; auto; discriminate.
Qed.

Lemma grows_refl (a : float) : grows a a.
Proof.
  unfold grows. destruct (isnan a) eqn:E; [now left|right; now apply fleb_refl].
Qed.

Lemma grows_trans (a b c : float) : grows a b -> grows b c -> grows a c.
Proof.
  unfold grows. intros [Hb|Hab] [Hc|Hbc]; auto.
  - destruct b; simpl in *; discriminate.
  - right. eapply fleb_trans; eauto.
Qed.

(** A total that has grown is not below where it started. *)
Lemma grows_not_below (a b : float) : grows a b -> (b <? a)%flt = false.
Proof.
  unfold grows. intros [H|H].
  - destruct b; try discriminate. reflexivity.
  - destruct a as [x|s|], b as [y|t|]; simpl in *; try discriminate; auto;
      try (apply Qltb_false_iff; now apply Qle_bool_iff);
      case_signs;
      simpl in *; auto; discriminate.
Qed.

Lemma grows_add (e x : float) : nonneg x -> grows e (e + x)%flt.
Proof.
  unfold grows. destruct e as [a|s|], x as [b|t|]; simpl; auto.
  - intro H. right. apply Qle_bool_iff. lra.
  - intro H. subst. now right.
  - intro H. right. destruct s; reflexivity.
  - intro H. subst. destruct s; simpl; auto.
Qed.

Lemma nonneg_fmul (x y : float) : nonneg x -> nonneg y -> nonneg (x * y)%flt.
Proof.
  destruct x as [a|s|], y as [b|t|]; simpl; auto.
  - intros. nra.
  - intros Ha ->. destruct (Qzero a) eqn:Z; simpl; auto.
    destruct (Qneg a) eqn:N; auto. apply Qneg_iff in N. lra.
  - intros -> Hb. destruct (Qzero b) eqn:Z; simpl; auto.
    destruct (Qneg b) eqn:N; auto. apply Qneg_iff in N. lra.
  - intros -> ->. reflexivity.
Qed.

Lemma nonneg_fdiv_lit (x : float) (c : Q) : 0 < c -> nonneg x -> nonneg (x / lit c)%flt.
Proof.
  intros Hc. destruct x as [a|s|]; simpl; auto.
  - intro Ha. destruct (Qzero c) eqn:Z.
    + apply Qzero_iff in Z. lra.
    + simpl. apply Qle_shift_div_l; lra.
  - intros ->. destruct (Qneg c) eqn:N; auto. apply Qneg_iff in N. lra.
Qed.

Lemma nonneg_fabs (x : float) : nonneg (fabs x).
Proof.
  destruct x; simpl; auto. apply Qabs_nonneg.
Qed.

Lemma nonneg_positive (p : float) : (lit 0 <? p)%flt = true -> nonneg p.
Proof.
  destruct p as [q|s|]; simpl; try discriminate; auto.
  - intro H. apply Qltb_iff in H. lra.
  - now destruct s.
Qed.

Lemma nonneg_not_negative (p : float) : (p <? lit 0)%flt = false -> nonneg p.
Proof.
  destruct p as [q|s|]; simpl; auto.
  intro H. now apply Qltb_false_iff in H.
Qed.

Lemma nonneg_elapsed (a b : Z) (c : Q) :
  0 < c -> nonneg (of_Z (ulong_sub a b) / lit c)%flt.
Proof.
  intro Hc. apply nonneg_fdiv_lit; auto. simpl.
  apply inject_Z_nonneg. unfold ulong_sub. apply Z.mod_pos_bound. lia.
Qed.

(** One [/data] request of the register-level sketch. *)
Lemma fixed_energy_step (now_ms now : Z) (st : Fixed.state) :
  let r := fst (Fixed.data_get_handler now_ms now st) in
  let st' := snd (Fixed.data_get_handler now_ms now st) in
  grows (Fixed.energy_Wh st) (Fixed.energy_Wh st') /\
  ((lit 0 <? Fixed.r_power r)%flt = false -> Fixed.energy_Wh st' = Fixed.energy_Wh st).
Proof.
  unfold Fixed.data_get_handler, Fixed.INA219_read_vbus_V, Fixed.INA219_read_current_A.
  destruct (i2c_read16 _ Fixed.INA219_REG_BUSVOLTAGE 0 (Fixed.i2c st)) as [[o1 v1] b1].
  destruct o1; cbn [Fixed.i2c Fixed.set_i2c];
    destruct (i2c_read16 _ Fixed.INA219_REG_CURRENT 0 b1) as [[o2 v2] b2];
    destruct o2; cbn [Fixed.i2c Fixed.set_i2c Fixed.lastEnergyMs Fixed.energy_Wh];
    destruct (Fixed.debug_reads b2) as [[rb ok] b3];
    cbn [fst snd Fixed.r_power Fixed.energy_Wh];
    match goal with |- context [fltb (lit 0) ?p] => generalize p end;
    intro pw; destruct (fltb (lit 0) pw) eqn:Hpos; rewrite ?andb_false_r;
    (split; [|intro; try discriminate; reflexivity]);
    try apply grows_refl;
    destruct (0 <? Fixed.lastEnergyMs st)%Z; cbn [andb]; try apply grows_refl;
    apply grows_add, nonneg_fmul;
    first [now apply nonneg_positive | apply nonneg_elapsed; reflexivity].
Qed.

Lemma fixed_energy_serve (reqs : list Fixed.request) (st : Fixed.state) :
  grows (Fixed.energy_Wh st) (Fixed.energy_Wh (snd (Fixed.serve reqs st))).
Proof.
  revert st. induction reqs as [|[now_ms now| |q] rest IH]; intro st; simpl.
  - apply grows_refl.
  - pose proof (fixed_energy_step now_ms now st) as [K _].
    destruct (Fixed.data_get_handler now_ms now st) as [r st1]. simpl in K.
    specialize (IH st1). destruct (Fixed.serve rest st1) as [rs st2]. simpl in *.
    eauto using grows_trans.
  - pose proof (diag_get_handler_keeps st) as (_ & _ & K & _). cbv zeta in K.
    rewrite <- K. apply IH.
  - pose proof (cal_set_handler_keeps q st) as (_ & _ & K & _). cbv zeta in K.
    rewrite <- K. apply IH.
Qed.

(** C5 (counterexample).  The sketch with the INA226 scaling adds
    [p * dt_h] whatever the sign of [p]: one hour at 10 V with a reverse
    current (shunt register 0xFFFF) takes the total from 0 to a negative
    value. *)
Lemma legacy_energy_decreases :
  let lib := Legacy.mkAdafruit (lit 0) (lit 0) in
  let b := mkBus [Some 8000%Z; Some 100%Z; Some 0%Z; Some 0%Z; Some 0%Z; Some 0%Z;
                  Some 8000%Z; Some 65535%Z; Some 0%Z; Some 0%Z; Some 0%Z; Some 0%Z] [] in
  let st1 := snd (Legacy.data_get_handler lib 1000 1700000000 (Legacy.initial b)) in
  let out := Legacy.data_get_handler lib 3601000 1700003600 st1 in
  (Legacy.r_power (fst (fst out)) <? lit 0)%flt = true /\
  Legacy.energy_Wh st1 =~ lit 0 /\
  (Legacy.energy_Wh (snd out) <? Legacy.energy_Wh st1)%flt = true.
Proof.
  vm_compute. auto.
Qed.

Lemma fltb_asym (x y : float) : (x <? y)%flt = true -> (y <? x)%flt = false.
Proof.
  destruct x as [a|s|], y as [b|t|]; simpl; try discriminate; auto;
    try (rewrite Qltb_iff, Qltb_false_iff; intros; lra);
    case_signs; simpl; auto.
Qed.

(** Without a day change, [maybeMidnightReset] leaves the total alone. *)
Lemma maybeMidnightReset_same_day (now : Adalogger.DateTime) (st : Adalogger.state) :
  Adalogger.dayOfYear now = Adalogger.lastDayOfYear st \/ Adalogger.lastDayOfYear st = (-1)%Z ->
  Adalogger.energyToday_Wh (Adalogger.maybeMidnightReset now st) = Adalogger.energyToday_Wh st /\
  Adalogger.lastEnergyMs (Adalogger.maybeMidnightReset now st) = Adalogger.lastEnergyMs st /\
  Adalogger.haveINA (Adalogger.maybeMidnightReset now st) = Adalogger.haveINA st.
Proof.
  intro H. unfold Adalogger.maybeMidnightReset.
  destruct (Z.eqb_spec (Adalogger.lastDayOfYear st) (-1)); [repeat split|].
  destruct H as [H|H]; [|contradiction].
  rewrite H, Z.eqb_refl. repeat split.
Qed.

Lemma logSample_energy_grows
  (rtc_now : Adalogger.DateTime) (lib : Adalogger.readings) (tNow : Z) (st : Adalogger.state) :
  (Adalogger.haveRTC st = false \/
   Adalogger.dayOfYear rtc_now = Adalogger.lastDayOfYear st \/
   Adalogger.lastDayOfYear st = (-1)%Z) ->
  (Adalogger.getBusVoltage_V lib <? lit 0)%flt = false ->
  grows (Adalogger.energyToday_Wh st)
        (Adalogger.energyToday_Wh (snd (Adalogger.logSample rtc_now lib tNow st))).
Proof.
  intros Hday Hv. unfold Adalogger.logSample.
  set (st1 := if Adalogger.haveRTC st then Adalogger.maybeMidnightReset rtc_now st else st).
  assert (E : Adalogger.energyToday_Wh st1 = Adalogger.energyToday_Wh st).
  { unfold st1. destruct (Adalogger.haveRTC st); [|reflexivity].
    apply maybeMidnightReset_same_day. destruct Hday as [H|H]; [discriminate|exact H]. }
  cbn [snd Adalogger.energyToday_Wh]. rewrite E.
  destruct (Adalogger.haveINA st1); cbn [isnan negb]; [|apply grows_refl].
  match goal with |- context [isnan ?p] => destruct (isnan p) end;
    cbn [negb]; [apply grows_refl|].
  apply grows_add, nonneg_fmul; [|apply nonneg_elapsed; reflexivity].
  apply nonneg_fdiv_lit; [reflexivity|].
  apply nonneg_fmul; [|simpl; lra].
  apply nonneg_fmul; [now apply nonneg_not_negative|].
  unfold Adalogger.current_A_of.
  apply nonneg_fmul; [|simpl; lra].
  apply nonneg_fdiv_lit; [reflexivity|]. apply nonneg_fabs.
Qed.

(** C5 (amended).  In the register-level sketch, whose [/data] handler adds
    [p * hours] only when [p > 0], the total never decreases over any
    sequence of requests, and a request whose power is negative leaves it
    unchanged.  In [logSample], where the current is an absolute value, the
    total does not decrease on a step without day change as long as the bus
    voltage reading is not negative. *)
Theorem energy_never_decreases
  (reqs : list Fixed.request) (st : Fixed.state) (now_ms now : Z)
  (rtc_now : Adalogger.DateTime) (lib : Adalogger.readings) (tNow : Z)
  (ast : Adalogger.state) :
  (Fixed.energy_Wh (snd (Fixed.serve reqs st)) <? Fixed.energy_Wh st)%flt = false /\
  ((Fixed.r_power (fst (Fixed.data_get_handler now_ms now st)) <? lit 0)%flt = true ->
   Fixed.energy_Wh (snd (Fixed.data_get_handler now_ms now st)) = Fixed.energy_Wh st) /\
  ((Adalogger.haveRTC ast = false \/
    Adalogger.dayOfYear rtc_now = Adalogger.lastDayOfYear ast \/
    Adalogger.lastDayOfYear ast = (-1)%Z) ->
   (Adalogger.getBusVoltage_V lib <? lit 0)%flt = false ->
   (Adalogger.energyToday_Wh (snd (Adalogger.logSample rtc_now lib tNow ast))
    <? Adalogger.energyToday_Wh ast)%flt = false).
Proof.
  split; [|split].
  - apply grows_not_below, fixed_energy_serve.
  - intro H. apply (fixed_energy_step now_ms now st). now apply fltb_asym.
  - intros Hday Hv. now apply grows_not_below, logSample_energy_grows.
Qed.

Lemma energy_never_decreases_witness :
  let b := mkBus [Some 0%Z; Some 0%Z; Some 0%Z;
                  Some 24000%Z; Some 100%Z; Some 0%Z; Some 0%Z; Some 0%Z; Some 0%Z;
                  Some 0%Z; Some 0%Z; Some 0%Z;
                  Some 24000%Z; Some 65535%Z] [] in
  let st := snd (Fixed.run b None [Fixed.ReqData 1000 1700000000]) in
  let ast := Adalogger.setup true (Some (Adalogger.mkDateTime 2025 9 21 10 0 0)) true 0 in
  let lib := Adalogger.mkReadings (lit (-0.01)) (lit 12) in
  Fixed.energy_Wh (snd (Fixed.data_get_handler 3601000 1700003600 st)) = Fixed.energy_Wh st /\
  (Adalogger.energyToday_Wh
     (snd (Adalogger.logSample (Adalogger.mkDateTime 2025 9 21 11 0 0) lib 3600000 ast))
   <? Adalogger.energyToday_Wh ast)%flt = false.
Proof.
  split.
  - apply (energy_never_decreases [] _ 3601000 1700003600
             (Adalogger.mkDateTime 2025 9 21 11 0 0)
             (Adalogger.mkReadings (lit (-0.01)) (lit 12)) 3600000
             (Adalogger.setup true (Some (Adalogger.mkDateTime 2025 9 21 10 0 0)) true 0)).
    vm_compute. reflexivity.
  - apply (energy_never_decreases []
             (snd (Fixed.run (mkBus [] []) None []))
             3601000 1700003600).
    + right. left. vm_compute. reflexivity.
    + vm_compute. reflexivity.
Defined.

(** ** Day-of-year reset (RTC + SD sketch) *)

Lemma dim_nonneg (n : nat) : (0 <= nth n Adalogger.dim 0)%Z.
Proof.
  do 12 (destruct n as [|n]; [simpl; lia|]). destruct n; simpl; lia.
Qed.

Lemma dayOfYear_ge_day (dt : Adalogger.DateTime) :
  (Adalogger.day dt <= Adalogger.dayOfYear dt)%Z.
Proof.
  unfold Adalogger.dayOfYear.
  generalize (map (fun k => (k + 1)%Z) (upto (Z.to_nat (Adalogger.month dt - 1)))).
  intro l. generalize (Adalogger.day dt).
  induction l as [|m l IH]; intro d; cbn [fold_left].
  - lia.
  - pose proof (dim_nonneg (Z.to_nat (m - 1))) as N.
    etransitivity; [|apply IH].
    destruct ((m =? 2)%Z && Adalogger.leap (Adalogger.year dt))%bool; lia.
Qed.

(** With an RTC the anchor is always a day of the year, never the -1 of
    "no anchor yet". *)
Lemma reachable_anchor (st : Adalogger.state) :
  Adalogger.reachable st ->
  Adalogger.haveRTC st = true -> (0 <= Adalogger.lastDayOfYear st)%Z.
Proof.
  induction 1 as [ina_ok rtc_now sd_ok now_ms Hd | rtc_now lib nowMs st R IH Hd].
  - destruct rtc_now as [dt|]; simpl; [|discriminate].
    intros _. pose proof (dayOfYear_ge_day dt). specialize (Hd dt eq_refl). lia.
  - unfold Adalogger.loop.
    destruct (Adalogger.LOG_INTERVAL_MS <=? ulong_sub nowMs (Adalogger.lastLogMs st))%Z;
      [|exact IH].
    unfold Adalogger.logSample. cbn [snd Adalogger.haveRTC Adalogger.lastDayOfYear].
    destruct (Adalogger.haveRTC st) eqn:E; cbn [Adalogger.haveRTC]; [|congruence].
    intros _. specialize (IH eq_refl).
    unfold Adalogger.maybeMidnightReset. cbn [Adalogger.lastDayOfYear].
    pose proof (dayOfYear_ge_day rtc_now).
    destruct (Adalogger.lastDayOfYear st =? -1)%Z; cbn [Adalogger.lastDayOfYear Adalogger.set_energy]; [lia|].
    destruct (negb _); cbn [Adalogger.lastDayOfYear Adalogger.set_energy]; lia.
Qed.

(** C6.  With an RTC, a [logSample] step whose day of the year differs from
    the stored anchor adopts the new day as anchor and leaves the total at
    0 plus this step's contribution (power times the hours since the
    previous step), all within the step; when the day equals the anchor the
    contribution is added to the running total and the anchor stays.  (A
    step without power reading contributes nothing.) *)
Theorem logSample_period_reset
  (rtc_now : Adalogger.DateTime) (lib : Adalogger.readings) (tNow : Z)
  (st : Adalogger.state) :
  Adalogger.reachable st ->
  Adalogger.haveRTC st = true ->
  let r := fst (Adalogger.logSample rtc_now lib tNow st) in
  let st' := snd (Adalogger.logSample rtc_now lib tNow st) in
  let contribution :=
    ((Adalogger.row_power_mW r / lit 1000)
     * (of_Z (ulong_sub tNow (Adalogger.lastEnergyMs st)) / lit 3600000))%flt in
  (Adalogger.dayOfYear rtc_now <> Adalogger.lastDayOfYear st ->
   Adalogger.lastDayOfYear st' = Adalogger.dayOfYear rtc_now /\
   Adalogger.energyToday_Wh st'
   = if isnan (Adalogger.row_power_mW r) then lit 0 else (lit 0 + contribution)%flt) /\
  (Adalogger.dayOfYear rtc_now = Adalogger.lastDayOfYear st ->
   Adalogger.lastDayOfYear st' = Adalogger.lastDayOfYear st /\
   Adalogger.energyToday_Wh st'
   = if isnan (Adalogger.row_power_mW r) then Adalogger.energyToday_Wh st
     else (Adalogger.energyToday_Wh st + contribution)%flt).
Proof.
  intros R H. pose proof (reachable_anchor st R H) as A.
  unfold Adalogger.logSample. rewrite H. unfold Adalogger.maybeMidnightReset.
  destruct (Z.eqb_spec (Adalogger.lastDayOfYear st) (-1)) as [E|_]; [lia|].
  split; intro D.
  - destruct (Z.eqb_spec (Adalogger.dayOfYear rtc_now) (Adalogger.lastDayOfYear st));
      [contradiction|].
    cbn. split; [reflexivity|].
    destruct (Adalogger.haveINA st); cbn; [|reflexivity].
    match goal with |- context [isnan ?p] => destruct (isnan p) end; reflexivity.
  - rewrite D, Z.eqb_refl. cbn. split; [reflexivity|].
    destruct (Adalogger.haveINA st); cbn; [|reflexivity].
    match goal with |- context [isnan ?p] => destruct (isnan p) end; reflexivity.
Qed.

Lemma logSample_period_reset_witness :
  let st := Adalogger.loop (Adalogger.mkDateTime 2025 9 21 23 59 58)
              (Adalogger.mkReadings (lit 7.5) (lit 12)) 5000
              (Adalogger.setup true (Some (Adalogger.mkDateTime 2025 9 21 23 59 53)) true 0) in
  let lib := Adalogger.mkReadings (lit 7.5) (lit 12) in
  let st' := snd (Adalogger.logSample (Adalogger.mkDateTime 2025 9 22 0 0 3) lib 10000 st) in
  (lit 0 <? Adalogger.energyToday_Wh st)%flt = true /\
  Adalogger.lastDayOfYear st = 264%Z /\
  Adalogger.lastDayOfYear st' = 265%Z /\
  Adalogger.energyToday_Wh st' =~ lit (12 * (0.0075 / 0.0015 * 6.2) * (5000 / 3600000)).
Proof.
  pose proof (logSample_period_reset
                (Adalogger.mkDateTime 2025 9 22 0 0 3)
                (Adalogger.mkReadings (lit 7.5) (lit 12)) 10000
                (Adalogger.loop (Adalogger.mkDateTime 2025 9 21 23 59 58)
                   (Adalogger.mkReadings (lit 7.5) (lit 12)) 5000
                   (Adalogger.setup true
                      (Some (Adalogger.mkDateTime 2025 9 21 23 59 53)) true 0))) as T.
  destruct T as [T _].
  - apply Adalogger.reach_loop; [|simpl; lia].
    apply Adalogger.reach_setup. intros dt E. injection E as <-. simpl. lia.
  - reflexivity.
  - destruct T as [T1 T2]; [vm_compute; discriminate|].
    split; [vm_compute; reflexivity|]. split; [vm_compute; reflexivity|].
    split; [rewrite T1; vm_compute; reflexivity|].
    rewrite T2. vm_compute. reflexivity.
Defined.

(** ** Calibration load *)

Lemma INA219_init_keeps_cal (st : Fixed.state) :
  Fixed.CAL_I (snd (Fixed.INA219_init st)) = Fixed.CAL_I st /\
  Fixed.CAL_V (snd (Fixed.INA219_init st)) = Fixed.CAL_V st.
Proof.
  unfold Fixed.INA219_init.
  destruct (i2c_write16 _ Fixed.INA219_REG_CONFIG Fixed.INA219_CONFIG_RESET _) as [[|] b0];
    cbn [negb]; [|now split].
  destruct (i2c_write16 _ Fixed.INA219_REG_CALIBRATION _ b0) as [[|] b1];
    cbn [negb]; [|now split].
  destruct (i2c_write16 _ Fixed.INA219_REG_CONFIG Fixed.INA219_config b1) as [[|] b2];
    now split.
Qed.

(** C7.  The register-level sketch takes the two numbers of the calibration
    file as they come: a stored 0 and a stored -2 stay 0 and -2, and an
    empty file sets both multipliers to 0 (what [parseFloat] returns when it
    finds no number); none of them falls back to 1.0. *)
Theorem fixed_setup_loads_unchecked_calibration (b : bus) :
  let st0 := Fixed.setup (Fixed.initial b (Some [lit 0; lit (-2)])) in
  let st1 := Fixed.setup (Fixed.initial b (Some [])) in
  Fixed.CAL_I st0 = lit 0 /\ Fixed.CAL_V st0 = lit (-2) /\
  Fixed.CAL_I st1 = lit 0 /\ Fixed.CAL_V st1 = lit 0.
Proof.
  unfold Fixed.setup. cbn [Fixed.cal_cfg Fixed.initial Fixed.parseFloat].
  repeat split;
    match goal with
    | |- Fixed.CAL_I (snd (Fixed.INA219_init ?s)) = _ =>
        rewrite (proj1 (INA219_init_keeps_cal s)); reflexivity
    | |- Fixed.CAL_V (snd (Fixed.INA219_init ?s)) = _ =>
        rewrite (proj2 (INA219_init_keeps_cal s)); reflexivity
    end.
Qed.

Lemma prefix_CAL_V_not_CAL_I (s : string) :
  Str.startsWith "CAL_V=" s = true -> Str.startsWith "CAL_I=" s = false.
Proof.
  unfold Str.startsWith. intro H.
  destruct (String.prefix "CAL_I=" s) eqn:E; [|reflexivity].
  apply String.prefix_correct in H. apply String.prefix_correct in E.
  cbn [String.length] in H, E. rewrite H in E. discriminate.
Qed.

Lemma sanitize_sanitized (x : float) : Legacy.sanitize x = Spec.sanitized (Some x).
Proof.
  destruct x as [q|s|]; unfold Legacy.sanitize, Spec.sanitized; simpl.
  - unfold Qltb. rewrite orb_false_r. now destruct (Qle_bool q 0).
  - now rewrite orb_true_r.
  - reflexivity.
Qed.

Section LegacyCalibration.

Variable P : Platform.

Lemma sanitize_or_default (o : option float) :
  Legacy.sanitize (or_default o) = Spec.sanitized o.
Proof.
  destruct o; [apply sanitize_sanitized|reflexivity].
Qed.

Lemma loadCal_stored (lines : list string) (cal : float * float) (ov oi : option float) :
  fst cal = or_default ov -> snd cal = or_default oi ->
  let step key :=
    fun (acc : option float) (l : string) =>
      if Str.startsWith key (Str.trim l)
      then Some (toFloat P (Str.substring_from 6 (Str.trim l))) else acc in
  fst (fold_left (Legacy.loadCal_step P) lines cal)
  = or_default (fold_left (step "CAL_V="%string) lines ov) /\
  snd (fold_left (Legacy.loadCal_step P) lines cal)
  = or_default (fold_left (step "CAL_I="%string) lines oi).
Proof.
  revert cal ov oi. induction lines as [|l rest IH]; intros cal ov oi Hv Hi; cbn [fold_left].
  - now split.
  - apply IH; unfold Legacy.loadCal_step.
    + destruct (Str.startsWith "CAL_V=" (Str.trim l)) eqn:EV; [reflexivity|].
      destruct (Str.startsWith "CAL_I=" (Str.trim l)); exact Hv.
    + destruct (Str.startsWith "CAL_V=" (Str.trim l)) eqn:EV.
      * rewrite (prefix_CAL_V_not_CAL_I _ EV). exact Hi.
      * destruct (Str.startsWith "CAL_I=" (Str.trim l)); [reflexivity|exact Hi].
Qed.

(** The sketch with the sanity checks, for every card state and every file
    content: each multiplier is the value of the last line that carries its
    key when that value is finite and strictly positive, and 1.0 otherwise
    (no such line, no file, no card, or a value that is NaN, infinite, zero
    or negative). *)
Lemma legacy_setup_cal_sanitized (sd_mounted : bool) (file : option string) :
  let lines :=
    match file with
    | Some s => if sd_mounted then Str.readLines s else []
    | None => []
    end in
  Legacy.setup_cal P sd_mounted file
  = (Spec.sanitized (Spec.stored P "CAL_V=" lines),
     Spec.sanitized (Spec.stored P "CAL_I=" lines)).
Proof.
  unfold Legacy.setup_cal, Legacy.loadCal, Spec.stored.
  destruct sd_mounted, file as [s|]; try reflexivity.
  destruct (loadCal_stored (Str.readLines s) (lit 1, lit 1) None None eq_refl eq_refl)
    as [HV HI].
  cbv zeta in HV, HI. rewrite HV, HI.
  f_equal; apply sanitize_or_default.
Qed.

End LegacyCalibration.

(** ** Snapshot publication *)

Lemma land_1_even (z : Z) : Z.land z 1 = z mod 2.
Proof. change 1%Z with (Z.ones 1). now rewrite Z.land_ones by lia. Qed.

(** C8.  [publishSnapshot] always stores into the odd slot ([n] is odd when
    it indexes [SNAP]) while [getSnapshotCopy] always reads the even slot
    ([s1] is even when it indexes [SNAP]): after a completed publication
    the reader returns the old content of [SNAP[0]], not the sample just
    published. *)
Theorem snapshot_reader_misses_publication
  (s : Snapshot.Sample) (st : Snapshot.state) (fuel : nat) :
  Z.land (Snapshot.SNAP_SEQ st) 1 = 0%Z ->
  (0 <= Snapshot.SNAP_SEQ st < 4294967296)%Z ->
  Snapshot.getSnapshotCopy (S fuel) (Snapshot.publishSnapshot s st)
  = Some (Snapshot.SNAP st 0%Z) /\
  Snapshot.SNAP (Snapshot.publishSnapshot s st) 1%Z = s /\
  Z.land (Snapshot.SNAP_SEQ (Snapshot.publishSnapshot s st)) 1 = 0%Z.
Proof.
  intros He Hr. rewrite land_1_even in He.
  assert (Hn : Snapshot.uint32 (Snapshot.SNAP_SEQ st + 1) = (Snapshot.SNAP_SEQ st + 1)%Z).
  { unfold Snapshot.uint32. apply Z.mod_small.
    assert (Snapshot.SNAP_SEQ st <> 4294967295)%Z by (intro E; rewrite E in He; discriminate).
    lia. }
  assert (Ho : Z.land (Snapshot.SNAP_SEQ st + 1) 1 = 1%Z).
  { rewrite land_1_even. rewrite Z.add_mod, He by lia. reflexivity. }
  assert (Hs : Z.land (Snapshot.uint32 (Snapshot.SNAP_SEQ st + 1 + 1)) 1 = 0%Z).
  { rewrite land_1_even. unfold Snapshot.uint32.
    apply Z.mod_divide; [lia|]. apply Z.mod_divide in He; [|lia]. destruct He as [k Hk].
    destruct (Z.eq_dec (Snapshot.SNAP_SEQ st) 4294967294) as [E|E].
    - rewrite E. exists 0%Z. reflexivity.
    - rewrite Z.mod_small by lia. exists (k + 1)%Z. lia. }
  unfold Snapshot.publishSnapshot. rewrite Hn, Ho.
  cbn [Snapshot.getSnapshotCopy Snapshot.SNAP_SEQ Snapshot.SNAP].
  rewrite Hs. cbn [Z.eqb negb]. rewrite Z.eqb_refl. cbn [andb].
  repeat split; auto.
Qed.

Lemma snapshot_reader_misses_publication_witness :
  let s := Snapshot.mkSample (lit 12) (lit 7.5) (lit 750) (lit 9000) (lit 12.0075) 800 in
  let st := Snapshot.publishSnapshot s (Snapshot.initial true) in
  Snapshot.getSnapshotCopy 1 st = Some Snapshot.Sample_default /\
  Snapshot.SNAP st 1%Z = s /\
  Z.land (Snapshot.SNAP_SEQ st) 1 = 0%Z.
Proof.
  apply (snapshot_reader_misses_publication
           (Snapshot.mkSample (lit 12) (lit 7.5) (lit 750) (lit 9000) (lit 12.0075) 800)
           (Snapshot.initial true) 0).
  - reflexivity.
  - simpl. lia.
Defined.

(** ** Hourly rollup *)

Section BucketFacts.

Variable classify : string -> option (Z * float).

Lemma keyed_cons (l : string) (rest : list string) :
  keyed classify (l :: rest)
  = match classify l with
    | Some kw => kw :: keyed classify rest
    | None => keyed classify rest
    end.
Proof.
  unfold keyed. cbn [flat_map]. destruct (classify l); reflexivity.
Qed.

Lemma bucket_fold (lines : list string) (sum : array float) (cnt : array Z) (h : Z) :
  fst (fold_left (bucket_step classify) lines (sum, cnt)) h
  = fold_left fadd (map snd (filter (in_bucket h) (keyed classify lines))) (sum h) /\
  snd (fold_left (bucket_step classify) lines (sum, cnt)) h
  = (cnt h + Z.of_nat (List.length (filter (in_bucket h) (keyed classify lines))))%Z.
Proof.
  revert sum cnt. induction lines as [|l rest IH]; intros sum cnt; cbn [fold_left].
  - simpl. split; [reflexivity|lia].
  - rewrite keyed_cons.
    destruct (classify l) as [[k w]|] eqn:E.
    + replace (bucket_step classify (sum, cnt) l)
        with (upd sum k (sum k + w)%flt, upd cnt k (cnt k + 1)%Z)
        by (unfold bucket_step; rewrite E; reflexivity).
      destruct (IH (upd sum k (sum k + w)%flt) (upd cnt k (cnt k + 1)%Z)) as [IH1 IH2].
      rewrite IH1, IH2. cbn [filter]. change (in_bucket h (k, w)) with (k =? h)%Z.
      unfold upd. rewrite (Z.eqb_sym h k).
      destruct (Z.eqb_spec k h) as [->|N]; cbn [map fold_left List.length snd];
        (split; [reflexivity|lia]).
    + replace (bucket_step classify (sum, cnt) l) with (sum, cnt)
        by (unfold bucket_step; rewrite E; reflexivity).
      apply IH.
Qed.

(** The value printed for a bucket: sum over count, 0 when empty. *)
Lemma bucket_mean (lines : list string) (h : Z) :
  let acc := fold_left (bucket_step classify) lines (fun _ => lit 0, fun _ => 0%Z) in
  (if (snd acc h =? 0)%Z then lit 0 else (fst acc h / of_Z (snd acc h))%flt)
  = Spec.mean (map snd (filter (in_bucket h) (keyed classify lines))).
Proof.
  cbv zeta.
  destruct (bucket_fold lines (fun _ => lit 0) (fun _ => 0%Z) h) as [H1 H2].
  unfold array in *. rewrite H1, H2. rewrite <- (length_map snd).
  destruct (map snd (filter (in_bucket h) (keyed classify lines))) as [|w ws].
  - reflexivity.
  - cbn [List.length]. destruct (Z.eqb_spec (0 + Z.of_nat (S (List.length ws))) 0); [lia|].
    unfold Spec.mean. rewrite Z.add_0_l. reflexivity.
Qed.

End BucketFacts.

Section LegacyHourly.

Variable P : Platform.

Lemma hourly_step_bucket (startDay : Z) (acc : array float * array Z) (line : string) :
  Legacy.hourly_step P startDay (startDay + 24 * 3600) acc line
  = bucket_step (classify_today P startDay) acc line.
Proof.
  unfold Legacy.hourly_step, bucket_step, classify_today.
  destruct (Legacy.readRecord P line) as [[ep w]|]; [|reflexivity].
  destruct ((ep <? startDay)%Z || (startDay + 24 * 3600 <=? ep)%Z)%bool; reflexivity.
Qed.

(** The readings that the loop counts for hour [h]: those of the 24 * 3600
    seconds that follow today's local midnight whose timestamp shows that
    hour. *)
Lemma today_bucket (now h : Z) (lines : list string) :
  map snd (filter (in_bucket h) (keyed (classify_today P (Spec.day_start P now)) lines))
  = map snd (filter (Spec.in_window P now h) (Spec.records P lines)).
Proof.
  induction lines as [|l rest IH]; [reflexivity|].
  rewrite keyed_cons. unfold Spec.records in *. cbn [flat_map].
  unfold classify_today at 1.
  destruct (Legacy.readRecord P l) as [[ep w]|]; cbn [app]; [|exact IH].
  cbn [filter]. unfold Spec.in_window at 1. cbn [fst].
  destruct (Z.ltb_spec ep (Spec.day_start P now)) as [L|L]; cbn [orb].
  - destruct (Z.leb_spec (Spec.day_start P now) ep); [lia|]. cbn [andb]. exact IH.
  - destruct (Z.leb_spec (Spec.day_start P now) ep) as [_|]; [|lia]. cbn [andb].
    destruct (Z.leb_spec (Spec.day_start P now + 24 * 3600) ep) as [U|U].
    + destruct (Z.ltb_spec ep (Spec.day_start P now + 24 * 3600)); [lia|]. exact IH.
    + destruct (Z.ltb_spec ep (Spec.day_start P now + 24 * 3600)) as [_|]; [|lia].
      cbn [filter andb]. change (in_bucket h (tm_hour (localtime_r P ep), w))
        with (tm_hour (localtime_r P ep) =? h)%Z.
      destruct (tm_hour (localtime_r P ep) =? h)%Z; cbn [map]; now rewrite IH.
Qed.

(** The sketch with the rollups computes, for every log content and current
    time, for each of the 24 hours the mean power of the readings of that
    hour among those of the 24 * 3600 seconds that follow today's local
    midnight, 0 for an hour without reading. *)
Lemma legacy_hourly_is_mean (now : Z) (file : option string) :
  Legacy.hourly_get_handler P now file
  = Spec.hourly P now
      (Spec.records P (match file with Some s => Str.readLines s | None => [] end)).
Proof.
  unfold Legacy.hourly_get_handler, Spec.hourly.
  apply map_ext. intro h. f_equal.
  fold (Spec.day_start P now). rewrite <- today_bucket.
  destruct file as [s|].
  - rewrite (fold_left_ext _ _ _ _ (hourly_step_bucket (Spec.day_start P now))).
    apply bucket_mean.
  - reflexivity.
Qed.

End LegacyHourly.

Section AdaloggerHourly.

Variable P : Platform.

Lemma adalogger_hourly_step_bucket (acc : array float * array Z) (line : string) :
  Adalogger.hourly_step P acc line = bucket_step (classify_hour P) acc line.
Proof.
  unfold Adalogger.hourly_step, bucket_step, classify_hour.
  destruct (Str.length (Str.trim line) =? 0)%Z; [reflexivity|].
  destruct (Adalogger.parseLogLine P (Str.trim line)) as [[[[ts v] i] p]|]; [|reflexivity].
  destruct (Adalogger.hour_of P ts); reflexivity.
Qed.

Lemma hour_readings_keyed (lines : list string) :
  Spec.hour_readings P lines = keyed (classify_hour P) lines.
Proof.
  unfold Spec.hour_readings, keyed. apply flat_map_ext. intro l.
  unfold classify_hour.
  destruct (Str.length (Str.trim l) =? 0)%Z; [reflexivity|].
  destruct (Adalogger.parseLogLine P (Str.trim l)) as [[[[ts v] i] p]|]; [|reflexivity].
  destruct (Adalogger.hour_of P ts); reflexivity.
Qed.

Lemma bucket_mean_W (classify : string -> option (Z * float)) (lines : list string) (h : Z) :
  let acc := fold_left (bucket_step classify) lines (fun _ => lit 0, fun _ => 0%Z) in
  (if (0 <? snd acc h)%Z then ((fst acc h / of_Z (snd acc h)) / lit 1000)%flt else lit 0)
  = Spec.mean_W (map snd (filter (in_bucket h) (keyed classify lines))).
Proof.
  cbv zeta.
  destruct (bucket_fold classify lines (fun _ => lit 0) (fun _ => 0%Z) h) as [H1 H2].
  unfold array in *. rewrite H1, H2. rewrite <- (length_map snd).
  destruct (map snd (filter (in_bucket h) (keyed classify lines))) as [|w ws].
  - reflexivity.
  - cbn [List.length]. destruct (Z.ltb_spec 0 (0 + Z.of_nat (S (List.length ws)))); [|lia].
    unfold Spec.mean_W. rewrite Z.add_0_l. reflexivity.
Qed.

(** [handleHourly] computes, for every log content, the mean over the whole
    log of the readings of each hour of the day, in W. *)
Lemma adalogger_hourly_is_mean (rtc_hour : option Z) (file : option string) :
  Adalogger.handleHourly P rtc_hour file
  = Spec.hourly_all_days P rtc_hour (tl (lines_of file)).
Proof.
  unfold Adalogger.handleHourly, Spec.hourly_all_days.
  apply map_ext. intro h. f_equal. rewrite hour_readings_keyed.
  destruct file as [s|]; cbn [lines_of].
  - rewrite (fold_left_ext _ _ _ _ adalogger_hourly_step_bucket).
    apply bucket_mean_W.
  - reflexivity.
Qed.

End AdaloggerHourly.

(** The example of the specification on the sketch with the rollups: two
    readings of today's hour 14, of 50 W and 150 W, give 100 W for hour 14
    and 0 for each of the 23 other hours. *)
Lemma legacy_hourly_example :
  let log := unlines ["epoch,iso,volts,amps,watts";
                      "1699970400,2023-11-14 14:00:00,12.000,4.167,50.000";
                      "1699972200,2023-11-14 14:30:00,12.000,12.500,150.000"]%string in
  same_series
    (Legacy.hourly_get_handler Utc.platform 1700000000 (Some log))
    (map (fun h => (h, if (h =? 14)%Z then lit 100 else lit 0)) (upto 24)).
Proof.
  vm_compute. repeat constructor.
Qed.

Section AdaloggerToday.

Variable P : Platform.

Lemma stamped_cons (l0 : string) (rest : list string) :
  Spec.stamped P (l0 :: rest)
  = (if (Str.length (Str.trim l0) =? 0)%Z then []
     else match Adalogger.parseLogLine P (Str.trim l0) with
          | Some (ts, _, _, p) => [(Adalogger.date_of P ts, Adalogger.hour_of P ts, p)]
          | None => []
          end) ++ Spec.stamped P rest.
Proof. reflexivity. Qed.

Lemma hour_readings_cons (l0 : string) (rest : list string) :
  Spec.hour_readings P (l0 :: rest)
  = (if (Str.length (Str.trim l0) =? 0)%Z then []
     else match Adalogger.parseLogLine P (Str.trim l0) with
          | Some (ts, _, _, p) =>
              match Adalogger.hour_of P ts with
              | Some h => [(h, p)]
              | None => []
              end
          | None => []
          end) ++ Spec.hour_readings P rest.
Proof. reflexivity. Qed.

(** The readings of hour [h], whatever their date. *)
Lemma stamped_hour (h : Z) (lines : list string) :
  map snd (filter (fun r => (fst r =? h)%Z) (Spec.hour_readings P lines))
  = map snd (filter (fun r => Spec.at_hour h (snd (fst r))) (Spec.stamped P lines)).
Proof.
  induction lines as [|l0 rest IH]; [reflexivity|].
  rewrite stamped_cons, hour_readings_cons, !filter_app, !map_app, IH. f_equal.
  destruct (Str.length (Str.trim l0) =? 0)%Z; [reflexivity|].
  destruct (Adalogger.parseLogLine P (Str.trim l0)) as [[[[ts v] i] p]|]; [|reflexivity].
  destruct (Adalogger.hour_of P ts) as [k|]; cbn [filter fst snd Spec.at_hour];
    [|reflexivity].
  destruct (k =? h)%Z; reflexivity.
Qed.

(** On a log whose readings all carry today's date, [handleHourly] gives
    the hourly means of today's records. *)
Lemma adalogger_hourly_single_day (today : Adalogger.DateTime) (file : option string) :
  Forall (fun r => Spec.dated today (fst (fst r)) = true)
         (Spec.stamped P (tl (lines_of file))) ->
  Adalogger.handleHourly P (Some (Adalogger.hour today)) file
  = Spec.hourly_of_date P today (tl (lines_of file)).
Proof.
  intro H. rewrite adalogger_hourly_is_mean.
  unfold Spec.hourly_all_days, Spec.hourly_of_date.
  apply map_ext. intro h. f_equal. f_equal. rewrite stamped_hour. f_equal.
  apply filter_ext_in. intros r I. rewrite Forall_forall in H.
  now rewrite (H r I).
Qed.

End AdaloggerToday.

(** C9.  [handleHourly] of the RTC + SD sketch has no notion of today.  On
    a log with one reading of 50 W at 14:10 and one of 150 W at 14:20, both
    of today, at 15:00 it lists the hours 0 to 15, with 100 W for hour 14
    and 0 for each other hour, which are the hourly means of today's
    records.  When the reading of 50 W is of yesterday, it still reports
    100 W for hour 14, where the mean of today's records of that hour is
    150 W. *)
Theorem handleHourly_mixes_days :
  let header :=
    "timestamp,voltage_source_V,voltage_load_V,shunt_mV,current_mA,power_mW,energy_today_Wh"%string in
  let one_day := unlines
    [header;
     "2025-09-21T14:10:00,12.007,12.000,7.500,4166.667,50000.00,0.069";
     "2025-09-21T14:20:00,12.007,12.000,7.500,12500.000,150000.00,0.208"]%string in
  let two_days := unlines
    [header;
     "2025-09-20T14:10:00,12.007,12.000,7.500,4166.667,50000.00,0.069";
     "2025-09-21T14:20:00,12.007,12.000,7.500,12500.000,150000.00,0.208"]%string in
  let today := Adalogger.mkDateTime 2025 9 21 15 0 0 in
  let series (w : Q) := map (fun h => (h, if (h =? 14)%Z then lit w else lit 0)) (upto 16) in
  same_series (Adalogger.handleHourly Utc.platform (Some (Adalogger.hour today)) (Some one_day))
              (series 100) /\
  same_series (Spec.hourly_of_date Utc.platform today (tl (lines_of (Some one_day))))
              (series 100) /\
  same_series (Adalogger.handleHourly Utc.platform (Some (Adalogger.hour today)) (Some two_days))
              (series 100) /\
  same_series (Spec.hourly_of_date Utc.platform today (tl (lines_of (Some two_days))))
              (series 150) /\
  ~ same_series
      (Adalogger.handleHourly Utc.platform (Some (Adalogger.hour today)) (Some two_days))
      (Spec.hourly_of_date Utc.platform today (tl (lines_of (Some two_days)))).
Proof.
  vm_compute. repeat split; try (repeat constructor).
  intro H. do 14 (inversion H as [|? ? ? ? _ H']; subst; clear H; rename H' into H).
  inversion H as [|? ? ? ? [_ E] _]; subst. discriminate E.
Qed.

(** ** Daily and monthly rollups *)

Section SlotFacts.

Variable P : Platform.
Variable slot_of : Z -> option Z.

Lemma records_cons (l : string) (rest : list string) :
  Spec.records P (l :: rest)
  = match Legacy.readRecord P l with
    | Some r => r :: Spec.records P rest
    | None => Spec.records P rest
    end.
Proof.
  unfold Spec.records. cbn [flat_map]. destruct (Legacy.readRecord P l); reflexivity.
Qed.

Lemma slot_fold (lines : list string) (acc : Legacy.trapz) (k : Z) :
  Legacy.wh (fold_left (slot_step (Legacy.readRecord P) slot_of) lines acc) k
  = fold_left fadd
      (map Spec.trapezoid
         (filter (fun pr => Spec.advancing pr && to_slot slot_of k pr)%bool
            (Spec.pairs_from (Legacy.epPrev acc, Legacy.wPrev acc) (Spec.records P lines))))
      (Legacy.wh acc k).
Proof.
  revert acc. induction lines as [|l rest IH]; intro acc; cbn [fold_left].
  - reflexivity.
  - rewrite records_cons. unfold slot_step at 2.
    destruct (Legacy.readRecord P l) as [[ep w]|]; [|apply IH].
    rewrite IH. cbn [Legacy.epPrev Legacy.wPrev Legacy.wh Spec.pairs_from filter].
    unfold Spec.advancing at 2, to_slot at 2. cbn [fst snd].
    destruct ((0 <? Legacy.epPrev acc)%Z && (Legacy.epPrev acc <? ep)%Z)%bool;
      cbn [andb]; [|reflexivity].
    destruct (slot_of (Legacy.epPrev acc)) as [j|]; [|reflexivity].
    unfold upd. rewrite (Z.eqb_sym k j).
    destruct (j =? k)%Z eqn:E; [|reflexivity].
    apply Z.eqb_eq in E. subst j. reflexivity.
Qed.

(** Before the first reading there is nothing to pair it with. *)
Lemma slot_fold_start (lines : list string) (k : Z) :
  Legacy.wh (fold_left (slot_step (Legacy.readRecord P) slot_of) lines
               (Legacy.mkTrapz (fun _ => lit 0) 0 (lit 0))) k
  = Spec.fsum
      (map Spec.trapezoid
         (filter (fun pr => Spec.advancing pr && to_slot slot_of k pr)%bool
            (Spec.pairs (Spec.records P lines)))).
Proof.
  rewrite slot_fold. cbn [Legacy.epPrev Legacy.wPrev Legacy.wh].
  destruct (Spec.records P lines) as [|r recs]; reflexivity.
Qed.

End SlotFacts.

Section LegacyEnergy.

Variable P : Platform.

Lemma daily_step_slot (today0 : Z) (acc : Legacy.trapz) (line : string) :
  Legacy.daily_step P today0 acc line
  = slot_step (Legacy.readRecord P) (daily_slot P today0) acc line.
Proof.
  unfold Legacy.daily_step, slot_step, daily_slot.
  destruct (Legacy.readRecord P line) as [[ep w]|]; [|reflexivity].
  destruct ((0 <? Legacy.epPrev acc)%Z && (Legacy.epPrev acc <? ep)%Z)%bool; [|reflexivity].
  destruct ((0 <=? Legacy.day_index P today0 (Legacy.epPrev acc))%Z
            && (Legacy.day_index P today0 (Legacy.epPrev acc) <? Legacy.DAYS)%Z)%bool;
    reflexivity.
Qed.

Lemma monthly_step_slot (now : Z) (acc : Legacy.trapz) (line : string) :
  Legacy.monthly_step P now acc line
  = slot_step (Legacy.readRecord P) (Legacy.month_index P now) acc line.
Proof.
  reflexivity.
Qed.

(** The daily rollup is the trapezoidal sum over the consecutive pairs of
    readings, each pair counted for the slot that lies as many whole periods
    of 86400 seconds before today's as the local day of its earlier reading
    starts before today does. *)
Lemma legacy_daily_is_trapezoid (now : Z) (file : option string) :
  Legacy.daily_get_handler P now file
  = Spec.daily P now (Spec.records P (lines_of file)).
Proof.
  unfold Legacy.daily_get_handler, Spec.daily.
  apply map_ext. intro i. f_equal. unfold Spec.energy.
  fold (Spec.day_start P now).
  rewrite (filter_ext_map _
             (fun pr => Spec.advancing pr
                        && to_slot (daily_slot P (Spec.day_start P now)) i pr)%bool).
  - destruct file as [s|]; cbn [lines_of].
    + rewrite (fold_left_ext _ _ _ _ (daily_step_slot (Spec.day_start P now))).
      apply slot_fold_start.
    + reflexivity.
  - intros [[e1 w1] [e2 w2]]. f_equal.
    unfold to_slot, daily_slot, Spec.in_period, Legacy.day_index, Spec.day_start, Legacy.DAYS.
    cbn [fst].
    match goal with |- context [Z.quot ?a ?b] => generalize (Z.quot a b) end. intro idx.
    destruct ((0 <=? idx)%Z && (idx <? 30)%Z)%bool; cbn [andb]; [|reflexivity].
    replace (30 - 1 - idx)%Z with (29 - idx)%Z by lia. apply Z.eqb_sym.
Qed.

Lemma find_month_find (now ms : Z) (ks : list Z) :
  Legacy.find_month P now ms ks
  = find (fun j => (ms =? Legacy.monthStart P now j)%Z) ks.
Proof.
  induction ks as [|k rest IH]; cbn [Legacy.find_month find]; [reflexivity|].
  now rewrite IH.
Qed.

Lemma legacy_monthly_is_trapezoid (now : Z) (file : option string) :
  Legacy.monthly_get_handler P now file
  = Spec.monthly P now (Spec.records P (lines_of file)).
Proof.
  unfold Legacy.monthly_get_handler, Spec.monthly.
  apply map_ext. intro i. f_equal. unfold Spec.energy.
  rewrite (filter_ext_map _
             (fun pr => Spec.advancing pr
                        && to_slot (Legacy.month_index P now) i pr)%bool).
  - destruct file as [s|]; cbn [lines_of].
    + rewrite (fold_left_ext _ _ _ _ (monthly_step_slot now)).
      apply slot_fold_start.
    + reflexivity.
  - intros [[e1 w1] [e2 w2]].
    unfold to_slot, Spec.in_month_slot, Legacy.month_index, Spec.month_start. cbn [fst].
    now rewrite find_month_find.
Qed.

End LegacyEnergy.

Section SteadyClock.

Variable P : Platform.

Lemma steady_at_spec (off t : Z) :
  Spec.steady_at P off t = true ->
  Spec.day_start P t = (86400 * Spec.date_number P t + off)%Z /\
  (Spec.day_start P t <= t < Spec.day_start P t + 86400)%Z.
Proof.
  unfold Spec.steady_at. intro H.
  apply andb_prop in H. destruct H as [H H3].
  apply andb_prop in H. destruct H as [H1 H2].
  apply Z.eqb_eq in H1. apply Z.leb_le in H2. apply Z.ltb_lt in H3. auto.
Qed.

Lemma steady_now (off now : Z) (recs : list (Z * float)) :
  Spec.steady P off now recs = true -> Spec.steady_at P off now = true.
Proof.
  unfold Spec.steady. cbn [forallb]. intro H. now apply andb_prop in H.
Qed.

Lemma steady_record (off now : Z) (recs : list (Z * float)) (r : Z * float) :
  Spec.steady P off now recs = true -> In r recs -> Spec.steady_at P off (fst r) = true.
Proof.
  unfold Spec.steady. cbn [forallb]. intros H I.
  apply andb_prop in H. destruct H as [_ H].
  rewrite forallb_forall in H. apply H. now apply in_map.
Qed.

(** While the clock keeps one offset, the 24 * 3600 seconds after today's
    midnight are today. *)
Lemma window_is_today (off now h : Z) (r : Z * float) :
  Spec.steady_at P off now = true -> Spec.steady_at P off (fst r) = true ->
  Spec.in_window P now h r = Spec.in_hour P now h r.
Proof.
  intros Hn Hr.
  destruct (steady_at_spec off now Hn) as [N1 N2].
  destruct (steady_at_spec off (fst r) Hr) as [R1 R2].
  unfold Spec.in_window, Spec.in_hour. f_equal.
  destruct (Z.eqb_spec (Spec.date_number P (fst r)) (Spec.date_number P now)) as [E|E].
  - rewrite E in R1. rewrite R1 in R2. rewrite N1.
    apply andb_true_iff. split; [apply Z.leb_le|apply Z.ltb_lt]; lia.
  - apply andb_false_iff.
    destruct (Z.leb_spec (Spec.day_start P now) (fst r)); [|now left].
    right. apply Z.ltb_ge. lia.
Qed.




(** The hourly rollup of the sketch with the rollups gives each of the 24
    hours the mean power of today's records of that hour, as long as the
    local clock keeps one offset over the records and the present. *)
Lemma legacy_hourly_is_today_mean (off now : Z) (file : option string) :
  Spec.steady P off now (Spec.records P (lines_of file)) = true ->
  Legacy.hourly_get_handler P now file
  = Spec.hourly_today P now (Spec.records P (lines_of file)).
Proof.
  intro H. rewrite legacy_hourly_is_mean. fold (lines_of file).
  unfold Spec.hourly, Spec.hourly_today.
  apply map_ext. intro h. f_equal. f_equal. f_equal.
  apply filter_ext_in. intros r I.
  apply (window_is_today off); eauto using steady_now, steady_record.
Qed.


End SteadyClock.

Section CalendarMonths.

Variable P : Platform.








End CalendarMonths.

(** The month slots are not affected by the clock changes of the year: on
    the platform with daylight time, the twelve slots before
    14 November 2023 agree with the calendar. *)
Lemma legacy_months_with_daylight_time :
  let log := unlines ["epoch,iso,volts,amps,watts";
                      "1678640400,2023-03-12 12:00:00,12.000,8.333,100.000";
                      "1678644000,2023-03-12 13:00:00,12.000,8.333,100.000"]%string in
  Spec.months_agree Dst.platform 1700000000
    (Spec.records Dst.platform (lines_of (Some log))) = true /\
  same_series (Legacy.monthly_get_handler Dst.platform 1700000000 (Some log))
              (map (fun i => (i, if (i =? 3)%Z then lit 100 else lit 0)) (upto 12)).
Proof.
  vm_compute. split; [reflexivity|repeat constructor].
Qed.

(** On the day with 25 hours the last hour lies outside the 24 * 3600
    seconds of [hourly_get_handler]: a reading of 80 W at 23:30 on
    5 November 2023, asked for at 23:45, is missing from hour 23, where the
    mean of today's records is 80 W.  No offset from UTC holds for that
    day as a whole. *)
Lemma legacy_hourly_drops_last_hour :
  let log := unlines ["epoch,iso,volts,amps,watts";
                      "1699248600,2023-11-05 23:30:00,12.000,6.667,80.000"]%string in
  let series (w : Q) := map (fun h => (h, if (h =? 23)%Z then lit w else lit 0)) (upto 24) in
  tm_mday (Dst.localtime 1699248600) = tm_mday (Dst.localtime 1699249500) /\
  tm_hour (Dst.localtime 1699248600) = 23%Z /\
  (forall off, Spec.steady Dst.platform off 1699249500
                 (Spec.records Dst.platform (lines_of (Some log))) = false) /\
  same_series (Legacy.hourly_get_handler Dst.platform 1699249500 (Some log)) (series 0) /\
  same_series (Spec.hourly_today Dst.platform 1699249500
                 (Spec.records Dst.platform (lines_of (Some log))))
              (series 80).
Proof.
  cbv zeta. split; [reflexivity|]. split; [reflexivity|]. split.
  - intro off. unfold Spec.steady. cbn [forallb]. apply andb_false_iff. left.
    unfold Spec.steady_at. apply andb_false_iff. right. vm_compute. reflexivity.
  - vm_compute. split; repeat constructor.
Qed.

(** After the day with 23 hours the slots of [daily_get_handler] are off by
    one: two readings of 100 W one hour apart on 12 March 2023, asked for
    at noon of 13 March, count for today's slot 29, where the calendar day
    of the earlier reading is yesterday's slot 28.  No offset from UTC
    holds for both days. *)
Lemma legacy_daily_shifts_after_clock_change :
  let log := unlines ["epoch,iso,volts,amps,watts";
                      "1678640400,2023-03-12 12:00:00,12.000,8.333,100.000";
                      "1678644000,2023-03-12 13:00:00,12.000,8.333,100.000"]%string in
  let series (k : Z) := map (fun i => (i, if (i =? k)%Z then lit 100 else lit 0)) (upto 30) in
  tm_mday (Dst.localtime 1678640400) = 12%Z /\
  tm_mday (Dst.localtime 1678726800) = 13%Z /\
  (forall off, Spec.steady Dst.platform off 1678726800
                 (Spec.records Dst.platform (lines_of (Some log))) = false) /\
  same_series (Legacy.daily_get_handler Dst.platform 1678726800 (Some log)) (series 29%Z) /\
  same_series (Spec.daily_by_date Dst.platform 1678726800
                 (Spec.records Dst.platform (lines_of (Some log))))
              (series 28%Z).
Proof.
  cbv zeta. split; [reflexivity|]. split; [reflexivity|]. split.
  - intro off.
    match goal with |- Spec.steady _ _ _ ?r = _ =>
      replace r with [(1678640400, lit 100); (1678644000, lit 100)]%Z
        by (vm_compute; reflexivity)
    end.
    unfold Spec.steady. cbn [forallb map fst].
    destruct (Spec.steady_at Dst.platform off 1678726800) eqn:A; [|reflexivity].
    destruct (Spec.steady_at Dst.platform off 1678640400) eqn:B; [|reflexivity].
    apply steady_at_spec in A. apply steady_at_spec in B.
    destruct A as [A _], B as [B _].
    replace (Spec.day_start Dst.platform 1678726800) with 1678683600%Z in A
      by (vm_compute; reflexivity).
    replace (Spec.date_number Dst.platform 1678726800) with 19429%Z in A
      by (vm_compute; reflexivity).
    replace (Spec.day_start Dst.platform 1678640400) with 1678600800%Z in B
      by (vm_compute; reflexivity).
    replace (Spec.date_number Dst.platform 1678640400) with 19428%Z in B
      by (vm_compute; reflexivity).
    lia.
  - vm_compute. split; repeat constructor.
Qed.

Section AdaloggerDaily.

Variable P : Platform.





End AdaloggerDaily.

(** With a finite sum, the energy that [handleDaily] gives a day is the sum
    of the powers of its readings times 5 seconds. *)
Lemma daily_wh_is_sum_times_5s (q : Q) (n : Z) :
  (0 < n)%Z -> Adalogger.daily_wh (Num q) n =~ Num (q / 1000 * (5 / 3600)).
Proof.
  intro Hn. unfold Adalogger.daily_wh.
  destruct (Z.ltb_spec 0 n) as [_|]; [|lia].
  assert (Hq : 0 < inject_Z n) by (change 0 with (inject_Z 0); now rewrite <- Zlt_Qlt).
  unfold of_Z, lit, fmul, fdiv.
  assert (Z1 : Qzero (inject_Z n) = false).
  { destruct (Qzero (inject_Z n)) eqn:E; [|reflexivity]. apply Qzero_iff in E. lra. }
  rewrite Z1. cbn [Qzero Qnum Z.eqb]. simpl feq.
  field. lra.
Qed.

(** Two readings of 100 W one hour apart, today: 100 Wh in today's slot,
    nothing elsewhere. *)
Lemma legacy_daily_example :
  let log := unlines ["epoch,iso,volts,amps,watts";
                      "1699970400,2023-11-14 14:00:00,12.000,8.333,100.000";
                      "1699974000,2023-11-14 15:00:00,12.000,8.333,100.000"]%string in
  same_series
    (Legacy.daily_get_handler Utc.platform 1700000000 (Some log))
    (map (fun i => (i, if (i =? 29)%Z then lit 100 else lit 0)) (upto 30)) /\
  same_series
    (Legacy.monthly_get_handler Utc.platform 1700000000 (Some log))
    (map (fun i => (i, if (i =? 11)%Z then lit 100 else lit 0)) (upto 12)).
Proof.
  split; vm_compute; repeat constructor.
Qed.




(* ================================================================== *)
(** * Further properties of the sketches *)

Local Open Scope Z_scope.

(** ** Retried register reads (RTC + SD sketch) *)

Lemma respond_nth (b : bus) : fst (respond b) = nth 0 (pending b) None.
Proof. unfold respond. now destruct (pending b). Qed.

Lemma respond_rest (b : bus) : snd (respond b) = skipn 1 (pending b).
Proof. unfold respond. now destruct (pending b). Qed.

Lemma i2c_read16_nak (addr reg v : Z) (b : bus) :
  nth 0 (pending b) None = None ->
  i2c_read16 addr reg v b
  = (false, v, mkBus (skipn 1 (pending b)) (trace b ++ [EvRead addr reg None])).
Proof.
  intro H. unfold i2c_read16.
  pose proof (respond_nth b) as N. pose proof (respond_rest b) as R.
  destruct (respond b) as [r rest]. simpl in N, R. subst. now rewrite H.
Qed.

Lemma i2c_read16_ack (addr reg v w : Z) (rest : list (option Z)) (b : bus) :
  pending b = Some w :: rest ->
  i2c_read16 addr reg v b
  = (true, uint16 w, mkBus rest (trace b ++ [EvRead addr reg (Some (uint16 w))])).
Proof. intro H. unfold i2c_read16, respond. now rewrite H. Qed.

Lemma nth_skipn {A} (l : list A) (n k : nat) (d : A) :
  nth k (skipn n l) d = nth (n + k) l d.
Proof.
  revert l. induction n as [|n IH]; intro l; [reflexivity|].
  destruct l; [now destruct k|]. apply IH.
Qed.

Lemma skipn_skipn {A} (l : list A) (n m : nat) :
  skipn n (skipn m l) = skipn (m + n) l.
Proof.
  revert l. induction m as [|m IH]; intro l; [reflexivity|].
  destruct l; [now rewrite !skipn_nil|]. apply IH.
Qed.

(** Every one of [retries] attempts fails. *)
Lemma inaReadRegSafe_silent (addr reg : Z) (retries : nat) (b : bus) :
  (forall k, (k < retries)%nat -> nth k (pending b) None = None) ->
  Adalogger.inaReadRegSafe addr reg retries b
  = (false, 65535,
     mkBus (skipn retries (pending b))
           (trace b ++ repeat (EvRead addr reg None) retries)).
Proof.
  revert b. induction retries as [|n IH]; intros b H.
  - cbn [Adalogger.inaReadRegSafe skipn repeat]. rewrite app_nil_r. now destruct b.
  - cbn [Adalogger.inaReadRegSafe]. rewrite i2c_read16_nak by (apply H; lia).
    rewrite IH.
    + cbn [pending trace]. rewrite skipn_skipn, <- app_assoc. reflexivity.
    + intros k Hk. cbn [pending]. rewrite nth_skipn. apply H. lia.
Qed.

(** The first acknowledged attempt ends the loop. *)
Lemma inaReadRegSafe_ack (addr reg w : Z) (retries k : nat) (rest : list (option Z)) (b : bus) :
  pending b = repeat None k ++ Some w :: rest ->
  (k < retries)%nat ->
  Adalogger.inaReadRegSafe addr reg retries b
  = (true, uint16 w,
     mkBus rest (trace b ++ repeat (EvRead addr reg None) k
                         ++ [EvRead addr reg (Some (uint16 w))])).
Proof.
  revert b retries. induction k as [|k IH]; intros b retries Hp Hk.
  - destruct retries as [|n]; [lia|]. cbn [Adalogger.inaReadRegSafe].
    now rewrite (i2c_read16_ack addr reg 0 w rest b Hp).
  - destruct retries as [|n]; [lia|]. cbn [Adalogger.inaReadRegSafe].
    rewrite i2c_read16_nak by now rewrite Hp.
    rewrite (IH _ n); [|now rewrite Hp|lia].
    cbn [pending trace repeat]. now rewrite <- app_assoc.
Qed.

Lemma inaReadRegSafe_first (addr reg w : Z) (n : nat) (rest : list (option Z)) (b : bus) :
  pending b = Some w :: rest ->
  Adalogger.inaReadRegSafe addr reg (S n) b
  = (true, uint16 w, mkBus rest (trace b ++ [EvRead addr reg (Some (uint16 w))])).
Proof.
  intro Hp. cbn [Adalogger.inaReadRegSafe]. now rewrite (i2c_read16_ack addr reg 0 w rest b Hp).
Qed.

(** X1.  [inaReadRegSafe] gives up after [retries] attempts: when none of
    the next [retries] transactions is acknowledged (an exhausted bus
    included) it returns false with 0xFFFF in [outVal] after exactly
    [retries] reads; when the first acknowledgement comes at attempt
    [k + 1 <= retries] it returns true with the two bytes read, after
    [k + 1] reads, and leaves the later responses untouched. *)
Theorem inaReadRegSafe_retries
  (addr reg : Z) (retries : nat) (b : bus) :
  ((forall k, (k < retries)%nat -> nth k (pending b) None = None) ->
   Adalogger.inaReadRegSafe addr reg retries b
   = (false, 65535,
      mkBus (skipn retries (pending b))
            (trace b ++ repeat (EvRead addr reg None) retries))) /\
  (forall (k : nat) (w : Z) (rest : list (option Z)),
     pending b = repeat None k ++ Some w :: rest ->
     (k < retries)%nat ->
     Adalogger.inaReadRegSafe addr reg retries b
     = (true, uint16 w,
        mkBus rest (trace b ++ repeat (EvRead addr reg None) k
                            ++ [EvRead addr reg (Some (uint16 w))]))).
Proof.
  split.
  - apply inaReadRegSafe_silent.
  - intros k w rest. apply inaReadRegSafe_ack.
Qed.

(** X2.  The page of [/ina219]: a sensor that acknowledges every read shows
    its six registers, shunt voltage and current as signed numbers, after
    six reads; a sensor that acknowledges none of the next 24 transactions
    is read 24 times and shows as 65535 and -1, which is also what a sensor
    whose registers all hold 0xFFFF shows. *)
Theorem handleINAregs_page (b : bus) :
  (forall v0 v1 v2 v3 v4 v5 rest,
     pending b = Some v0 :: Some v1 :: Some v2 :: Some v3 :: Some v4 :: Some v5 :: rest ->
     fst (Adalogger.handleINAregs b)
     = Adalogger.mkRegs (uint16 v0) (int16 (uint16 v1)) (uint16 v2) (uint16 v3)
                        (int16 (uint16 v4)) (uint16 v5) /\
     pending (snd (Adalogger.handleINAregs b)) = rest /\
     List.length (trace (snd (Adalogger.handleINAregs b))) = (List.length (trace b) + 6)%nat) /\
  ((forall k, (k < 24)%nat -> nth k (pending b) None = None) ->
   fst (Adalogger.handleINAregs b)
   = Adalogger.mkRegs 65535 (-1) 65535 65535 (-1) 65535 /\
   List.length (trace (snd (Adalogger.handleINAregs b))) = (List.length (trace b) + 24)%nat) /\
  (forall rest,
     pending b = repeat (Some 65535) 6 ++ rest ->
     fst (Adalogger.handleINAregs b)
     = Adalogger.mkRegs 65535 (-1) 65535 65535 (-1) 65535).
Proof.
  split; [|split].
  - intros v0 v1 v2 v3 v4 v5 rest Hp. unfold Adalogger.handleINAregs.
    rewrite (inaReadRegSafe_first _ _ v0 3 _ b Hp).
    rewrite (inaReadRegSafe_first _ _ v1 3 _ (mkBus _ _) eq_refl).
    rewrite (inaReadRegSafe_first _ _ v2 3 _ (mkBus _ _) eq_refl).
    rewrite (inaReadRegSafe_first _ _ v3 3 _ (mkBus _ _) eq_refl).
    rewrite (inaReadRegSafe_first _ _ v4 3 _ (mkBus _ _) eq_refl).
    rewrite (inaReadRegSafe_first _ _ v5 3 _ (mkBus _ _) eq_refl).
    cbn [fst snd pending trace repeat app]. repeat split.
    rewrite !length_app. cbn [List.length]. lia.
  - intro H. unfold Adalogger.handleINAregs.
    rewrite inaReadRegSafe_silent by (intros; apply H; lia).
    rewrite inaReadRegSafe_silent
      by (intros k Hk; cbn [pending]; rewrite nth_skipn; apply H; lia).
    rewrite inaReadRegSafe_silent
      by (intros k Hk; cbn [pending]; rewrite !nth_skipn; apply H; lia).
    rewrite inaReadRegSafe_silent
      by (intros k Hk; cbn [pending]; rewrite !nth_skipn; apply H; lia).
    rewrite inaReadRegSafe_silent
      by (intros k Hk; cbn [pending]; rewrite !nth_skipn; apply H; lia).
    rewrite inaReadRegSafe_silent
      by (intros k Hk; cbn [pending]; rewrite !nth_skipn; apply H; lia).
    cbn [fst snd trace]. split; [reflexivity|].
    rewrite !length_app, !repeat_length. lia.
  - intros rest Hp. cbn [repeat app] in Hp.
    unfold Adalogger.handleINAregs.
    rewrite (inaReadRegSafe_first _ _ 65535 3 _ b Hp).
    rewrite (inaReadRegSafe_first _ _ 65535 3 _ (mkBus _ _) eq_refl).
    rewrite (inaReadRegSafe_first _ _ 65535 3 _ (mkBus _ _) eq_refl).
    rewrite (inaReadRegSafe_first _ _ 65535 3 _ (mkBus _ _) eq_refl).
    rewrite (inaReadRegSafe_first _ _ 65535 3 _ (mkBus _ _) eq_refl).
    rewrite (inaReadRegSafe_first _ _ 65535 3 _ (mkBus _ _) eq_refl).
    reflexivity.
Qed.

Lemma inaReadRegSafe_retries_witness :
  Adalogger.inaReadRegSafe 0x40 0x02 4 (mkBus [None; None; None; None; Some 7] [])
  = (false, 65535, mkBus [Some 7] (repeat (EvRead 0x40 0x02 None) 4)) /\
  Adalogger.inaReadRegSafe 0x40 0x02 4 (mkBus [None; None; Some 0x2EE0; Some 7] [])
  = (true, 0x2EE0,
     mkBus [Some 7] [EvRead 0x40 0x02 None; EvRead 0x40 0x02 None;
                     EvRead 0x40 0x02 (Some 0x2EE0)]).
Proof.
  split.
  - apply (proj1 (inaReadRegSafe_retries 0x40 0x02 4
                    (mkBus [None; None; None; None; Some 7] []))).
    intros k Hk. do 4 (destruct k as [|k]; [reflexivity|]). lia.
  - apply (proj2 (inaReadRegSafe_retries 0x40 0x02 4
                    (mkBus [None; None; Some 0x2EE0; Some 7] []))
                 2%nat 0x2EE0 [Some 7]); [reflexivity|lia].
Defined.

Lemma handleINAregs_page_witness :
  fst (Adalogger.handleINAregs
         (mkBus [Some 0x399F; Some 0xFF38; Some 0x5DC2; Some 0; Some 0xFF38; Some 0x1000] []))
  = Adalogger.mkRegs 0x399F (-200) 0x5DC2 0 (-200) 0x1000 /\
  fst (Adalogger.handleINAregs (mkBus [] []))
  = Adalogger.mkRegs 65535 (-1) 65535 65535 (-1) 65535 /\
  fst (Adalogger.handleINAregs (mkBus (repeat (Some 65535) 6) []))
  = Adalogger.mkRegs 65535 (-1) 65535 65535 (-1) 65535.
Proof.
  split; [|split].
  - apply (proj1 (handleINAregs_page
                    (mkBus [Some 0x399F; Some 0xFF38; Some 0x5DC2; Some 0; Some 0xFF38;
                            Some 0x1000] []))
                 0x399F 0xFF38 0x5DC2 0 0xFF38 0x1000 [] eq_refl).
  - apply (proj1 (proj2 (handleINAregs_page (mkBus [] [])))).
    intros k _. now destruct k.
  - apply (proj2 (proj2 (handleINAregs_page (mkBus (repeat (Some 65535) 6) []))) []).
    reflexivity.
Defined.

(** ** Strings *)

Section StringFacts.

Local Open Scope Z_scope.
Local Open Scope string_scope.

Lemma str_length_app (a b : string) :
  String.length (a ++ b) = (String.length a + String.length b)%nat.
Proof. induction a as [|c a IH]; simpl; [reflexivity|now rewrite IH]. Qed.

Lemma Str_length_app (a b : string) : Str.length (a ++ b) = Str.length a + Str.length b.
Proof. unfold Str.length. rewrite str_length_app. lia. Qed.

Lemma Str_length_nonneg (s : string) : 0 <= Str.length s.
Proof. unfold Str.length. lia. Qed.

Lemma str_app_assoc (a b c : string) : (a ++ b) ++ c = a ++ (b ++ c).
Proof. induction a as [|x a IH]; simpl; [reflexivity|now rewrite IH]. Qed.

Lemma str_app_nil_r (a : string) : a ++ "" = a.
Proof. induction a as [|x a IH]; simpl; [reflexivity|now rewrite IH]. Qed.

Lemma prefix_char_same (c : ascii) (r : string) :
  String.prefix (String c "") (String c r) = true.
Proof. cbn [String.prefix]. destruct (ascii_dec c c); [now destruct r|contradiction]. Qed.

Lemma prefix_char_other (c a : ascii) (r : string) :
  Ascii.eqb a c = false -> String.prefix (String c "") (String a r) = false.
Proof.
  intro H. cbn [String.prefix]. destruct (ascii_dec c a) as [E|E]; [|reflexivity].
  subst. now rewrite Ascii.eqb_refl in H.
Qed.

(** Searching from the end of a prefix is searching the rest. *)
Lemma index_skip (c : ascii) (pre s : string) (k : nat) :
  String.index (String.length pre + k) (String c "") (pre ++ s)
  = option_map (fun n => (String.length pre + n)%nat) (String.index k (String c "") s).
Proof.
  induction pre as [|a pre IH]; cbn [String.length String.append Nat.add].
  - destruct (String.index k (String c "") s); reflexivity.
  - cbn [String.index]. rewrite IH. destruct (String.index k (String c "") s); reflexivity.
Qed.

Lemma index_field (c : ascii) (f rest : string) :
  has_char c f = false ->
  String.index 0 (String c "") (f ++ String c rest) = Some (String.length f).
Proof.
  induction f as [|a f IH]; cbn [has_char String.append String.length]; intro H.
  - cbn [String.index]. now rewrite prefix_char_same.
  - apply orb_false_iff in H. destruct H as [Ha Hf].
    cbn [String.index]. rewrite (prefix_char_other _ _ _ Ha), (IH Hf). reflexivity.
Qed.

Lemma index_absent (c : ascii) (s : string) (k : nat) :
  has_char c s = false -> String.index k (String c "") s = None.
Proof.
  revert k. induction s as [|a s IH]; intros k H.
  - destruct k; reflexivity.
  - cbn [has_char] in H. apply orb_false_iff in H. destruct H as [Ha Hs].
    destruct k; cbn [String.index].
    + now rewrite (prefix_char_other _ _ _ Ha), (IH 0%nat Hs).
    + now rewrite (IH k Hs).
Qed.

(** The next separator after a prefix: at the end of the field that
    follows it. *)
Lemma indexOf_field (c : ascii) (pre f rest : string) :
  has_char c f = false ->
  Str.indexOf c (Str.length pre) (pre ++ f ++ String c rest)
  = Str.length pre + Str.length f.
Proof.
  intro H. unfold Str.indexOf, Str.length. rewrite Nat2Z.id.
  rewrite <- (Nat.add_0_r (String.length pre)) at 1.
  rewrite index_skip, (index_field _ _ _ H). cbn [option_map]. lia.
Qed.

Lemma indexOf_last (c : ascii) (pre f : string) :
  has_char c f = false ->
  Str.indexOf c (Str.length pre) (pre ++ f) = -1.
Proof.
  intro H. unfold Str.indexOf, Str.length. rewrite Nat2Z.id.
  rewrite <- (Nat.add_0_r (String.length pre)) at 1.
  rewrite index_skip, (index_absent _ _ _ H). reflexivity.
Qed.

Lemma substring_skip (pre s : string) (m : nat) :
  String.substring (String.length pre) m (pre ++ s) = String.substring 0 m s.
Proof. induction pre as [|a pre IH]; simpl; [reflexivity|exact IH]. Qed.

Lemma substring_take (f rest : string) :
  String.substring 0 (String.length f) (f ++ rest) = f.
Proof.
  induction f as [|a f IH]; simpl.
  - now destruct rest.
  - now rewrite IH.
Qed.

(** The field between two positions. *)
Lemma Str_substring_field (pre f rest : string) :
  Str.substring (Str.length pre) (Str.length pre + Str.length f) (pre ++ f ++ rest) = f.
Proof.
  unfold Str.substring.
  pose proof (Str_length_nonneg pre). pose proof (Str_length_nonneg f).
  pose proof (Str_length_nonneg rest).
  rewrite !Str_length_app.
  rewrite Z.min_l by lia. rewrite Z.max_r by lia. rewrite Z.min_l by lia.
  destruct (Z.leb_spec (Str.length pre + (Str.length f + Str.length rest)) (Str.length pre)).
  - assert (Str.length f = 0) by lia. unfold Str.length in *. destruct f; simpl in *; [reflexivity|lia].
  - replace (Str.length pre + Str.length f - Str.length pre) with (Str.length f) by lia.
    unfold Str.length. rewrite !Nat2Z.id. now rewrite substring_skip, substring_take.
Qed.

Lemma Str_substring_from_tail (pre f : string) :
  Str.substring_from (Str.length pre) (pre ++ f) = f.
Proof.
  unfold Str.substring_from. rewrite Str_length_app.
  pose proof (Str_substring_field pre f "") as H. rewrite str_app_nil_r in H. exact H.
Qed.

End StringFacts.

(** ** Bus scan *)

Lemma concat_snoc (sep x : string) (l : list string) :
  String.concat sep (l ++ [x])
  = match l with
    | [] => x
    | _ => (String.concat sep l ++ sep ++ x)%string
    end.
Proof.
  induction l as [|a l IH]; [reflexivity|].
  cbn [app String.concat]. destruct l as [|a' l].
  - cbn [app String.concat]. reflexivity.
  - cbn [app] in *. rewrite IH. cbn [String.concat].
    now rewrite !str_app_assoc.
Qed.

Lemma hex_addr_length (a : Z) : String.length (Adalogger.hex_addr a) = 4%nat.
Proof. reflexivity. Qed.

Lemma concat_hex_empty (l : list Z) :
  String.concat " " (map Adalogger.hex_addr l) = EmptyString -> l = [].
Proof.
  destruct l as [|a l]; [reflexivity|]. cbn [map String.concat].
  destruct (map Adalogger.hex_addr l); discriminate.
Qed.

(** The scan after its first [m] addresses. *)
Lemma scan_prefix (b : bus) (m : nat) :
  let addrs := map (fun k => k + 1) (upto m) in
  let found := filter (answers b) addrs in
  fold_left Adalogger.scan_step addrs (EmptyString, 0, b)
  = (String.concat " " (map Adalogger.hex_addr found),
     Z.of_nat (List.length found),
     mkBus (skipn m (pending b))
           (trace b ++ map (fun a => EvProbe a (answers b a)) addrs)).
Proof.
  induction m as [|m IH].
  - cbn. rewrite app_nil_r. now destruct b.
  - unfold upto in *. rewrite seq_S, !map_app, fold_left_app. cbn zeta in IH.
    rewrite IH. cbn [map fold_left Nat.add].
    rewrite filter_app, !map_app. cbn [filter map].
    unfold Adalogger.scan_step at 1. unfold probe.
    pose proof (respond_nth (mkBus (skipn m (pending b))
      (trace b ++ map (fun a => EvProbe a (answers b a))
                      (map (fun k => k + 1) (map Z.of_nat (seq 0 m)))))) as N.
    pose proof (respond_rest (mkBus (skipn m (pending b))
      (trace b ++ map (fun a => EvProbe a (answers b a))
                      (map (fun k => k + 1) (map Z.of_nat (seq 0 m)))))) as R.
    destruct (respond _) as [r rest]. cbn [fst snd pending trace] in N, R.
    rewrite nth_skipn, Nat.add_0_r in N. rewrite skipn_skipn in R.
    replace (m + 1)%nat with (S m) in R by lia.
    assert (A : answers b (Z.of_nat m + 1) = is_some r).
    { unfold answers. replace (Z.to_nat (Z.of_nat m + 1 - 1)) with m by lia. now rewrite N. }
    rewrite A, R. cbn [trace]. rewrite <- !app_assoc.
    destruct (is_some r); cbn [app map].
    + rewrite concat_snoc, length_app. cbn [List.length].
      set (found := filter (answers b) (map (fun k => k + 1) (map Z.of_nat (seq 0 m)))).
      destruct found as [|a l] eqn:E.
      * cbn [List.length Z.of_nat Z.eqb map String.concat String.append Nat.add]. reflexivity.
      * replace (Z.of_nat (List.length (a :: l)) =? 0) with false
          by (symmetry; apply Z.eqb_neq; cbn [List.length]; lia).
        cbn [map]. rewrite str_app_assoc.
        replace (Z.of_nat (List.length (a :: l) + 1)) with (Z.of_nat (List.length (a :: l)) + 1)
          by lia.
        reflexivity.
    + rewrite !app_nil_r. reflexivity.
Qed.

(** X3.  [detectI2CDevices] probes the addresses 1 to 126 once each, in
    order, and nothing else; [i2cSeen] becomes the addresses that
    acknowledged, in ascending order, each written 0x followed by two
    upper-case hexadecimal digits and separated by single spaces, or the
    word none when no address acknowledged. *)
Theorem detectI2CDevices_lists_acknowledged (b : bus) :
  let found := filter (answers b) scanned in
  fst (Adalogger.detectI2CDevices b)
  = match found with
    | [] => "none"%string
    | _ => String.concat " " (map Adalogger.hex_addr found)
    end /\
  trace (snd (Adalogger.detectI2CDevices b))
  = trace b ++ map (fun a => EvProbe a (answers b a)) scanned /\
  pending (snd (Adalogger.detectI2CDevices b)) = skipn 126 (pending b).
Proof.
  unfold Adalogger.detectI2CDevices, scanned.
  rewrite (scan_prefix b 126). cbn [fst snd trace pending].
  split; [|split; reflexivity].
  set (found := filter (answers b) (map (fun k => k + 1) (upto 126))).
  destruct found as [|a l] eqn:E; [reflexivity|].
  destruct (Z.eqb_spec (Str.length (String.concat " " (map Adalogger.hex_addr (a :: l)))) 0)
    as [H|H]; [|reflexivity].
  exfalso. unfold Str.length in H.
  destruct (String.concat " " (map Adalogger.hex_addr (a :: l))) eqn:C.
  - apply concat_hex_empty in C. discriminate.
  - cbn [String.length] in H. lia.
Qed.

(** ** Live readings and logged readings (RTC + SD sketch) *)

Lemma maybeMidnightReset_haveINA (now : Adalogger.DateTime) (st : Adalogger.state) :
  Adalogger.haveINA (Adalogger.maybeMidnightReset now st) = Adalogger.haveINA st.
Proof.
  unfold Adalogger.maybeMidnightReset.
  destruct (_ =? -1); [reflexivity|]. now destruct (negb _).
Qed.

Lemma fmul_nan_l (y : float) : (NaN * y)%flt = NaN.
Proof. now destruct y. Qed.

Lemma fmul_nan_r (x : float) : (x * NaN)%flt = NaN.
Proof. now destruct x. Qed.

Lemma current_A_of_nan : Adalogger.current_A_of NaN = NaN.
Proof. reflexivity. Qed.

(** X4.  [/data] and the logger agree on the five readings: from the same
    driver values [handleData] reports the source voltage, load voltage,
    shunt voltage, current and power that [logSample] writes, NaN for all of
    them without sensor.  The energy it reports is the stored total: it
    neither integrates nor applies the midnight reset. *)
Theorem handleData_agrees_with_logSample
  (rtc_now : Adalogger.DateTime) (lib : Adalogger.readings) (tNow : Z)
  (st : Adalogger.state) :
  let live := Adalogger.handleData lib st in
  let logged := fst (Adalogger.logSample rtc_now lib tNow st) in
  Adalogger.row_sourceV live = Adalogger.row_sourceV logged /\
  Adalogger.row_busV live = Adalogger.row_busV logged /\
  Adalogger.row_shunt_mV live = Adalogger.row_shunt_mV logged /\
  Adalogger.row_current_mA live = Adalogger.row_current_mA logged /\
  Adalogger.row_power_mW live = Adalogger.row_power_mW logged /\
  Adalogger.row_energy live = Adalogger.energyToday_Wh st /\
  (Adalogger.haveINA st = false ->
   live = Adalogger.mkRow NaN NaN NaN NaN NaN (Adalogger.energyToday_Wh st)).
Proof.
  unfold Adalogger.handleData, Adalogger.logSample.
  set (st1 := if Adalogger.haveRTC st then Adalogger.maybeMidnightReset rtc_now st else st).
  assert (E : Adalogger.haveINA st1 = Adalogger.haveINA st).
  { unfold st1. destruct (Adalogger.haveRTC st); [apply maybeMidnightReset_haveINA|reflexivity]. }
  cbn [fst Adalogger.row_sourceV Adalogger.row_busV Adalogger.row_shunt_mV
       Adalogger.row_current_mA Adalogger.row_power_mW Adalogger.row_energy].
  rewrite E. destruct (Adalogger.haveINA st); cbn [andb negb isnan].
  - destruct (Adalogger.getShuntVoltage_mV lib) as [q|s|] eqn:S;
      cbn [isnan negb andb]; rewrite ?current_A_of_nan, ?fmul_nan_l, ?fmul_nan_r;
      repeat split; try discriminate.
  - repeat split.
Qed.

Lemma handleData_agrees_with_logSample_witness :
  Adalogger.handleData (Adalogger.mkReadings (lit 7.5) (lit 12)) Adalogger.initial
  = Adalogger.mkRow NaN NaN NaN NaN NaN (lit 0).
Proof.
  apply (handleData_agrees_with_logSample
           (Adalogger.mkDateTime 2025 9 21 10 0 0)
           (Adalogger.mkReadings (lit 7.5) (lit 12)) 5000 Adalogger.initial).
  reflexivity.
Defined.

(** ** Day of the year (RTC + SD sketch) *)

Lemma fold_add_shift (l : list Z) (d : Z) :
  fold_left Z.add l d = d + fold_left Z.add l 0.
Proof.
  revert d. induction l as [|x l IH]; intro d; cbn [fold_left]; [lia|].
  rewrite (IH (d + x)), (IH (0 + x)). lia.
Qed.

(** The loop of [dayOfYear] adds up the lengths of the months before. *)
Lemma dayOfYear_days_before (dt : Adalogger.DateTime) :
  Adalogger.dayOfYear dt
  = Adalogger.day dt + days_before (Adalogger.year dt) (Adalogger.month dt).
Proof.
  unfold Adalogger.dayOfYear, days_before.
  generalize (map (fun k => k + 1) (upto (Z.to_nat (Adalogger.month dt - 1)))).
  intro l. generalize (Adalogger.day dt).
  induction l as [|m l IH]; intro d; cbn [fold_left map]; [lia|].
  rewrite IH, (fold_add_shift _ (0 + _)).
  unfold days_in_month at 2.
  destruct ((m =? 2) && Adalogger.leap (Adalogger.year dt))%bool; lia.
Qed.

Lemma days_in_month_nonneg (y m : Z) : 0 <= days_in_month y m.
Proof.
  unfold days_in_month. pose proof (dim_nonneg (Z.to_nat (m - 1))).
  destruct ((m =? 2) && Adalogger.leap y)%bool; lia.
Qed.

Lemma days_before_next (y m : Z) :
  1 <= m -> days_before y (m + 1) = days_before y m + days_in_month y m.
Proof.
  intro H. unfold days_before, upto.
  replace (Z.to_nat (m + 1 - 1)) with (S (Z.to_nat (m - 1))) by lia.
  rewrite seq_S, !map_app, fold_left_app. cbn [map fold_left Nat.add].
  f_equal. f_equal. lia.
Qed.

Lemma days_before_mono (y m k : Z) :
  1 <= m -> 0 <= k -> days_before y m <= days_before y (m + k).
Proof.
  intros Hm Hk. revert k Hk. apply natlike_ind.
  - rewrite Z.add_0_r. lia.
  - intros k Hk IH. replace (m + Z.succ k) with ((m + k) + 1) by lia.
    rewrite days_before_next by lia. pose proof (days_in_month_nonneg y (m + k)). lia.
Qed.

Lemma days_before_13 (y : Z) :
  days_before y 13 = 365 + (if Adalogger.leap y then 1 else 0).
Proof.
  unfold days_before, days_in_month. generalize (Adalogger.leap y). intro lp.
  cbn. destruct lp; reflexivity.
Qed.

(** X5.  [dayOfYear] numbers the days of a year: for calendar dates it lies
    between 1 and 365 (366 in a leap year), 1 January is day 1, it grows
    strictly with the date inside a year, so two dates of one year with the
    same number are the same date, and 31 December never has the number of
    the 1 January that follows.  Hence the comparison in
    [maybeMidnightReset] sees every change of date from one sample to the
    next. *)
Theorem dayOfYear_numbers_the_days (a b : Adalogger.DateTime) :
  valid_date a -> valid_date b ->
  1 <= Adalogger.dayOfYear a
    <= 365 + (if Adalogger.leap (Adalogger.year a) then 1 else 0) /\
  (Adalogger.month a = 1 -> Adalogger.dayOfYear a = Adalogger.day a) /\
  (earlier_in_year a b -> Adalogger.dayOfYear a < Adalogger.dayOfYear b) /\
  (Adalogger.year a = Adalogger.year b ->
   Adalogger.dayOfYear a = Adalogger.dayOfYear b ->
   Adalogger.month a = Adalogger.month b /\ Adalogger.day a = Adalogger.day b) /\
  (Adalogger.month a = 12 -> Adalogger.day a = 31 ->
   Adalogger.month b = 1 -> Adalogger.day b = 1 ->
   Adalogger.dayOfYear a <> Adalogger.dayOfYear b).
Proof.
  intros [Ma Da] [Mb Db].
  rewrite !dayOfYear_days_before.
  assert (step : forall y m m', 1 <= m -> m < m' ->
            days_before y m + days_in_month y m <= days_before y m').
  { intros y m m' H1 H2. rewrite <- days_before_next by lia.
    replace m' with (m + 1 + (m' - m - 1)) by lia. apply days_before_mono; lia. }
  assert (J : forall y, days_before y 1 = 0) by reflexivity.
  assert (lo : forall y m, 1 <= m -> 0 <= days_before y m).
  { intros y m H. replace m with (1 + (m - 1)) by lia.
    pose proof (days_before_mono y 1 (m - 1) ltac:(lia) ltac:(lia)) as L.
    rewrite J in L. exact L. }
  assert (lt : earlier_in_year a b ->
            Adalogger.day a + days_before (Adalogger.year a) (Adalogger.month a)
            < Adalogger.day b + days_before (Adalogger.year b) (Adalogger.month b)).
  { intros [Y [M|[M D]]].
    - rewrite <- Y. pose proof (step (Adalogger.year a) _ _ (proj1 Ma) M). lia.
    - rewrite <- Y, <- M. lia. }
  assert (lt' : earlier_in_year b a ->
            Adalogger.day b + days_before (Adalogger.year b) (Adalogger.month b)
            < Adalogger.day a + days_before (Adalogger.year a) (Adalogger.month a)).
  { intros [Y [M|[M D]]].
    - rewrite <- Y. pose proof (step (Adalogger.year b) _ _ (proj1 Mb) M). lia.
    - rewrite <- Y, <- M. lia. }
  split; [|split; [|split; [|split]]].
  - pose proof (lo (Adalogger.year a) _ (proj1 Ma)).
    pose proof (days_before_13 (Adalogger.year a)) as T.
    destruct (Z.eq_dec (Adalogger.month a) 12) as [E|E].
    + pose proof (days_before_next (Adalogger.year a) 12 ltac:(lia)) as N.
      change (12 + 1) with 13 in N. rewrite E in *. lia.
    + pose proof (step (Adalogger.year a) (Adalogger.month a) 13 ltac:(lia) ltac:(lia)). lia.
  - intro E. rewrite E, J. lia.
  - exact lt.
  - intros Y E. unfold earlier_in_year in lt, lt'.
    destruct (Z.lt_trichotomy (Adalogger.month a) (Adalogger.month b)) as [M|[M|M]].
    + specialize (lt (conj Y (or_introl M))). lia.
    + destruct (Z.lt_trichotomy (Adalogger.day a) (Adalogger.day b)) as [D|[D|D]].
      * specialize (lt (conj Y (or_intror (conj M D)))). lia.
      * auto.
      * specialize (lt' (conj (eq_sym Y) (or_intror (conj (eq_sym M) D)))). lia.
    + specialize (lt' (conj (eq_sym Y) (or_introl M))). lia.
  - intros M12 D31 M1 D1. rewrite M12, D31, M1, D1, J.
    pose proof (step (Adalogger.year a) 1 12 ltac:(lia) ltac:(lia)) as S.
    rewrite J in S. pose proof (days_in_month_nonneg (Adalogger.year a) 1).
    assert (days_in_month (Adalogger.year a) 1 = 31) by reflexivity. lia.
Qed.

Lemma dayOfYear_numbers_the_days_witness :
  Adalogger.dayOfYear (Adalogger.mkDateTime 2024 2 29 23 59 58)
  < Adalogger.dayOfYear (Adalogger.mkDateTime 2024 3 1 0 0 3).
Proof.
  apply (dayOfYear_numbers_the_days
           (Adalogger.mkDateTime 2024 2 29 23 59 58)
           (Adalogger.mkDateTime 2024 3 1 0 0 3)).
  - repeat split; vm_compute; intro H; discriminate H.
  - repeat split; vm_compute; intro H; discriminate H.
  - split; [reflexivity|]. left. reflexivity.
Defined.

(** ** Sampling cadence (RTC + SD sketch) *)

Lemma ulong_sub_elapsed (t d : Z) :
  0 <= t < 4294967296 -> 0 <= d < 4294967296 ->
  ulong_sub ((t + d) mod 4294967296) t = d.
Proof.
  intros Ht Hd. unfold ulong_sub.
  rewrite Zminus_mod_idemp_l. replace (t + d - t) with d by lia.
  now apply Z.mod_small.
Qed.

(** X6.  The five-second cadence of [loop] survives the roll-over of
    [millis()]: [d] milliseconds after the last sample, whether or not the
    32-bit counter wrapped in between, [loop] does nothing when [d] is below
    5000 and samples when it is at least 5000, which moves both time stamps
    to the present. *)
Theorem loop_cadence_across_rollover
  (rtc_now : Adalogger.DateTime) (lib : Adalogger.readings) (d : Z)
  (st : Adalogger.state) :
  0 <= Adalogger.lastLogMs st < 4294967296 ->
  0 <= d < 4294967296 ->
  let nowMs := (Adalogger.lastLogMs st + d) mod 4294967296 in
  (d < 5000 -> Adalogger.loop rtc_now lib nowMs st = st) /\
  (5000 <= d ->
   Adalogger.lastLogMs (Adalogger.loop rtc_now lib nowMs st) = nowMs /\
   Adalogger.lastEnergyMs (Adalogger.loop rtc_now lib nowMs st) = nowMs).
Proof.
  intros Ht Hd nowMs. unfold Adalogger.loop, nowMs.
  rewrite ulong_sub_elapsed by assumption. unfold Adalogger.LOG_INTERVAL_MS.
  split; intro H.
  - destruct (Z.leb_spec 5000 d); [lia|reflexivity].
  - destruct (Z.leb_spec 5000 d); [|lia].
    unfold Adalogger.logSample. cbn [snd Adalogger.lastLogMs Adalogger.lastEnergyMs Adalogger.haveRTC].
    split; [|reflexivity].
    destruct (Adalogger.haveRTC st); [|reflexivity].
    unfold Adalogger.maybeMidnightReset. cbn [Adalogger.lastDayOfYear].
    destruct (_ =? -1); [reflexivity|]. now destruct (negb _).
Qed.

Lemma loop_cadence_across_rollover_witness :
  let st := Adalogger.mkState 4294966000 4294966000 (lit 0) false true false (-1) in
  let lib := Adalogger.mkReadings (lit 7.5) (lit 12) in
  let rtc := Adalogger.mkDateTime 2025 9 21 10 0 0 in
  Adalogger.loop rtc lib 3703 st = st /\
  Adalogger.lastLogMs (Adalogger.loop rtc lib 3704 st) = 3704.
Proof.
  split.
  - apply (proj1 (loop_cadence_across_rollover
                    (Adalogger.mkDateTime 2025 9 21 10 0 0)
                    (Adalogger.mkReadings (lit 7.5) (lit 12)) 4999
                    (Adalogger.mkState 4294966000 4294966000 (lit 0) false true false (-1))
                    ltac:(cbn; lia) ltac:(lia))).
    lia.
  - apply (proj2 (loop_cadence_across_rollover
                    (Adalogger.mkDateTime 2025 9 21 10 0 0)
                    (Adalogger.mkReadings (lit 7.5) (lit 12)) 5000
                    (Adalogger.mkState 4294966000 4294966000 (lit 0) false true false (-1))
                    ltac:(cbn; lia) ltac:(lia))).
    lia.
Defined.

(** ** What the request handlers do on the bus (register-level sketch) *)

Lemma queries_refl (b : bus) : queries 0 b b.
Proof. exists []. now rewrite app_nil_r. Qed.

Lemma queries_trans (n m : nat) (b1 b2 b3 : bus) :
  queries n b1 b2 -> queries m b2 b3 -> queries (n + m) b1 b3.
Proof.
  intros (t1 & E1 & Q1 & L1) (t2 & E2 & Q2 & L2). exists (t1 ++ t2).
  rewrite E2, E1, app_assoc, forallb_app, length_app, Q1, Q2, L1, L2. auto.
Qed.

Lemma i2c_read16_queries (addr reg v : Z) (b : bus) :
  queries 1 b (snd (i2c_read16 addr reg v b)).
Proof.
  unfold i2c_read16. destruct (respond b) as [[r|] rest]; simpl;
    eexists; repeat split; reflexivity.
Qed.

Lemma probe_queries (addr : Z) (b : bus) : queries 1 b (snd (probe addr b)).
Proof.
  unfold probe. destruct (respond b) as [r rest]; simpl;
    eexists; repeat split; reflexivity.
Qed.

Lemma debug_reads_queries (b : bus) : queries 7 b (snd (Fixed.debug_reads b)).
Proof.
  unfold Fixed.debug_reads.
  pose proof (i2c_read16_queries Fixed.INA219_ADDR Fixed.INA219_REG_BUSVOLTAGE 0 b) as E1.
  destruct (i2c_read16 _ Fixed.INA219_REG_BUSVOLTAGE 0 b) as [[o1 v1] b1].
  pose proof (i2c_read16_queries Fixed.INA219_ADDR Fixed.INA219_REG_CONFIG 0 b1) as E2.
  destruct (i2c_read16 _ Fixed.INA219_REG_CONFIG 0 b1) as [[o2 v2] b2].
  pose proof (i2c_read16_queries Fixed.INA219_ADDR Fixed.INA219_REG_CURRENT 0 b2) as E3.
  destruct (i2c_read16 _ Fixed.INA219_REG_CURRENT 0 b2) as [[o3 v3] b3].
  pose proof (i2c_read16_queries Fixed.INA219_ADDR Fixed.INA219_REG_SHUNTVOLTAGE 0 b3) as E4.
  destruct (i2c_read16 _ Fixed.INA219_REG_SHUNTVOLTAGE 0 b3) as [[o4 v4] b4].
  pose proof (i2c_read16_queries Fixed.INA219_ADDR Fixed.INA219_REG_CALIBRATION 0 b4) as E5.
  destruct (i2c_read16 _ Fixed.INA219_REG_CALIBRATION 0 b4) as [[o5 v5] b5].
  pose proof (probe_queries 64 b5) as E6. destruct (probe 64 b5) as [o6 b6].
  pose proof (probe_queries 65 b6) as E7. destruct (probe 65 b6) as [o7 b7].
  simpl in *.
  exact (queries_trans 6 1 _ _ _
           (queries_trans 5 1 _ _ _
              (queries_trans 4 1 _ _ _
                 (queries_trans 3 1 _ _ _
                    (queries_trans 2 1 _ _ _ (queries_trans 1 1 _ _ _ E1 E2) E3) E4) E5) E6) E7).
Qed.

Lemma data_get_handler_queries (now_ms now : Z) (st : Fixed.state) :
  queries 9 (Fixed.i2c st) (Fixed.i2c (snd (Fixed.data_get_handler now_ms now st))).
Proof.
  unfold Fixed.data_get_handler, Fixed.INA219_read_vbus_V, Fixed.INA219_read_current_A.
  pose proof (i2c_read16_queries Fixed.INA219_ADDR Fixed.INA219_REG_BUSVOLTAGE 0 (Fixed.i2c st)) as E1.
  destruct (i2c_read16 _ Fixed.INA219_REG_BUSVOLTAGE 0 (Fixed.i2c st)) as [[o1 v1] b1].
  destruct o1; simpl;
    pose proof (i2c_read16_queries Fixed.INA219_ADDR Fixed.INA219_REG_CURRENT 0 b1) as E2;
    destruct (i2c_read16 _ Fixed.INA219_REG_CURRENT 0 b1) as [[o2 v2] b2];
    destruct o2; simpl;
    pose proof (debug_reads_queries b2) as E3;
    destruct (Fixed.debug_reads b2) as [[rb ok] b3]; simpl in *;
    exact (queries_trans 2 7 _ _ _ (queries_trans 1 1 _ _ _ E1 E2) E3).
Qed.

Lemma diag_get_handler_queries (st : Fixed.state) :
  queries 6 (Fixed.i2c st) (Fixed.i2c (snd (Fixed.diag_get_handler st))).
Proof.
  unfold Fixed.diag_get_handler.
  pose proof (i2c_read16_queries Fixed.INA219_ADDR 0 0 (Fixed.i2c st)) as E1.
  destruct (i2c_read16 Fixed.INA219_ADDR 0 0 (Fixed.i2c st)) as [[o1 v1] b1].
  pose proof (i2c_read16_queries Fixed.INA219_ADDR 1 0 b1) as E2.
  destruct (i2c_read16 Fixed.INA219_ADDR 1 0 b1) as [[o2 v2] b2].
  pose proof (i2c_read16_queries Fixed.INA219_ADDR 2 0 b2) as E3.
  destruct (i2c_read16 Fixed.INA219_ADDR 2 0 b2) as [[o3 v3] b3].
  pose proof (i2c_read16_queries Fixed.INA219_ADDR 3 0 b3) as E4.
  destruct (i2c_read16 Fixed.INA219_ADDR 3 0 b3) as [[o4 v4] b4].
  pose proof (i2c_read16_queries Fixed.INA219_ADDR 4 0 b4) as E5.
  destruct (i2c_read16 Fixed.INA219_ADDR 4 0 b4) as [[o5 v5] b5].
  pose proof (i2c_read16_queries Fixed.INA219_ADDR 5 0 b5) as E6.
  destruct (i2c_read16 Fixed.INA219_ADDR 5 0 b5) as [[o6 v6] b6].
  simpl in *.
  exact (queries_trans 5 1 _ _ _
           (queries_trans 4 1 _ _ _
              (queries_trans 3 1 _ _ _
                 (queries_trans 2 1 _ _ _ (queries_trans 1 1 _ _ _ E1 E2) E3) E4) E5) E6).
Qed.

(** X7.  After [setup] the register-level sketch never writes to the
    sensor again: whatever requests arrive and whatever the sensor answers,
    [/data] makes exactly nine bus transactions (seven register reads and
    two address probes), [/diag] exactly six reads, [/cal] none, and none of
    them is a register write.  The calibration and configuration registers
    are therefore programmed at power-up or not at all. *)
Theorem requests_never_write (reqs : list Fixed.request) (st : Fixed.state) :
  queries (transactions reqs) (Fixed.i2c st) (Fixed.i2c (snd (Fixed.serve reqs st))).
Proof.
  revert st. induction reqs as [|[now_ms now| |q] rest IH]; intro st; cbn [Fixed.serve transactions fold_right].
  - apply queries_refl.
  - pose proof (data_get_handler_queries now_ms now st) as K.
    destruct (Fixed.data_get_handler now_ms now st) as [r st1]. cbn [snd] in K.
    specialize (IH st1). destruct (Fixed.serve rest st1) as [rs st2]. cbn [snd] in *.
    exact (queries_trans 9 _ _ _ _ K IH).
  - exact (queries_trans 6 _ _ _ _ (diag_get_handler_queries st)
             (IH (snd (Fixed.diag_get_handler st)))).
  - destruct (cal_set_handler_keeps q st) as (_ & _ & _ & _ & K).
    specialize (IH (Fixed.cal_set_handler q st)). rewrite K in IH. exact IH.
Qed.

(** ** Failed initialisation (register-level sketch) *)

(** X8.  [INA219_init] stops at the first write that is not acknowledged:
    it reports success exactly when the reset, the calibration write and the
    configuration write are all acknowledged, it makes one, two or three
    bus transactions accordingly, and when the reset itself fails it leaves
    the calibration value and the current LSB as they were. *)
Theorem INA219_init_stops_at_first_failure (st : Fixed.state) :
  let r0 := nth 0 (pending (Fixed.i2c st)) None in
  let r1 := nth 1 (pending (Fixed.i2c st)) None in
  let r2 := nth 2 (pending (Fixed.i2c st)) None in
  let st' := snd (Fixed.INA219_init st) in
  fst (Fixed.INA219_init st) = is_some r0 && is_some r1 && is_some r2 /\
  List.length (trace (Fixed.i2c st'))
  = (List.length (trace (Fixed.i2c st))
     + (if is_some r0 then if is_some r1 then 3 else 2 else 1))%nat /\
  (is_some r0 = false ->
   Fixed.current_lsb st' = Fixed.current_lsb st /\
   Fixed.ina219_calValue st' = Fixed.ina219_calValue st /\
   trace (Fixed.i2c st') = trace (Fixed.i2c st) ++ [EvWrite 0x40 0x00 0x8000 false]).
Proof.
  unfold Fixed.INA219_init, i2c_write16, respond.
  destruct (pending (Fixed.i2c st)) as [|[v0|] [|[v1|] [|[v2|] rest]]];
    cbn; rewrite ?length_app; cbn [List.length];
    repeat split; try discriminate; try lia.
Qed.

Lemma INA219_init_stops_at_first_failure_witness :
  let st := Fixed.initial (mkBus [None; Some 0; Some 0] []) None in
  Fixed.current_lsb (snd (Fixed.INA219_init st)) = lit 0 /\
  Fixed.ina219_calValue (snd (Fixed.INA219_init st)) = 0 /\
  trace (Fixed.i2c (snd (Fixed.INA219_init st))) = [] ++ [EvWrite 0x40 0x00 0x8000 false].
Proof.
  apply (INA219_init_stops_at_first_failure
           (Fixed.initial (mkBus [None; Some 0; Some 0] []) None)).
  reflexivity.
Defined.

(** ** Range of the readings (register-level sketch) *)

Lemma uint16_range (z : Z) : 0 <= uint16 z < 65536.
Proof. unfold uint16. apply Z.mod_pos_bound. lia. Qed.

Lemma int16_range (z : Z) : -32768 <= int16 z < 32768.
Proof.
  unfold int16. pose proof (Z.mod_pos_bound z 65536 ltac:(lia)).
  destruct (Z.ltb_spec (z mod 65536) 32768); lia.
Qed.

Lemma decode_vbus_range (raw : Z) :
  0 <= raw < 65536 ->
  exists v, Fixed.decode_vbus raw = Num v /\ (0 <= v <= 32.764)%Q.
Proof.
  intro H. unfold Fixed.decode_vbus, of_Z, lit. cbn [fmul fdiv].
  change (Qzero 1000) with false. cbn iota. eexists. split; [reflexivity|].
  assert (B : 0 <= Z.shiftr raw 3 <= 8191).
  { rewrite Z.shiftr_div_pow2 by lia. change (2 ^ 3) with 8.
    split; [apply Z.div_pos; lia|]. apply Z.lt_succ_r. apply Z.div_lt_upper_bound; lia. }
  destruct B as [B1 B2]. rewrite Zle_Qle in B1, B2.
  change (inject_Z 0) with 0%Q in B1. change (inject_Z 8191) with 8191%Q in B2.
  set (x := inject_Z (Z.shiftr raw 3)) in *.
  assert (E : (x * 4 / 1000 == x * (4 # 1000))%Q) by (unfold Qdiv; field).
  rewrite E. split; lra.
Qed.

(** The constant of the sketch, a little above 3.2. *)
Lemma MAX_CURRENT_value :
  exists m : Q, Fixed.MAX_CURRENT = Num m /\ (3.2 < m < 3.2000001)%Q.
Proof.
  eexists. split; [reflexivity|]. split; reflexivity.
Qed.

Lemma decode_current_range (raw : Z) (m : Q) :
  Fixed.MAX_CURRENT = Num m ->
  exists i, Fixed.decode_current raw (Fixed.MAX_CURRENT / lit 32768)%flt = Num i /\
            (- m <= i < m)%Q.
Proof.
  intro E. rewrite E. destruct MAX_CURRENT_value as (m' & E' & [P _]).
  rewrite E in E'. injection E' as <-.
  unfold Fixed.decode_current, of_Z, lit. cbn [fmul fdiv].
  change (Qzero 32768) with false. cbn iota. eexists. split; [reflexivity|].
  destruct (int16_range raw) as [B1 B2].
  rewrite Zle_Qle in B1. rewrite Zlt_Qlt in B2.
  change (inject_Z (-32768)) with (-32768)%Q in B1.
  change (inject_Z 32768) with 32768%Q in B2.
  set (x := inject_Z (int16 raw)) in *.
  assert (F : (x * (m / 32768) == x * m * (1 # 32768))%Q) by (unfold Qdiv; field).
  rewrite F. split; nra.
Qed.

Lemma i2c_read16_range (addr reg v : Z) (b : bus) :
  fst (fst (i2c_read16 addr reg v b)) = true ->
  0 <= snd (fst (i2c_read16 addr reg v b)) < 65536.
Proof.
  unfold i2c_read16. destruct (respond b) as [[r|] rest]; cbn; [|discriminate].
  intros _. apply uint16_range.
Qed.

(** X9.  With both multipliers at 1 and the current LSB that [INA219_init]
    sets, every [/data] reply stays inside the range of the converter,
    whatever the sensor returns and also when a read fails: the voltage is
    a number between 0 and 32.764 V, the current a number from -MAX_CURRENT
    up to but not including MAX_CURRENT, where MAX_CURRENT is the constant
    of the sketch, the binary32 number 3.2f, which lies between 3.2 and
    3.2000001. *)
Theorem data_reply_in_range (now_ms now : Z) (st : Fixed.state) :
  Fixed.CAL_V st = lit 1 ->
  Fixed.CAL_I st = lit 1 ->
  Fixed.current_lsb st = (Fixed.MAX_CURRENT / lit 32768)%flt ->
  let r := fst (Fixed.data_get_handler now_ms now st) in
  exists v i m,
    Fixed.r_voltage r = Num v /\ Fixed.r_current r = Num i /\
    Fixed.MAX_CURRENT = Num m /\
    (0 <= v <= 32.764)%Q /\ (- m <= i < m)%Q /\ (3.2 < m < 3.2000001)%Q.
Proof.
  intros HV HI HL.
  destruct MAX_CURRENT_value as (m & Em & Bm).
  unfold Fixed.data_get_handler, Fixed.INA219_read_vbus_V, Fixed.INA219_read_current_A.
  pose proof (i2c_read16_range Fixed.INA219_ADDR Fixed.INA219_REG_BUSVOLTAGE 0 (Fixed.i2c st)) as R1.
  destruct (i2c_read16 _ Fixed.INA219_REG_BUSVOLTAGE 0 (Fixed.i2c st)) as [[o1 v1] b1].
  destruct o1; cbn [Fixed.i2c Fixed.set_i2c];
    destruct (i2c_read16 _ Fixed.INA219_REG_CURRENT 0 b1) as [[o2 v2] b2];
    destruct o2; cbn [Fixed.i2c Fixed.set_i2c Fixed.lastEnergyMs Fixed.energy_Wh
                      Fixed.CAL_V Fixed.CAL_I Fixed.current_lsb];
    destruct (Fixed.debug_reads b2) as [[rb ok] b3];
    cbn [fst snd Fixed.r_voltage Fixed.r_current] in *;
    rewrite ?HV, ?HI, ?HL.
  - destruct (decode_vbus_range v1 (R1 eq_refl)) as (v & -> & Bv).
    destruct (decode_current_range v2 m Em) as (i & -> & Bi).
    exists (v * 1)%Q, (i * 1)%Q, m. repeat split; try assumption; lra.
  - destruct (decode_vbus_range v1 (R1 eq_refl)) as (v & -> & Bv).
    exists (v * 1)%Q, 0%Q, m. repeat split; try assumption; lra.
  - destruct (decode_current_range v2 m Em) as (i & -> & Bi).
    exists 0%Q, (i * 1)%Q, m. repeat split; try assumption; lra.
  - exists 0%Q, 0%Q, m. repeat split; try assumption; lra.
Qed.

Lemma data_reply_in_range_witness :
  let st := Fixed.setup
              (Fixed.initial (mkBus [Some 0; Some 0; Some 0; Some 65535; Some 32768] []) None) in
  let r := fst (Fixed.data_get_handler 1000 1700000000 st) in
  exists v i m,
    Fixed.r_voltage r = Num v /\ Fixed.r_current r = Num i /\
    Fixed.MAX_CURRENT = Num m /\
    (0 <= v <= 32.764)%Q /\ (- m <= i < m)%Q /\ (3.2 < m < 3.2000001)%Q.
Proof.
  apply (data_reply_in_range 1000 1700000000
           (Fixed.setup
              (Fixed.initial (mkBus [Some 0; Some 0; Some 0; Some 65535; Some 32768] []) None)));
    reflexivity.
Defined.

(** The lower end is reached: the register value 0x8000 gives -MAX_CURRENT,
    which is below -3.2 A. *)
Lemma data_reply_lowest_current :
  let st := Fixed.setup
              (Fixed.initial (mkBus [Some 0; Some 0; Some 0; Some 65535; Some 32768] []) None) in
  let r := fst (Fixed.data_get_handler 1000 1700000000 st) in
  Fixed.r_current r =~ (lit (-1) * Fixed.MAX_CURRENT)%flt /\
  (Fixed.r_current r <? lit (-3.2))%flt = true /\
  (lit (-3.2000001) <? Fixed.r_current r)%flt = true.
Proof.
  vm_compute. auto.
Qed.

(** ** Energy integration (register-level sketch) *)

(** X10.  [data_get_handler] integrates with the power of the present
    request over the time since the previous one: [d] milliseconds after a
    request whose [millis()] was not 0, a positive power [p] adds
    [p * d / 3600000] Wh, also when the 32-bit counter wrapped in between;
    a power that is zero, negative or not a number adds nothing.  While
    [lastEnergyMs] is 0 (first request after power-up, or a previous
    request served at [millis() = 0]) nothing is added either.  In every
    case the time stamp moves to the present. *)
Theorem data_request_integrates (now : Z) (d : Z) (st : Fixed.state) :
  0 <= Fixed.lastEnergyMs st < 4294967296 ->
  0 <= d < 4294967296 ->
  let now_ms := (Fixed.lastEnergyMs st + d) mod 4294967296 in
  let r := fst (Fixed.data_get_handler now_ms now st) in
  let st' := snd (Fixed.data_get_handler now_ms now st) in
  Fixed.lastEnergyMs st' = now_ms /\
  Fixed.r_energy_Wh r = Fixed.energy_Wh st' /\
  (0 < Fixed.lastEnergyMs st -> (lit 0 <? Fixed.r_power r)%flt = true ->
   Fixed.energy_Wh st'
   = (Fixed.energy_Wh st + Fixed.r_power r * (of_Z d / lit 3600000))%flt) /\
  ((lit 0 <? Fixed.r_power r)%flt = false -> Fixed.energy_Wh st' = Fixed.energy_Wh st) /\
  (Fixed.lastEnergyMs st = 0 -> Fixed.energy_Wh st' = Fixed.energy_Wh st).
Proof.
  intros Ht Hd now_ms r st'. subst r st'.
  pose proof (ulong_sub_elapsed (Fixed.lastEnergyMs st) d Ht Hd) as U. fold now_ms in U.
  unfold Fixed.data_get_handler, Fixed.INA219_read_vbus_V, Fixed.INA219_read_current_A.
  destruct (i2c_read16 _ Fixed.INA219_REG_BUSVOLTAGE 0 (Fixed.i2c st)) as [[o1 v1] b1].
  destruct o1; cbn [Fixed.i2c Fixed.set_i2c];
    destruct (i2c_read16 _ Fixed.INA219_REG_CURRENT 0 b1) as [[o2 v2] b2];
    destruct o2; cbn [Fixed.i2c Fixed.set_i2c Fixed.lastEnergyMs Fixed.energy_Wh
                      Fixed.CAL_V Fixed.CAL_I Fixed.current_lsb];
    destruct (Fixed.debug_reads b2) as [[rb ok] b3];
    cbn [fst snd Fixed.lastEnergyMs Fixed.energy_Wh Fixed.r_power Fixed.r_energy_Wh];
    rewrite U;
    (split; [reflexivity|]); (split; [reflexivity|]);
    (split; [intros Hp Hw; rewrite Hw;
             destruct (Z.ltb_spec 0 (Fixed.lastEnergyMs st)); [reflexivity|lia]|]);
    (split; [intros Hw; rewrite Hw, andb_false_r; reflexivity|]);
    intros H0; rewrite H0; reflexivity.
Qed.

Lemma data_request_integrates_witness :
  let st := snd (Fixed.data_get_handler 4294966296 1700000000
                   (Fixed.setup (Fixed.initial
                      (mkBus [Some 0; Some 0; Some 0; Some 24000; Some 1000;
                              Some 0; Some 0; Some 0; Some 0; Some 0; Some 0; Some 0;
                              Some 24000; Some 1000] []) None))) in
  let st' := snd (Fixed.data_get_handler 2704 1700000004 st) in
  Fixed.energy_Wh st = lit 0 /\
  Fixed.lastEnergyMs st' = 2704 /\
  Fixed.energy_Wh st'
  = (lit 0 + Fixed.r_power (fst (Fixed.data_get_handler 2704 1700000004 st))
             * (of_Z 3704 / lit 3600000))%flt.
Proof.
  pose proof (data_request_integrates 1700000004 3704
                (snd (Fixed.data_get_handler 4294966296 1700000000
                   (Fixed.setup (Fixed.initial
                      (mkBus [Some 0; Some 0; Some 0; Some 24000; Some 1000;
                              Some 0; Some 0; Some 0; Some 0; Some 0; Some 0; Some 0;
                              Some 24000; Some 1000] []) None))))
                ltac:(cbn; lia) ltac:(lia)) as (T & _ & E & _).
  split; [reflexivity|]. split; [exact T|].
  apply E; [cbn; lia|vm_compute; reflexivity].
Defined.

(** ** A sensor that is absent at power-up (register-level sketch) *)

Lemma fltb_zero_false (q : Q) : (q == 0)%Q -> (Num 0 <? Num q)%flt = false.
Proof. intro H. cbn. apply Qltb_false_iff. lra. Qed.

Lemma zero_times (x : float) (q : Q) :
  (q == 0)%Q -> zero_or_nan (Num q * x)%flt /\ zero_or_nan (x * Num q)%flt.
Proof.
  intro H. assert (Z : Qzero q = true).
  { unfold Qzero. apply Z.eqb_eq. destruct q as [n d]. unfold Qeq in H. simpl in *. lia. }
  destruct x as [a|s|]; cbn [fmul]; rewrite ?Z; unfold zero_or_nan; cbn [feq lit];
    (split; [try (right; reflexivity)|try (right; reflexivity)]); left; rewrite H; ring.
Qed.

Lemma zero_or_nan_times (x y : float) : zero_or_nan y -> zero_or_nan (x * y)%flt.
Proof.
  intros [H| ->].
  - destruct y as [q| |]; cbn [feq lit] in H; try contradiction.
    now apply zero_times.
  - right. now destruct x.
Qed.

Lemma zero_or_nan_not_positive (p : float) : zero_or_nan p -> (lit 0 <? p)%flt = false.
Proof.
  intros [H| ->]; [|reflexivity].
  destruct p as [q| |]; cbn [feq lit] in H; try contradiction.
  now apply fltb_zero_false.
Qed.

Lemma moderate_finite (x : float) : moderate x = true -> exists q, x = Num q.
Proof.
  destruct x as [q| |]; cbn; try discriminate. eauto.
Qed.

(** A [/data] request with the current LSB still at 0. *)
Lemma data_get_handler_uncalibrated (now_ms now : Z) (st : Fixed.state) :
  Fixed.current_lsb st = lit 0 ->
  let r := fst (Fixed.data_get_handler now_ms now st) in
  let st' := snd (Fixed.data_get_handler now_ms now st) in
  zero_or_nan (Fixed.r_current r) /\ zero_or_nan (Fixed.r_power r) /\
  Fixed.r_energy_Wh r = Fixed.energy_Wh st /\
  Fixed.energy_Wh st' = Fixed.energy_Wh st /\
  (moderate (Fixed.CAL_I st) = true -> moderate (Fixed.CAL_V st) = true ->
   Fixed.r_current r =~ lit 0 /\ Fixed.r_power r =~ lit 0).
Proof.
  intros HL r st'.
  assert (C : zero_or_nan (Fixed.r_current r) /\
              (forall c, Fixed.CAL_I st = Num c -> Fixed.r_current r =~ lit 0) /\
              Fixed.r_power r = (Fixed.r_voltage r * Fixed.r_current r)%flt /\
              (forall c, Fixed.CAL_V st = Num c -> exists v, Fixed.r_voltage r = Num v) /\
              Fixed.r_energy_Wh r = Fixed.energy_Wh st' /\
              Fixed.energy_Wh st'
              = (if (0 <? Fixed.lastEnergyMs st) && (lit 0 <? Fixed.r_power r)%flt
                 then (Fixed.energy_Wh st
                       + Fixed.r_power r
                         * (of_Z (ulong_sub now_ms (Fixed.lastEnergyMs st)) / lit 3600000))%flt
                 else Fixed.energy_Wh st)).
  { subst r st'.
    unfold Fixed.data_get_handler, Fixed.INA219_read_vbus_V, Fixed.INA219_read_current_A.
    destruct (i2c_read16 _ Fixed.INA219_REG_BUSVOLTAGE 0 (Fixed.i2c st)) as [[o1 v1] b1].
    destruct o1; cbn [Fixed.i2c Fixed.set_i2c];
      destruct (i2c_read16 _ Fixed.INA219_REG_CURRENT 0 b1) as [[o2 v2] b2];
      destruct o2; cbn [Fixed.i2c Fixed.set_i2c Fixed.lastEnergyMs Fixed.energy_Wh
                        Fixed.CAL_V Fixed.CAL_I Fixed.current_lsb];
      destruct (Fixed.debug_reads b2) as [[rb ok] b3];
      rewrite ?HL;
      cbn [fst snd Fixed.r_current Fixed.r_power Fixed.r_voltage Fixed.r_energy_Wh
           Fixed.energy_Wh];
      unfold Fixed.decode_vbus, Fixed.decode_current, of_Z, lit;
      cbn [fmul fdiv]; change (Qzero 1000) with false; cbn iota;
      (split; [first [apply zero_times; ring | left; cbn; reflexivity]|]);
      (split; [intros c Ec; rewrite ?Ec; cbn [fmul feq]; first [ring | reflexivity]|]);
      (split; [reflexivity|]);
      (split; [intros c Ec; rewrite ?Ec; cbn [fmul]; eauto|]);
      (split; reflexivity). }
  destruct C as (C1 & C2 & C3 & C4 & C5 & C6).
  assert (P : zero_or_nan (Fixed.r_power r)) by (rewrite C3; now apply zero_or_nan_times).
  rewrite (zero_or_nan_not_positive _ P), andb_false_r in C6.
  split; [exact C1|]. split; [exact P|]. split; [congruence|]. split; [exact C6|].
  intros MI MV.
  destruct (moderate_finite _ MI) as [ci Ei]. destruct (moderate_finite _ MV) as [cv Ev].
  pose proof (C2 ci Ei) as Z. destruct (C4 cv Ev) as [v Ev'].
  split; [exact Z|]. rewrite C3, Ev'.
  destruct (Fixed.r_current r) as [i| |]; cbn [feq lit] in Z; try contradiction.
  cbn [fmul feq lit]. rewrite Z. ring.
Qed.

Lemma diag_get_handler_cal (st : Fixed.state) :
  Fixed.CAL_I (snd (Fixed.diag_get_handler st)) = Fixed.CAL_I st /\
  Fixed.CAL_V (snd (Fixed.diag_get_handler st)) = Fixed.CAL_V st.
Proof.
  unfold Fixed.diag_get_handler.
  destruct (i2c_read16 Fixed.INA219_ADDR 0 0 (Fixed.i2c st)) as [[o1 v1] b1].
  destruct (i2c_read16 Fixed.INA219_ADDR 1 0 b1) as [[o2 v2] b2].
  destruct (i2c_read16 Fixed.INA219_ADDR 2 0 b2) as [[o3 v3] b3].
  destruct (i2c_read16 Fixed.INA219_ADDR 3 0 b3) as [[o4 v4] b4].
  destruct (i2c_read16 Fixed.INA219_ADDR 4 0 b4) as [[o5 v5] b5].
  destruct (i2c_read16 Fixed.INA219_ADDR 5 0 b5) as [[o6 v6] b6].
  split; reflexivity.
Qed.

(** The multipliers after a request are those before it, or moderate ones
    when the request is a [/cal] with moderate values. *)
Lemma cal_set_handler_moderate (q : option Fixed.cal_query) (st : Fixed.state) :
  moderate_query (Fixed.ReqCal q) = true ->
  moderate (Fixed.CAL_I st) = true -> moderate (Fixed.CAL_V st) = true ->
  moderate (Fixed.CAL_I (Fixed.cal_set_handler q st)) = true /\
  moderate (Fixed.CAL_V (Fixed.cal_set_handler q st)) = true.
Proof.
  destruct q as [[[i|] [v|] f]|]; cbn; intros H MI MV;
    try apply andb_prop in H; try destruct H; auto.
Qed.

Lemma serve_uncalibrated (reqs : list Fixed.request) (st : Fixed.state) :
  Fixed.current_lsb st = lit 0 ->
  Forall (fun r => zero_or_nan (Fixed.r_current r) /\ zero_or_nan (Fixed.r_power r) /\
                   Fixed.r_energy_Wh r = Fixed.energy_Wh st)
         (fst (Fixed.serve reqs st)) /\
  Fixed.energy_Wh (snd (Fixed.serve reqs st)) = Fixed.energy_Wh st /\
  (moderate (Fixed.CAL_I st) = true -> moderate (Fixed.CAL_V st) = true ->
   forallb moderate_query reqs = true ->
   Forall (fun r => Fixed.r_current r =~ lit 0 /\ Fixed.r_power r =~ lit 0)
          (fst (Fixed.serve reqs st))).
Proof.
  revert st. induction reqs as [|[now_ms now| |q] rest IH]; intros st HL; cbn [Fixed.serve].
  - split; [constructor|]. split; [reflexivity|]. constructor.
  - pose proof (data_get_handler_uncalibrated now_ms now st HL) as K.
    pose proof (data_get_handler_keeps now_ms now st) as (_ & L & KI & KV & _).
    destruct (Fixed.data_get_handler now_ms now st) as [r st1]. cbn [fst snd] in K, L, KI, KV.
    destruct K as (K1 & K2 & K3 & K4 & K5).
    specialize (IH st1 ltac:(congruence)). destruct (Fixed.serve rest st1) as [rs st2].
    cbn [fst snd] in *. destruct IH as (F & E & M). rewrite K4 in F, E.
    split; [constructor; auto|]. split; [exact E|].
    intros MI MV MQ. cbn [forallb moderate_query andb] in MQ.
    constructor; [now apply K5|]. apply M; congruence.
  - destruct (diag_get_handler_keeps st) as (_ & D2 & D3 & _).
    destruct (diag_get_handler_cal st) as (D4 & D5). cbv zeta in D2, D3.
    specialize (IH (snd (Fixed.diag_get_handler st))).
    rewrite D2, D3, D4, D5 in IH. specialize (IH HL).
    destruct IH as (F & E & M). split; [exact F|]. split; [exact E|].
    intros MI MV MQ. apply M; assumption.
  - destruct (cal_set_handler_keeps q st) as (_ & D2 & D3 & _). cbv zeta in D2, D3.
    specialize (IH (Fixed.cal_set_handler q st)). rewrite D2, D3 in IH. specialize (IH HL).
    destruct IH as (F & E & M). split; [exact F|]. split; [exact E|].
    intros MI MV MQ. cbn [forallb] in MQ. apply andb_prop in MQ. destruct MQ as [MQ1 MQ2].
    destruct (cal_set_handler_moderate q st MQ1 MI MV) as [A B]. apply M; assumption.
Qed.

(** [setup] with a reset that is not acknowledged. *)
Lemma setup_without_sensor (b : bus) (cfg : option (list float)) :
  nth 0 (pending b) None = None ->
  let st := Fixed.setup (Fixed.initial b cfg) in
  Fixed.current_lsb st = lit 0 /\ Fixed.ina219_calValue st = 0 /\
  Fixed.energy_Wh st = lit 0 /\
  (moderate_file cfg = true ->
   moderate (Fixed.CAL_I st) = true /\ moderate (Fixed.CAL_V st) = true).
Proof.
  intro H. unfold Fixed.setup, Fixed.INA219_init, i2c_write16.
  destruct cfg as [f|]; cbn [Fixed.cal_cfg Fixed.initial Fixed.i2c moderate_file].
  - destruct (Fixed.parseFloat f) as [ci f1]. cbn [fst snd].
    destruct (Fixed.parseFloat f1) as [cv f2]. cbn [Fixed.i2c fst snd].
    pose proof (respond_nth b) as N. rewrite H in N.
    destruct (respond b) as [r rest]. cbn [fst] in N. subst r. cbn.
    split; [reflexivity|]. split; [reflexivity|]. split; [reflexivity|].
    intro M. apply andb_prop in M. exact M.
  - pose proof (respond_nth b) as N. rewrite H in N.
    destruct (respond b) as [r rest]. cbn [fst] in N. subst r. cbn. auto.
Qed.

(** X11.  A sensor that does not acknowledge the reset at power-up is never
    initialised later: the current LSB and the calibration value stay at 0
    for the whole run, whatever the calibration file holds and whatever
    requests arrive, [/cal] included.  Every [/data] reply then reports a
    current that is 0 A or not a number and a power that is 0 W or not a
    number, and the energy total stays at 0 Wh, whatever the sensor answers
    to the later reads.  When the multipliers that the file and the [/cal]
    requests supply are numbers of magnitude at most 10^6, every reply
    reports 0 A and 0 W. *)
Theorem sensor_absent_at_boot_reads_zero
  (b : bus) (cfg : option (list float)) (reqs : list Fixed.request) :
  nth 0 (pending b) None = None ->
  Fixed.current_lsb (snd (Fixed.run b cfg reqs)) = lit 0 /\
  Fixed.ina219_calValue (snd (Fixed.run b cfg reqs)) = 0 /\
  Forall (fun r => zero_or_nan (Fixed.r_current r) /\ zero_or_nan (Fixed.r_power r) /\
                   Fixed.r_energy_Wh r = lit 0)
         (fst (Fixed.run b cfg reqs)) /\
  Fixed.energy_Wh (snd (Fixed.run b cfg reqs)) = lit 0 /\
  (moderate_file cfg = true -> forallb moderate_query reqs = true ->
   Forall (fun r => Fixed.r_current r =~ lit 0 /\ Fixed.r_power r =~ lit 0)
          (fst (Fixed.run b cfg reqs))).
Proof.
  intro H. unfold Fixed.run.
  destruct (setup_without_sensor b cfg H) as (S1 & S2 & S3 & S4).
  destruct (serve_keeps reqs (Fixed.setup (Fixed.initial b cfg))) as (K1 & K2 & _).
  destruct (serve_uncalibrated reqs _ S1) as (F & E & M).
  rewrite S3 in F, E.
  split; [congruence|]. split; [congruence|]. split; [exact F|]. split; [exact E|].
  intros MF MQ. destruct (S4 MF) as [MI MV]. now apply M.
Qed.

Lemma sensor_absent_at_boot_reads_zero_witness :
  let b := mkBus [None; Some 24000; Some 1000; Some 0; Some 0; Some 0; Some 0; Some 0;
                  Some 0; Some 0; Some 24000; Some 1000] [] in
  let reqs := [Fixed.ReqData 1000 1700000000;
               Fixed.ReqCal (Some (Fixed.mkCalQuery (Some (lit 1.05)) None None));
               Fixed.ReqData 3601000 1700003600] in
  Forall (fun r => Fixed.r_current r =~ lit 0 /\ Fixed.r_power r =~ lit 0)
         (fst (Fixed.run b None reqs)) /\
  Fixed.energy_Wh (snd (Fixed.run b None reqs)) = lit 0.
Proof.
  destruct (sensor_absent_at_boot_reads_zero
              (mkBus [None; Some 24000; Some 1000; Some 0; Some 0; Some 0; Some 0; Some 0;
                      Some 0; Some 0; Some 24000; Some 1000] [])
              None
              [Fixed.ReqData 1000 1700000000;
               Fixed.ReqCal (Some (Fixed.mkCalQuery (Some (lit 1.05)) None None));
               Fixed.ReqData 3601000 1700003600]
              eq_refl) as (_ & _ & _ & E & M).
  split; [apply M; reflexivity|exact E].
Defined.

(** A [/cal] request whose parameter i reads as infinity: the next [/data]
    reply of the sketch without sensor reports a current and a power that
    are not numbers, and the total stays at 0 Wh. *)
Lemma sensor_absent_infinite_multiplier :
  let b := mkBus [None; Some 24000; Some 1000] [] in
  let reqs := [Fixed.ReqCal (Some (Fixed.mkCalQuery (Some (Inf false)) None None));
               Fixed.ReqData 1000 1700000000] in
  map Fixed.r_current (fst (Fixed.run b None reqs)) = [NaN] /\
  map Fixed.r_power (fst (Fixed.run b None reqs)) = [NaN] /\
  Fixed.energy_Wh (snd (Fixed.run b None reqs)) = lit 0.
Proof.
  vm_compute. auto.
Qed.

(** ** The two bus voltage decodings *)

(** X12.  How far the first sketch is off: for every 16-bit register value
    its bus voltage, [raw * 0.00125], is two and a half times the voltage
    that the corrected sketch decodes from the same value, plus 1.25 mV for
    each unit of the three status bits; it is never below. *)
Theorem legacy_vbus_is_two_and_a_half_times (raw : Z) (v0 : float) (rest : list (option Z)) :
  0 <= raw < 65536 ->
  exists legacy fixed : Q,
    Legacy.INA219_read_vbus_V v0 (mkBus (Some raw :: rest) [])
    = (true, Num legacy, mkBus rest [EvRead 0x40 0x02 (Some raw)]) /\
    Fixed.decode_vbus raw = Num fixed /\
    (legacy == 2.5 * fixed + inject_Z (raw mod 8) * 0.00125)%Q /\
    (fixed <= legacy)%Q.
Proof.
  intro H. unfold Legacy.INA219_read_vbus_V, i2c_read16, respond. cbn [pending trace option_map].
  unfold uint16. rewrite Z.mod_small by lia.
  unfold Fixed.decode_vbus, of_Z, lit. cbn [fmul fdiv app].
  change (Qzero 1000) with false. cbn iota.
  eexists. eexists. split; [reflexivity|]. split; [reflexivity|].
  rewrite Z.shiftr_div_pow2 by lia. change (2 ^ 3) with 8.
  pose proof (Z.div_mod raw 8 ltac:(lia)) as D.
  pose proof (Z.mod_pos_bound raw 8 ltac:(lia)) as M.
  assert (Q0 : 0 <= raw / 8) by (apply Z.div_pos; lia).
  rewrite Zle_Qle in Q0. change (inject_Z 0) with 0%Q in Q0.
  destruct M as [M0 _]. rewrite Zle_Qle in M0. change (inject_Z 0) with 0%Q in M0.
  assert (E : (inject_Z raw == 8 * inject_Z (raw / 8) + inject_Z (raw mod 8))%Q).
  { rewrite D at 1. rewrite inject_Z_plus, inject_Z_mult. reflexivity. }
  set (x := inject_Z (raw / 8)) in *. set (m := inject_Z (raw mod 8)) in *.
  set (r := inject_Z raw) in *.
  assert (F : (x * 4 / 1000 == x * (4 # 1000))%Q) by (unfold Qdiv; field).
  rewrite F. split; lra.
Qed.

Lemma legacy_vbus_is_two_and_a_half_times_witness :
  exists legacy fixed : Q,
    Legacy.INA219_read_vbus_V (lit 0) (mkBus [Some 24002] [])
    = (true, Num legacy, mkBus [] [EvRead 0x40 0x02 (Some 24002)]) /\
    Fixed.decode_vbus 24002 = Num fixed /\
    (legacy == 2.5 * fixed + inject_Z (24002 mod 8) * 0.00125)%Q /\
    (fixed <= legacy)%Q.
Proof.
  apply (legacy_vbus_is_two_and_a_half_times 24002 (lit 0) []). lia.
Defined.

(** ** The snapshot over a whole run *)

Lemma publishSnapshot_slots (s : Snapshot.Sample) (st : Snapshot.state) :
  Z.land (Snapshot.SNAP_SEQ st) 1 = 0 ->
  0 <= Snapshot.SNAP_SEQ st < 4294967296 ->
  let st' := Snapshot.publishSnapshot s st in
  Snapshot.SNAP st' 0 = Snapshot.SNAP st 0 /\
  Snapshot.SNAP st' 1 = s /\
  Z.land (Snapshot.SNAP_SEQ st') 1 = 0 /\
  0 <= Snapshot.SNAP_SEQ st' < 4294967296 /\
  Snapshot.energyToday_Wh st' = Snapshot.energyToday_Wh st /\
  Snapshot.haveINA st' = Snapshot.haveINA st /\
  Snapshot.lastSampleMs st' = Snapshot.lastSampleMs st /\
  Snapshot.lastEnergyMs st' = Snapshot.lastEnergyMs st.
Proof.
  intros He Hr. rewrite land_1_even in He.
  assert (Hn : Snapshot.uint32 (Snapshot.SNAP_SEQ st + 1) = Snapshot.SNAP_SEQ st + 1).
  { unfold Snapshot.uint32. apply Z.mod_small.
    assert (Snapshot.SNAP_SEQ st <> 4294967295) by (intro E; rewrite E in He; discriminate).
    lia. }
  assert (Ho : Z.land (Snapshot.SNAP_SEQ st + 1) 1 = 1).
  { rewrite land_1_even. rewrite Z.add_mod, He by lia. reflexivity. }
  unfold Snapshot.publishSnapshot. rewrite Hn, Ho.
  cbn [Snapshot.SNAP Snapshot.SNAP_SEQ Snapshot.energyToday_Wh Snapshot.haveINA
       Snapshot.lastSampleMs Snapshot.lastEnergyMs].
  unfold upd. cbn [Z.eqb].
  repeat split; try reflexivity.
  - rewrite land_1_even. unfold Snapshot.uint32.
    apply Z.mod_divide; [lia|]. apply Z.mod_divide in He; [|lia]. destruct He as [k Hk].
    destruct (Z.eq_dec (Snapshot.SNAP_SEQ st) 4294967294) as [E|E].
    + rewrite E. exists 0. reflexivity.
    + rewrite Z.mod_small by lia. exists (k + 1). lia.
  - unfold Snapshot.uint32. apply Z.mod_pos_bound. lia.
  - unfold Snapshot.uint32. apply Z.mod_pos_bound. lia.
Qed.

Lemma sampleINA_slots (lib : Snapshot.readings) (now_ms : Z) (st : Snapshot.state) :
  Z.land (Snapshot.SNAP_SEQ st) 1 = 0 ->
  0 <= Snapshot.SNAP_SEQ st < 4294967296 ->
  let st' := Snapshot.sampleINA lib now_ms st in
  Snapshot.SNAP st' 0 = Snapshot.SNAP st 0 /\
  Z.land (Snapshot.SNAP_SEQ st') 1 = 0 /\
  0 <= Snapshot.SNAP_SEQ st' < 4294967296 /\
  Snapshot.energyToday_Wh st' = Snapshot.energyToday_Wh st /\
  Snapshot.lastEnergyMs st' = Snapshot.lastEnergyMs st.
Proof.
  intros He Hr. unfold Snapshot.sampleINA.
  destruct (negb (Snapshot.haveINA st));
    match goal with |- context [Snapshot.publishSnapshot ?s st] =>
      destruct (publishSnapshot_slots s st He Hr) as (A & _ & B & C & D & _ & _ & E)
    end; cbv zeta; auto.
Qed.

Lemma getSnapshotCopy_even (fuel : nat) (st : Snapshot.state) :
  Z.land (Snapshot.SNAP_SEQ st) 1 = 0 ->
  Snapshot.getSnapshotCopy (S fuel) st = Some (Snapshot.SNAP st 0).
Proof.
  intro He. cbn [Snapshot.getSnapshotCopy]. rewrite He. cbn [Z.eqb negb].
  now rewrite Z.eqb_refl.
Qed.

(** The state of the sketch when [loop] is idle. *)
Lemma loop_keeps_first_slot (fuel : nat) (lib : Snapshot.readings) (nowMs : Z)
  (st : Snapshot.state) :
  Snapshot.SNAP st 0 = Snapshot.Sample_default ->
  Z.land (Snapshot.SNAP_SEQ st) 1 = 0 ->
  0 <= Snapshot.SNAP_SEQ st < 4294967296 ->
  Snapshot.energyToday_Wh st = lit 0 ->
  exists st',
    Snapshot.loop (S fuel) lib nowMs st = Some st' /\
    Snapshot.SNAP st' 0 = Snapshot.Sample_default /\
    Z.land (Snapshot.SNAP_SEQ st') 1 = 0 /\
    0 <= Snapshot.SNAP_SEQ st' < 4294967296 /\
    Snapshot.energyToday_Wh st' = lit 0.
Proof.
  intros H0 He Hr HE. unfold Snapshot.loop.
  destruct (Snapshot.SAMPLE_INTERVAL_MS <=? ulong_sub nowMs (Snapshot.lastSampleMs st)).
  - destruct (sampleINA_slots lib nowMs st He Hr) as (A & B & C & D & _).
    cbv zeta in A, B, C, D.
    rewrite (getSnapshotCopy_even fuel _ B), A, H0.
    cbn [Snapshot.power_mW Snapshot.Sample_default isnan negb].
    eexists. split; [reflexivity|].
    cbn [Snapshot.SNAP Snapshot.SNAP_SEQ Snapshot.energyToday_Wh].
    rewrite A, H0, D, HE. auto.
  - exists st. auto.
Qed.

(** X13.  Over a whole run of the sketch with the snapshot, whatever the
    driver returns and whenever [loop] runs: the reader never waits (one
    pass of its loop is enough), slot 0 of [SNAP] keeps the default sample,
    so [/data] shows NaN for every reading at every moment, and the energy
    total never leaves 0 Wh because the power it integrates is that NaN. *)
Theorem snapshot_run_shows_no_reading
  (fuel : nat) (have : bool) (lib0 : Snapshot.readings) (t0 t1 : Z)
  (turns : list (Snapshot.readings * Z)) :
  exists st,
    Snapshot.run (S fuel) turns (Snapshot.setup have lib0 t0 t1) = Some st /\
    Snapshot.handleData (S fuel) st = Some Snapshot.Sample_default /\
    Snapshot.energyToday_Wh st = lit 0 /\
    Z.land (Snapshot.SNAP_SEQ st) 1 = 0.
Proof.
  assert (I : forall turns st,
             Snapshot.SNAP st 0 = Snapshot.Sample_default ->
             Z.land (Snapshot.SNAP_SEQ st) 1 = 0 ->
             0 <= Snapshot.SNAP_SEQ st < 4294967296 ->
             Snapshot.energyToday_Wh st = lit 0 ->
             exists st',
               Snapshot.run (S fuel) turns st = Some st' /\
               Snapshot.SNAP st' 0 = Snapshot.Sample_default /\
               Z.land (Snapshot.SNAP_SEQ st') 1 = 0 /\
               Snapshot.energyToday_Wh st' = lit 0).
  { clear turns. induction turns as [|[lib nowMs] rest IH]; intros st H0 He Hr HE.
    - exists st. cbn [Snapshot.run]. auto.
    - cbn [Snapshot.run].
      destruct (loop_keeps_first_slot fuel lib nowMs st H0 He Hr HE)
        as (st1 & L & A & B & C & D).
      rewrite L. apply IH; assumption. }
  destruct (sampleINA_slots lib0 t0 (Snapshot.initial have) eq_refl ltac:(cbn; lia))
    as (A & B & C & D & _). cbv zeta in A, B, C, D.
  destruct (I turns (Snapshot.setup have lib0 t0 t1)) as (st & R & S0 & Se & SE).
  - exact A.
  - exact B.
  - exact C.
  - exact D.
  - exists st. split; [exact R|]. split; [|auto].
    unfold Snapshot.handleData. now rewrite (getSnapshotCopy_even fuel st Se), S0.
Qed.

Section FieldFacts.

Local Open Scope Z_scope.
Local Open Scope string_scope.

(** A line splits at its first separator. *)
Lemma split_first (c : ascii) (s : string) :
  has_char c s = true ->
  exists f rest, s = f ++ String c rest /\ has_char c f = false.
Proof.
  induction s as [|a s IH]; cbn [has_char]; intro H; [discriminate|].
  destruct (Ascii.eqb a c) eqn:E.
  - apply Ascii.eqb_eq in E. subst a. exists "", s. split; reflexivity.
  - destruct (IH H) as (f & rest & -> & Hf). exists (String a f), rest.
    split; [reflexivity|]. cbn [has_char]. now rewrite E, Hf.
Qed.

Lemma count_char_app (c : ascii) (a b : string) :
  count_char c (a ++ b) = (count_char c a + count_char c b)%nat.
Proof.
  induction a as [|x a IH]; simpl; [reflexivity|].
  destruct (Ascii.eqb x c); simpl; now rewrite IH.
Qed.

Lemma count_char_absent (c : ascii) (s : string) :
  has_char c s = false <-> count_char c s = 0%nat.
Proof.
  induction s as [|a s IH]; simpl; [tauto|].
  destruct (Ascii.eqb a c); simpl; [split; discriminate|exact IH].
Qed.

Lemma has_char_app (c : ascii) (a b : string) :
  has_char c (a ++ b) = has_char c a || has_char c b.
Proof.
  induction a as [|x a IH]; simpl; [reflexivity|]. now rewrite IH, orb_assoc.
Qed.

Lemma indexOf_first (c : ascii) (f rest : string) :
  has_char c f = false -> Str.indexOf c 0 (f ++ String c rest) = Str.length f.
Proof. intro H. exact (indexOf_field c "" f rest H). Qed.

Lemma Str_substring_first (f rest : string) :
  Str.substring 0 (Str.length f) (f ++ rest) = f.
Proof. exact (Str_substring_field "" f rest). Qed.

Lemma indexOf_none (c : ascii) (s : string) :
  has_char c s = false -> Str.indexOf c 0 s = -1.
Proof. intro H. exact (indexOf_last c "" s H). Qed.

Section LegacyLines.

Variable P : Platform.

(** [parseLogLine] on a line of at least five fields: the first field is
    the epoch, whatever follows the fourth comma is the watts. *)
Lemma parseLogLine_fields (f0 f1 f2 f3 rest : string) :
  has_char "," f0 = false -> has_char "," f1 = false ->
  has_char "," f2 = false -> has_char "," f3 = false ->
  Legacy.parseLogLine P (f0 ++ "," ++ f1 ++ "," ++ f2 ++ "," ++ f3 ++ "," ++ rest)
  = Some (toInt P f0, toFloat P rest).
Proof.
  intros H0 H1 H2 H3. unfold Legacy.parseLogLine.
  set (line := f0 ++ "," ++ f1 ++ "," ++ f2 ++ "," ++ f3 ++ "," ++ rest).
  pose proof (Str_length_nonneg f0). pose proof (Str_length_nonneg f1).
  pose proof (Str_length_nonneg f2). pose proof (Str_length_nonneg f3).
  assert (A : Str.indexOf "," 0 line = Str.length f0).
  { now apply indexOf_first. }
  rewrite A. destruct (Z.ltb_spec (Str.length f0) 0); [lia|].
  set (p1 := f0 ++ ",").
  assert (L1 : line = p1 ++ f1 ++ String "," (f2 ++ "," ++ f3 ++ "," ++ rest)).
  { unfold line, p1. now rewrite str_app_assoc. }
  assert (N1 : Str.length p1 = Str.length f0 + 1).
  { unfold p1. rewrite Str_length_app. reflexivity. }
  assert (B : Str.indexOf "," (Str.length f0 + 1) line = Str.length p1 + Str.length f1).
  { rewrite <- N1, L1. now apply indexOf_field. }
  rewrite B. destruct (Z.ltb_spec (Str.length p1 + Str.length f1) 0); [lia|].
  set (p2 := p1 ++ f1 ++ ",").
  assert (L2 : line = p2 ++ f2 ++ String "," (f3 ++ "," ++ rest)).
  { rewrite L1. unfold p2. now rewrite !str_app_assoc. }
  assert (N2 : Str.length p2 = Str.length p1 + Str.length f1 + 1).
  { unfold p2. rewrite !Str_length_app. change (Str.length ",") with 1. lia. }
  assert (C : Str.indexOf "," (Str.length p1 + Str.length f1 + 1) line
              = Str.length p2 + Str.length f2).
  { rewrite <- N2, L2. now apply indexOf_field. }
  rewrite C. destruct (Z.ltb_spec (Str.length p2 + Str.length f2) 0); [lia|].
  set (p3 := p2 ++ f2 ++ ",").
  assert (L3 : line = p3 ++ f3 ++ String "," rest).
  { rewrite L2. unfold p3. now rewrite !str_app_assoc. }
  assert (N3 : Str.length p3 = Str.length p2 + Str.length f2 + 1).
  { unfold p3. rewrite !Str_length_app. change (Str.length ",") with 1. lia. }
  assert (D : Str.indexOf "," (Str.length p2 + Str.length f2 + 1) line
              = Str.length p3 + Str.length f3).
  { rewrite <- N3, L3. now apply indexOf_field. }
  rewrite D. destruct (Z.ltb_spec (Str.length p3 + Str.length f3) 0); [lia|].
  f_equal. f_equal.
  - f_equal. pose proof (Str_substring_field "" f0 ("," ++ f1 ++ "," ++ f2 ++ "," ++ f3 ++ "," ++ rest)) as S.
    exact S.
  - f_equal.
    assert (L4 : line = (p3 ++ f3 ++ ",") ++ rest).
    { rewrite L3. now rewrite !str_app_assoc. }
    rewrite L4.
    replace (Str.length p3 + Str.length f3 + 1) with (Str.length (p3 ++ f3 ++ ","))
      by (rewrite !Str_length_app; change (Str.length ",") with 1; lia).
    apply Str_substring_from_tail.
Qed.

End LegacyLines.

End FieldFacts.

Section LineFacts.

Local Open Scope Z_scope.
Local Open Scope string_scope.

Lemma readLines_aux_line (l rest cur : string) :
  has_char LF l = false ->
  Str.readLines_aux (l ++ String LF rest) cur = (cur ++ l) :: Str.readLines_aux rest "".
Proof.
  revert cur. induction l as [|a l IH]; intros cur H.
  - cbn. now rewrite str_app_nil_r.
  - cbn [has_char] in H. apply orb_false_elim in H. destruct H as [Ha Hl].
    cbn [String.append Str.readLines_aux]. unfold LF in Ha. rewrite Ha.
    rewrite (IH _ Hl), str_app_assoc. reflexivity.
Qed.

Lemma readLines_unlines (ls : list string) :
  Forall (fun l => has_char LF l = false) ls ->
  Str.readLines (unlines ls) = ls.
Proof.
  unfold Str.readLines. induction 1 as [|l ls Hl _ IH]; [reflexivity|].
  cbn [unlines fold_right]. fold (unlines ls).
  change (String "010" (unlines ls)) with (String LF (unlines ls)).
  now rewrite (readLines_aux_line l _ "" Hl), IH.
Qed.

Lemma unlines_snoc (ls : list string) (l : string) :
  unlines (ls ++ [l]) = unlines ls ++ l ++ String LF "".
Proof.
  induction ls as [|a ls IH]; [reflexivity|].
  cbn [app unlines fold_right]. fold (unlines (ls ++ [l])). fold (unlines ls).
  rewrite IH, !str_app_assoc. reflexivity.
Qed.

Lemma no_space_app (a b : string) : no_space (a ++ b) = no_space a && no_space b.
Proof.
  induction a as [|x a IH]; [reflexivity|]. cbn [String.append no_space].
  now rewrite IH, andb_assoc.
Qed.

Lemma trim_left_no_space (s : string) : no_space s = true -> Str.trim_left s = s.
Proof.
  destruct s as [|c r]; [reflexivity|]. cbn [no_space Str.trim_left].
  intro H. apply andb_prop in H. destruct H as [Hc _].
  apply negb_true_iff in Hc. now rewrite Hc.
Qed.

Lemma trim_right_no_space (s : string) : no_space s = true -> Str.trim_right s = s.
Proof.
  induction s as [|c r IH]; [reflexivity|]. cbn [no_space Str.trim_right].
  intro H. apply andb_prop in H. destruct H as [Hc Hr].
  apply negb_true_iff in Hc. rewrite (IH Hr), Hc. now destruct r.
Qed.

Lemma trim_right_cr (s : string) :
  no_space s = true -> Str.trim_right (s ++ String CR "") = s.
Proof.
  induction s as [|c r IH]; [reflexivity|]. cbn [no_space String.append Str.trim_right].
  intro H. apply andb_prop in H. destruct H as [Hc Hr].
  apply negb_true_iff in Hc. rewrite (IH Hr), Hc. now destruct r.
Qed.

(** [trim] removes the carriage return that [println] leaves at the end of
    a line read up to the line feed. *)
Lemma trim_cr (s : string) : no_space s = true -> Str.trim (s ++ String CR "") = s.
Proof.
  intro H. unfold Str.trim. destruct s as [|c r]; [reflexivity|].
  pose proof H as H'. cbn [no_space] in H'. apply andb_prop in H'. destruct H' as [Hc _].
  apply negb_true_iff in Hc.
  cbn [String.append Str.trim_left]. rewrite Hc.
  exact (trim_right_cr (String c r) H).
Qed.

Lemma no_space_no_LF (s : string) : no_space s = true -> has_char LF s = false.
Proof.
  induction s as [|c r IH]; [reflexivity|]. cbn [no_space has_char]. intro H.
  apply andb_prop in H. destruct H as [Hc Hr]. rewrite (IH Hr), orb_false_r.
  apply negb_true_iff in Hc. destruct (Ascii.eqb_spec c LF) as [->|]; [discriminate|reflexivity].
Qed.

Lemma prefix_app (a b : string) : String.prefix a (a ++ b) = true.
Proof.
  induction a as [|x a IH]; [now destruct b|]. cbn [String.append String.prefix].
  destruct (ascii_dec x x); [exact IH|contradiction].
Qed.

(** Looking for [k] commas behind the text [pre]. *)
Lemma comma_positions_none (k : nat) (pre s : string) :
  comma_positions k (Str.length pre) (pre ++ s) = None <-> (count_char "," s < k)%nat.
Proof.
  revert pre s. induction k as [|k IH]; intros pre s.
  - cbn [comma_positions]. split; [discriminate|lia].
  - cbn [comma_positions]. cbv zeta. destruct (has_char "," s) eqn:E.
    + destruct (split_first _ _ E) as (f & r & -> & Hf).
      rewrite (indexOf_field "," pre f r Hf).
      pose proof (Str_length_nonneg pre). pose proof (Str_length_nonneg f).
      destruct (Z.ltb_spec (Str.length pre + Str.length f) 0); [lia|].
      replace (pre ++ f ++ String "," r) with ((pre ++ f ++ ",") ++ r)
        by now rewrite !str_app_assoc.
      replace (Str.length pre + Str.length f + 1) with (Str.length (pre ++ f ++ ","))
        by (rewrite !Str_length_app; change (Str.length ",") with 1; lia).
      rewrite count_char_app. cbn [count_char]. rewrite Ascii.eqb_refl.
      apply count_char_absent in Hf. rewrite Hf.
      pose proof (IH (pre ++ f ++ ",") r) as I.
      destruct (comma_positions k _ _) eqn:C; cbn [option_map].
      * split; [discriminate|]. intro L.
        assert (N : (count_char "," r < k)%nat) by lia.
        apply I in N. discriminate N.
      * split; [|reflexivity]. intros _. pose proof (proj1 I eq_refl). lia.
    + rewrite (indexOf_last "," pre s E). cbn [Z.ltb Z.compare].
      apply count_char_absent in E. split; [lia|reflexivity].
Qed.

Lemma comma_positions_start (k : nat) (line : string) :
  comma_positions k 0 line = None <-> (count_char "," line < k)%nat.
Proof. exact (comma_positions_none k "" line). Qed.

End LineFacts.

(** ** Lines that the parsers reject *)

Section ParserFacts.

Variable P : Platform.

Lemma legacy_parse_positions (line : string) :
  Legacy.parseLogLine P line = None <-> comma_positions 4 0 line = None.
Proof.
  unfold Legacy.parseLogLine. cbn [comma_positions]. cbv zeta.
  repeat match goal with
         | |- context [if ?c then _ else _] => destruct c; cbn [option_map]
         end;
    split; intro H; try discriminate H; reflexivity.
Qed.

Lemma adalogger_parse_positions (line : string) :
  Adalogger.parseLogLine P line = None <-> comma_positions 6 0 line = None.
Proof.
  unfold Adalogger.parseLogLine. cbn [comma_positions]. cbv zeta.
  repeat match goal with
         | |- context [if ?c then _ else _] => destruct c; cbn [option_map]
         end;
    split; intro H; try discriminate H; reflexivity.
Qed.

End ParserFacts.

(** X14.  The two [parseLogLine] reject exactly the lines that are too
    short in fields: the one of the first sketch needs four commas, the one
    of the RTC + SD sketch six.  Every other line is accepted, whatever its
    fields contain. *)
Theorem parseLogLine_rejects_short_lines (P : Platform) (line : string) :
  (Legacy.parseLogLine P line = None <-> (count_char "," line < 4)%nat) /\
  (Adalogger.parseLogLine P line = None <-> (count_char "," line < 6)%nat).
Proof.
  split.
  - rewrite legacy_parse_positions. apply comma_positions_start.
  - rewrite adalogger_parse_positions. apply comma_positions_start.
Qed.

(** ** The log of the first sketch, written and read back *)

Section LegacyLog.

Variable P : Platform.
Variable Pr : Printer.

Local Open Scope string_scope.

Lemma csv_line_written (r : Legacy.row) :
  Legacy.csv_line P Pr r = written_line P Pr r ++ String LF "".
Proof.
  unfold Legacy.csv_line, written_line, CRLF.
  rewrite !str_app_assoc. reflexivity.
Qed.

Lemma clean_parts (s : string) :
  clean s = true -> has_char "," s = false /\ has_char LF s = false.
Proof.
  unfold clean. intro H. apply andb_prop in H. destruct H as [A B].
  apply negb_true_iff in A, B. auto.
Qed.

Lemma startsWith_epoch (e rest : string) :
  Str.startsWith "e" e = false -> Str.startsWith "epoch" (e ++ "," ++ rest) = false.
Proof.
  unfold Str.startsWith. destruct e as [|c e]; [reflexivity|].
  cbn [String.append String.prefix].
  destruct (ascii_dec "e" c) as [<-|]; [|reflexivity].
  destruct e; discriminate.
Qed.

(** A printable row is read back by [readRecord], and its line holds no
    line feed. *)
Lemma written_line_read (r : Legacy.row) :
  printable P Pr r = true ->
  Legacy.readRecord P (written_line P Pr r) = Some (read_back P Pr r) /\
  has_char LF (written_line P Pr r) = false.
Proof.
  unfold printable. intro H.
  apply andb_prop in H. destruct H as [H Len].
  apply andb_prop in H. destruct H as [H St].
  apply andb_prop in H. destruct H as [H W].
  apply andb_prop in H. destruct H as [H I].
  apply andb_prop in H. destruct H as [H V].
  apply andb_prop in H. destruct H as [E Iso].
  apply clean_parts in E, Iso, V, I.
  destruct E as [E1 E2], Iso as [Iso1 Iso2], V as [V1 V2], I as [I1 I2].
  apply negb_true_iff in W, St. apply Z.leb_le in Len.
  rewrite csv_line_written, Str_length_app in Len.
  change (Str.length (String LF "")) with 1%Z in Len.
  split.
  - unfold Legacy.readRecord.
    destruct (Z.ltb_spec (Str.length (written_line P Pr r)) 10); [lia|].
    unfold written_line at 1. rewrite startsWith_epoch by assumption.
    cbn [orb]. unfold written_line.
    rewrite parseLogLine_fields by assumption. reflexivity.
  - unfold written_line. rewrite !has_char_app. cbn [has_char].
    repeat match goal with
           | C : has_char LF _ = false |- _ => rewrite C
           end.
    reflexivity.
Qed.

Lemma legacy_log_lines (rows : list Legacy.row) (ls : list string) :
  fold_left (Legacy.append_row P Pr true) rows (Some (unlines ls))
  = Some (unlines (ls ++ map (written_line P Pr) rows)).
Proof.
  revert ls. induction rows as [|r rows IH]; intro ls; cbn [fold_left map].
  - now rewrite app_nil_r.
  - unfold Legacy.append_row at 2. rewrite csv_line_written, <- unlines_snoc.
    rewrite IH, <- app_assoc. reflexivity.
Qed.

Lemma records_written (rows : list Legacy.row) :
  Forall (fun r => printable P Pr r = true) rows ->
  Spec.records P (lines_of (legacy_log P Pr rows)) = map (read_back P Pr) rows.
Proof.
  intro H. unfold legacy_log.
  change (Legacy.ensureCsvHeader true None)
    with (Some (unlines [Legacy.CSV_HEADER ++ String CR ""])).
  rewrite legacy_log_lines. cbn [lines_of app].
  rewrite readLines_unlines.
  - unfold Spec.records. cbn [flat_map].
    change (Legacy.readRecord P (Legacy.CSV_HEADER ++ String CR "")) with (@None (Z * float)).
    cbn [app]. induction H as [|r rows Hr _ IH]; [reflexivity|].
    cbn [map flat_map]. rewrite (proj1 (written_line_read r Hr)), IH. reflexivity.
  - constructor; [reflexivity|].
    induction H as [|r rows Hr _ IH]; constructor; [|exact IH].
    exact (proj2 (written_line_read r Hr)).
Qed.

End LegacyLog.

(** X15.  The log of the first sketch reads back as written.  On a card
    without /log.csv, after [setup] and one [/data] request per row, the
    rollups find exactly one reading per row, in order, made of the printed
    epoch and the printed watts (the header is skipped), provided the
    printed fields hold no separator; the hourly, daily and monthly replies
    are then the hourly means and the trapezoid sums over exactly these
    readings. *)
Theorem legacy_log_reads_back
  (P : Platform) (Pr : Printer) (now : Z) (rows : list Legacy.row) :
  Forall (fun r => printable P Pr r = true) rows ->
  let file := legacy_log P Pr rows in
  let readings := map (read_back P Pr) rows in
  Spec.records P (lines_of file) = readings /\
  Legacy.hourly_get_handler P now file = Spec.hourly P now readings /\
  Legacy.daily_get_handler P now file = Spec.daily P now readings /\
  Legacy.monthly_get_handler P now file = Spec.monthly P now readings.
Proof.
  intro H. cbv zeta. pose proof (records_written P Pr rows H) as R.
  split; [exact R|]. split; [|split].
  - rewrite legacy_hourly_is_mean. fold (lines_of (legacy_log P Pr rows)). now rewrite R.
  - rewrite legacy_daily_is_trapezoid. now rewrite R.
  - rewrite legacy_monthly_is_trapezoid. now rewrite R.
Qed.

Lemma legacy_log_reads_back_witness :
  let rows := [Legacy.mkRow 1700000000 (lit 12.5) (lit 2) (lit 25);
               Legacy.mkRow 1700000005 (lit 12.4) (lit 2.5) (lit 31)] in
  Spec.records Utc.platform (lines_of (legacy_log Utc.platform Utc.printer rows))
  = map (read_back Utc.platform Utc.printer) rows /\
  map (read_back Utc.platform Utc.printer) rows
  = [(1700000000, lit 25); (1700000005, lit 31)].
Proof.
  split.
  - apply (legacy_log_reads_back Utc.platform Utc.printer 1700000010
             [Legacy.mkRow 1700000000 (lit 12.5) (lit 2) (lit 25);
              Legacy.mkRow 1700000005 (lit 12.4) (lit 2.5) (lit 31)]).
    repeat constructor.
  - vm_compute. reflexivity.
Defined.

(** ** The calibration file of the first sketch, written and read back *)

Section LegacyCalFile.

Variable P : Platform.
Variable Pr : Printer.

Local Open Scope string_scope.

Lemma saveCal_lines (cal : float * float) (file : option string) :
  no_space (printf_6f Pr (fst cal)) = true ->
  no_space (printf_6f Pr (snd cal)) = true ->
  lines_of (Legacy.saveCal Pr true cal file)
  = ["CAL_V=" ++ printf_6f Pr (fst cal); "CAL_I=" ++ printf_6f Pr (snd cal)].
Proof.
  intros Hv Hi. unfold Legacy.saveCal, lines_of, Str.readLines.
  set (tv := printf_6f Pr (fst cal)) in *. set (ti := printf_6f Pr (snd cal)) in *.
  replace ("CAL_V=" ++ tv ++ String LF ("CAL_I=" ++ ti ++ String LF ""))
    with (("CAL_V=" ++ tv) ++ String LF (("CAL_I=" ++ ti) ++ String LF ""))
    by (now rewrite !str_app_assoc).
  rewrite (readLines_aux_line ("CAL_V=" ++ tv))
    by (apply no_space_no_LF; rewrite no_space_app, Hv; reflexivity).
  rewrite (readLines_aux_line ("CAL_I=" ++ ti))
    by (apply no_space_no_LF; rewrite no_space_app, Hi; reflexivity).
  reflexivity.
Qed.

Lemma loadCal_step_key (key t : string) :
  Str.length key = 6%Z -> no_space key = true -> no_space t = true ->
  Str.trim (key ++ t) = key ++ t /\
  Str.startsWith key (key ++ t) = true /\
  Str.substring_from 6 (key ++ t) = t.
Proof.
  intros L K T. split; [|split].
  - unfold Str.trim. rewrite trim_left_no_space, trim_right_no_space;
      rewrite ?no_space_app, ?K, ?T; reflexivity.
  - apply prefix_app.
  - rewrite <- L. apply Str_substring_from_tail.
Qed.

Lemma loadCal_saved (cal cal0 : float * float) (file : option string) :
  no_space (printf_6f Pr (fst cal)) = true ->
  no_space (printf_6f Pr (snd cal)) = true ->
  Legacy.loadCal P (Legacy.saveCal Pr true cal file) cal0
  = (toFloat P (printf_6f Pr (fst cal)), toFloat P (printf_6f Pr (snd cal))).
Proof.
  intros Hv Hi. pose proof (saveCal_lines cal file Hv Hi) as L.
  unfold Legacy.loadCal. unfold lines_of in L.
  destruct (Legacy.saveCal Pr true cal file) as [s|] eqn:E; [|discriminate E].
  rewrite L. cbn [fold_left]. unfold Legacy.loadCal_step.
  destruct (loadCal_step_key "CAL_V=" _ eq_refl eq_refl Hv) as (T1 & S1 & U1).
  destruct (loadCal_step_key "CAL_I=" _ eq_refl eq_refl Hi) as (T2 & S2 & U2).
  rewrite T1, S1, U1, T2, S2, U2. cbn [fst snd].
  assert (N : Str.startsWith "CAL_V=" ("CAL_I=" ++ printf_6f Pr (snd cal)) = false)
    by reflexivity.
  rewrite N. reflexivity.
Qed.

End LegacyCalFile.

(** X16.  A calibration set over HTTP survives a reboot only in sanitized
    form.  [cal_set_handler] takes the given multipliers as they are, also
    zero, negative or not-a-number ones, and writes both to /cal.cfg under
    their keys; [loadCal] reads each back from its own line; after the next
    [setup] each multiplier is the value read back when that is finite and
    positive, and 1.0 otherwise.  (The printed numbers hold no white
    space.) *)
Theorem calibration_survives_reboot
  (P : Platform) (Pr : Printer) (qi qv : option float)
  (cal cal0 : float * float) (file : option string) :
  let cal' := fst (Legacy.cal_set_handler Pr qi qv true cal file) in
  let file' := snd (Legacy.cal_set_handler Pr qi qv true cal file) in
  no_space (printf_6f Pr (fst cal')) = true ->
  no_space (printf_6f Pr (snd cal')) = true ->
  cal' = (match qv with Some v => v | None => fst cal end,
          match qi with Some i => i | None => snd cal end) /\
  Legacy.loadCal P file' cal0
  = (toFloat P (printf_6f Pr (fst cal')), toFloat P (printf_6f Pr (snd cal'))) /\
  Legacy.setup_cal P true file'
  = (Legacy.sanitize (toFloat P (printf_6f Pr (fst cal'))),
     Legacy.sanitize (toFloat P (printf_6f Pr (snd cal')))).
Proof.
  cbv zeta. unfold Legacy.cal_set_handler. cbn [fst snd].
  set (cal' := (match qv with Some v => v | None => fst cal end,
                match qi with Some i => i | None => snd cal end)).
  change (match qv with Some v => v | None => fst cal end) with (fst cal').
  change (match qi with Some i => i | None => snd cal end) with (snd cal').
  intros Hv Hi.
  split; [reflexivity|]. split.
  - now apply loadCal_saved.
  - unfold Legacy.setup_cal.
    rewrite (loadCal_saved P Pr cal' (lit 1, lit 1) file Hv Hi). reflexivity.
Qed.

Lemma calibration_survives_reboot_witness :
  let set := Legacy.cal_set_handler Utc.printer (Some (lit 0)) (Some (lit 1.02)) true
               (lit 1, lit 1) None in
  fst set = (lit 1.02, lit 0) /\
  Legacy.setup_cal Utc.platform true (snd set)
  = (Legacy.sanitize (Utc.atof (Utc.print_float (lit 1.02) 6)),
     Legacy.sanitize (Utc.atof (Utc.print_float (lit 0) 6))) /\
  Legacy.setup_cal Utc.platform true (snd set) = (lit (51 # 50), lit 1).
Proof.
  pose proof (calibration_survives_reboot Utc.platform Utc.printer
                (Some (lit 0)) (Some (lit 1.02)) (lit 1, lit 1) (lit 1, lit 1) None
                eq_refl eq_refl) as (A & _ & C).
  split; [exact A|]. split; [exact C|].
  vm_compute. reflexivity.
Defined.

(** ** The log of the RTC + SD sketch, written and read back *)

Section AdaloggerLines.

Variable P : Platform.

Local Open Scope string_scope.

(** [parseLogLine] on a line of at least seven fields. *)
Lemma adalogger_parse_fields (f0 f1 f2 f3 f4 f5 rest : string) :
  has_char "," f0 = false -> has_char "," f1 = false -> has_char "," f2 = false ->
  has_char "," f3 = false -> has_char "," f4 = false -> has_char "," f5 = false ->
  Adalogger.parseLogLine P
    (f0 ++ "," ++ f1 ++ "," ++ f2 ++ "," ++ f3 ++ "," ++ f4 ++ "," ++ f5 ++ "," ++ rest)
  = Some (f0, toFloat P f1, (toFloat P f4 / lit 1000)%flt, toFloat P f5).
Proof.
  intros H0 H1 H2 H3 H4 H5. unfold Adalogger.parseLogLine.
  set (line := f0 ++ "," ++ f1 ++ "," ++ f2 ++ "," ++ f3 ++ "," ++ f4 ++ "," ++ f5 ++ "," ++ rest).
  pose proof (Str_length_nonneg f0). pose proof (Str_length_nonneg f1).
  pose proof (Str_length_nonneg f2). pose proof (Str_length_nonneg f3).
  pose proof (Str_length_nonneg f4). pose proof (Str_length_nonneg f5).
  assert (A1 : Str.indexOf "," 0 line = Str.length f0) by now apply indexOf_first.
  set (p1 := f0 ++ ",").
  assert (L1 : line = p1 ++ f1 ++ String "," (f2 ++ "," ++ f3 ++ "," ++ f4 ++ "," ++ f5 ++ "," ++ rest))
    by (unfold line, p1; now rewrite !str_app_assoc).
  assert (N1 : Str.length p1 = (Str.length f0 + 1)%Z)
    by (unfold p1; rewrite Str_length_app; reflexivity).
  assert (A2 : Str.indexOf "," (Str.length f0 + 1) line = (Str.length p1 + Str.length f1)%Z)
    by (rewrite <- N1, L1; now apply indexOf_field).
  set (p2 := p1 ++ f1 ++ ",").
  assert (L2 : line = p2 ++ f2 ++ String "," (f3 ++ "," ++ f4 ++ "," ++ f5 ++ "," ++ rest))
    by (rewrite L1; unfold p2; now rewrite !str_app_assoc).
  assert (N2 : Str.length p2 = (Str.length p1 + Str.length f1 + 1)%Z)
    by (unfold p2; rewrite !Str_length_app; change (Str.length ",") with 1%Z; lia).
  assert (A3 : Str.indexOf "," (Str.length p1 + Str.length f1 + 1) line
               = (Str.length p2 + Str.length f2)%Z)
    by (rewrite <- N2, L2; now apply indexOf_field).
  set (p3 := p2 ++ f2 ++ ",").
  assert (L3 : line = p3 ++ f3 ++ String "," (f4 ++ "," ++ f5 ++ "," ++ rest))
    by (rewrite L2; unfold p3; now rewrite !str_app_assoc).
  assert (N3 : Str.length p3 = (Str.length p2 + Str.length f2 + 1)%Z)
    by (unfold p3; rewrite !Str_length_app; change (Str.length ",") with 1%Z; lia).
  assert (A4 : Str.indexOf "," (Str.length p2 + Str.length f2 + 1) line
               = (Str.length p3 + Str.length f3)%Z)
    by (rewrite <- N3, L3; now apply indexOf_field).
  set (p4 := p3 ++ f3 ++ ",").
  assert (L4 : line = p4 ++ f4 ++ String "," (f5 ++ "," ++ rest))
    by (rewrite L3; unfold p4; now rewrite !str_app_assoc).
  assert (N4 : Str.length p4 = (Str.length p3 + Str.length f3 + 1)%Z)
    by (unfold p4; rewrite !Str_length_app; change (Str.length ",") with 1%Z; lia).
  assert (A5 : Str.indexOf "," (Str.length p3 + Str.length f3 + 1) line
               = (Str.length p4 + Str.length f4)%Z)
    by (rewrite <- N4, L4; now apply indexOf_field).
  set (p5 := p4 ++ f4 ++ ",").
  assert (L5 : line = p5 ++ f5 ++ String "," rest)
    by (rewrite L4; unfold p5; now rewrite !str_app_assoc).
  assert (N5 : Str.length p5 = (Str.length p4 + Str.length f4 + 1)%Z)
    by (unfold p5; rewrite !Str_length_app; change (Str.length ",") with 1%Z; lia).
  assert (A6 : Str.indexOf "," (Str.length p4 + Str.length f4 + 1) line
               = (Str.length p5 + Str.length f5)%Z)
    by (rewrite <- N5, L5; now apply indexOf_field).
  pose proof (Str_length_nonneg p1). pose proof (Str_length_nonneg p2).
  pose proof (Str_length_nonneg p3). pose proof (Str_length_nonneg p4).
  pose proof (Str_length_nonneg p5).
  rewrite A1. destruct (Z.ltb_spec (Str.length f0) 0); [lia|].
  rewrite A2. destruct (Z.ltb_spec (Str.length p1 + Str.length f1) 0); [lia|].
  rewrite A3. destruct (Z.ltb_spec (Str.length p2 + Str.length f2) 0); [lia|].
  rewrite A4. destruct (Z.ltb_spec (Str.length p3 + Str.length f3) 0); [lia|].
  rewrite A5. destruct (Z.ltb_spec (Str.length p4 + Str.length f4) 0); [lia|].
  rewrite A6. destruct (Z.ltb_spec (Str.length p5 + Str.length f5) 0); [lia|].
  assert (S0 : Str.substring 0 (Str.length f0) line = f0)
    by exact (Str_substring_field "" f0 _).
  assert (S1 : Str.substring (Str.length f0 + 1) (Str.length p1 + Str.length f1) line = f1)
    by (rewrite <- N1; rewrite L1 at 1; apply Str_substring_field).
  assert (S4 : Str.substring (Str.length p3 + Str.length f3 + 1)
                             (Str.length p4 + Str.length f4) line = f4)
    by (rewrite <- N4; rewrite L4 at 1; apply Str_substring_field).
  assert (S5 : Str.substring (Str.length p4 + Str.length f4 + 1)
                             (Str.length p5 + Str.length f5) line = f5)
    by (rewrite <- N5; rewrite L5 at 1; apply Str_substring_field).
  rewrite S0, S1, S4, S5. reflexivity.
Qed.

(** A time stamp without the letter T gives neither an hour nor a date. *)
Lemma stamp_without_T (ts : string) :
  has_char "T" ts = false ->
  Adalogger.hour_of P ts = None /\ Adalogger.date_of P ts = None.
Proof.
  intro H. unfold Adalogger.hour_of, Adalogger.date_of.
  rewrite (indexOf_none "T" ts H). split; reflexivity.
Qed.

End AdaloggerLines.

Section AdaloggerLog.

Variable P : Platform.
Variable Pr : Printer.

Local Open Scope string_scope.

Lemma tidy_parts (s : string) :
  tidy s = true -> has_char "," s = false /\ no_space s = true.
Proof.
  unfold tidy. intro H. apply andb_prop in H. destruct H as [A B].
  apply negb_true_iff in A. auto.
Qed.

Lemma csv_line_logged (ts : string) (r : Adalogger.row) :
  Adalogger.csv_line Pr ts r = (logged_line Pr ts r ++ String CR "") ++ String LF "".
Proof.
  unfold Adalogger.csv_line, logged_line, CRLF. rewrite !str_app_assoc. reflexivity.
Qed.

(** What the rollups make of the line of a sample. *)
Lemma logged_line_parsed (ts : string) (r : Adalogger.row) :
  loggable Pr ts r = true ->
  let line := Str.trim (logged_line Pr ts r ++ String CR "") in
  has_char LF (logged_line Pr ts r ++ String CR "") = false /\
  (Str.length line =? 0)%Z = false /\
  Adalogger.parseLogLine P line
  = Some (ts, toFloat P (print_float Pr (Adalogger.row_sourceV r) 3),
          (toFloat P (print_float Pr (Adalogger.row_current_mA r) 3) / lit 1000)%flt,
          toFloat P (print_float Pr (Adalogger.row_power_mW r) 2)).
Proof.
  unfold loggable. intro H.
  apply andb_prop in H. destruct H as [H T6].
  apply andb_prop in H. destruct H as [H T5].
  apply andb_prop in H. destruct H as [H T4].
  apply andb_prop in H. destruct H as [H T3].
  apply andb_prop in H. destruct H as [H T2].
  apply andb_prop in H. destruct H as [T0 T1].
  apply tidy_parts in T0, T1, T2, T3, T4, T5, T6.
  destruct T0 as [C0 S0], T1 as [C1 S1], T2 as [C2 S2], T3 as [C3 S3],
           T4 as [C4 S4], T5 as [C5 S5], T6 as [C6 S6].
  assert (NS : no_space (logged_line Pr ts r) = true).
  { unfold logged_line. rewrite !no_space_app, S0, S1, S2, S3, S4, S5, S6. reflexivity. }
  cbv zeta. rewrite (trim_cr _ NS). split; [|split].
  - rewrite has_char_app, (no_space_no_LF _ NS). reflexivity.
  - apply Z.eqb_neq. unfold logged_line. rewrite Str_length_app.
    pose proof (Str_length_nonneg ts).
    match goal with |- (_ + Str.length ?s)%Z <> _ =>
      assert (1 <= Str.length s)%Z
        by (rewrite Str_length_app; change (Str.length ",") with 1%Z;
            match goal with |- (_ <= _ + Str.length ?t)%Z =>
              pose proof (Str_length_nonneg t) end; lia)
    end. lia.
  - unfold logged_line. now apply adalogger_parse_fields.
Qed.

Lemma adalogger_log_lines (st : Adalogger.state) (samples : list (string * Adalogger.row))
  (ls : list string) :
  Adalogger.haveSD st = true ->
  fold_left (fun f s => Adalogger.append_sample Pr true st f (fst s) (snd s))
            samples (Some (unlines ls))
  = Some (unlines (ls ++ map (fun s => logged_line Pr (fst s) (snd s) ++ String CR "") samples)).
Proof.
  intro SD. revert ls. induction samples as [|s samples IH]; intro ls; cbn [fold_left map].
  - now rewrite app_nil_r.
  - unfold Adalogger.append_sample at 2. rewrite SD. cbn [andb].
    rewrite csv_line_logged, <- unlines_snoc, IH, <- app_assoc. reflexivity.
Qed.

Lemma adalogger_log_without_card (st : Adalogger.state)
  (samples : list (string * Adalogger.row)) (file : option string) :
  Adalogger.haveSD st = false ->
  fold_left (fun f s => Adalogger.append_sample Pr true st f (fst s) (snd s)) samples file
  = file.
Proof.
  intro SD. induction samples as [|s samples IH]; [reflexivity|].
  cbn [fold_left]. unfold Adalogger.append_sample at 2. rewrite SD. exact IH.
Qed.

(** The data lines of the log. *)
Lemma adalogger_log_data (st : Adalogger.state) (samples : list (string * Adalogger.row)) :
  Forall (fun s => loggable Pr (fst s) (snd s) = true) samples ->
  tl (lines_of (adalogger_log Pr st samples))
  = if Adalogger.haveSD st
    then map (fun s => logged_line Pr (fst s) (snd s) ++ String CR "") samples
    else [].
Proof.
  intro H. unfold adalogger_log.
  destruct (Adalogger.haveSD st) eqn:SD.
  - change (Adalogger.initSD_file true None)
      with (Some (unlines [Adalogger.CSV_HEADER ++ String CR ""])).
    rewrite (adalogger_log_lines st samples _ SD). cbn [lines_of app].
    rewrite readLines_unlines; [reflexivity|].
    constructor; [reflexivity|].
    induction H as [|s samples Hs _ IH]; constructor; [|exact IH].
    exact (proj1 (logged_line_parsed (fst s) (snd s) Hs)).
  - rewrite (adalogger_log_without_card st samples _ SD). reflexivity.
Qed.

End AdaloggerLog.

(** X17.  Time stamps of the form year-month-dayThour:minute:second are read
    as the code intends: [handleHourly] takes the digits between the T and
    the first colon as the hour (and drops the line when that number is not
    in 0..23), [handleDaily] takes the three numbers before the T as the
    date. *)
Theorem stamp_gives_hour_and_date (P : Platform) (y m d hh rest : string) :
  let ts := (y ++ "-" ++ m ++ "-" ++ d ++ "T" ++ hh ++ ":" ++ rest)%string in
  y <> EmptyString ->
  has_char "-" y = false -> has_char "T" y = false ->
  has_char "-" m = false -> has_char "T" m = false ->
  has_char "T" d = false ->
  has_char ":" hh = false ->
  2 <= Str.length hh -> 7 <= Str.length hh + Str.length rest ->
  Str.length ts < 4294967296 ->
  Adalogger.hour_of P ts
  = (if (0 <=? toInt P hh) && (toInt P hh <? 24) then Some (toInt P hh) else None) /\
  Adalogger.date_of P ts = Some (toInt P y, toInt P m, toInt P d).
Proof.
  intros ts Hy Y1 Y2 M1 M2 D2 HH L2 L7 LT.
  set (date := (y ++ "-" ++ m ++ "-" ++ d)%string).
  assert (E : ts = (date ++ String "T" (hh ++ ":" ++ rest))%string)
    by (unfold ts, date; now rewrite !str_app_assoc).
  assert (DT : has_char "T" date = false).
  { unfold date. rewrite !has_char_app, Y2, M2, D2. reflexivity. }
  assert (TP : Str.indexOf "T" 0 ts = Str.length date) by (rewrite E; now apply indexOf_first).
  assert (Ly : 1 <= Str.length y).
  { destruct y; [contradiction|]. unfold Str.length. cbn [String.length]. lia. }
  assert (Ld : 1 <= Str.length date).
  { unfold date. rewrite Str_length_app.
    pose proof (Str_length_nonneg ("-" ++ m ++ "-" ++ d)%string). lia. }
  assert (LE : Str.length ts = Str.length date + 1 + (Str.length hh + 1 + Str.length rest)).
  { rewrite E, Str_length_app.
    change (String "T" (hh ++ ":" ++ rest)%string) with ("T" ++ hh ++ ":" ++ rest)%string.
    rewrite !Str_length_app. change (Str.length "T") with 1. change (Str.length ":") with 1.
    lia. }
  split.
  - unfold Adalogger.hour_of. rewrite TP.
    rewrite Z.mod_small by lia.
    destruct (Z.ltb_spec 0 (Str.length date)); [|lia].
    destruct (Z.ltb_spec (Str.length date) (Str.length ts - 8)); [|lia].
    cbn [andb].
    assert (TS : Str.substring_from (Str.length date + 1) ts = (hh ++ ":" ++ rest)%string).
    { replace ts with ((date ++ "T") ++ hh ++ ":" ++ rest)%string
        by (rewrite E; now rewrite !str_app_assoc).
      replace (Str.length date + 1) with (Str.length (date ++ "T")%string)
        by (rewrite Str_length_app; reflexivity).
      apply Str_substring_from_tail. }
    rewrite TS. change (":" ++ rest)%string with (String ":" rest).
    rewrite (indexOf_first ":" hh rest HH).
    destruct (Z.leb_spec 2 (Str.length hh)); [|lia].
    rewrite (Str_substring_first hh (String ":" rest)). reflexivity.
  - unfold Adalogger.date_of. rewrite TP.
    destruct (Z.ltb_spec 0 (Str.length date)); [|lia].
    assert (DS : Str.substring 0 (Str.length date) ts = date).
    { rewrite E. exact (Str_substring_field "" date _). }
    rewrite DS.
    assert (D1 : Str.indexOf "-" 0 date = Str.length y)
      by (unfold date; now apply indexOf_first).
    rewrite D1.
    assert (D2' : Str.indexOf "-" (Str.length y + 1) date
                  = Str.length (y ++ "-")%string + Str.length m).
    { replace (Str.length y + 1) with (Str.length (y ++ "-")%string)
        by (rewrite Str_length_app; reflexivity).
      replace date with ((y ++ "-") ++ m ++ String "-" d)%string
        by (unfold date; now rewrite !str_app_assoc).
      now apply indexOf_field. }
    rewrite D2'.
    pose proof (Str_length_nonneg m).
    assert (Ny : Str.length (y ++ "-")%string = Str.length y + 1)
      by (rewrite Str_length_app; reflexivity).
    destruct (Z.ltb_spec 0 (Str.length y)); [|lia].
    destruct (Z.ltb_spec 0 (Str.length (y ++ "-")%string + Str.length m)); [|lia].
    cbn [andb].
    assert (SY : Str.substring 0 (Str.length y) date = y)
      by exact (Str_substring_field "" y _).
    assert (SM : Str.substring (Str.length y + 1)
                   (Str.length (y ++ "-")%string + Str.length m) date = m).
    { rewrite <- Ny.
      replace date with ((y ++ "-") ++ m ++ "-" ++ d)%string
        by (unfold date; now rewrite !str_app_assoc).
      apply Str_substring_field. }
    assert (SD : Str.substring_from (Str.length (y ++ "-")%string + Str.length m + 1) date = d).
    { replace date with ((y ++ "-" ++ m ++ "-") ++ d)%string
        by (unfold date; now rewrite !str_app_assoc).
      replace (Str.length (y ++ "-")%string + Str.length m + 1)
        with (Str.length (y ++ "-" ++ m ++ "-")%string)
        by (rewrite !Str_length_app; change (Str.length "-") with 1; lia).
      apply Str_substring_from_tail. }
    rewrite SY, SM, SD. reflexivity.
Qed.

Lemma stamp_gives_hour_and_date_witness :
  Adalogger.hour_of Utc.platform "2025-09-21T10:13:45" = Some 10 /\
  Adalogger.date_of Utc.platform "2025-09-21T10:13:45" = Some (2025, 9, 21).
Proof.
  exact (stamp_gives_hour_and_date Utc.platform "2025" "09" "21" "10" "13:45"
           ltac:(discriminate) eq_refl eq_refl eq_refl eq_refl eq_refl eq_refl
           ltac:(cbn; lia) ltac:(cbn; lia) ltac:(cbn; lia)).
Defined.

Section AdaloggerSteps.

Variable P : Platform.
Variable Pr : Printer.

Local Open Scope string_scope.

Lemma hourly_step_logged (ts : string) (r : Adalogger.row) (acc : array float * array Z) :
  loggable Pr ts r = true ->
  Adalogger.hourly_step P acc (logged_line Pr ts r ++ String CR "")
  = match Adalogger.hour_of P ts with
    | Some h =>
        (upd (fst acc) h
             (fst acc h + toFloat P (print_float Pr (Adalogger.row_power_mW r) 2))%flt,
         upd (snd acc) h (snd acc h + 1)%Z)
    | None => acc
    end.
Proof.
  intro H. destruct (logged_line_parsed P Pr ts r H) as (_ & L & E). cbv zeta in L, E.
  unfold Adalogger.hourly_step. rewrite L, E. reflexivity.
Qed.

Lemma daily_step_unstamped (today : Adalogger.DateTime) (ts : string) (r : Adalogger.row)
  (acc : array float * array Z) :
  loggable Pr ts r = true -> has_char "T" ts = false ->
  Adalogger.daily_step P today acc (logged_line Pr ts r ++ String CR "") = acc.
Proof.
  intros H T. destruct (logged_line_parsed P Pr ts r H) as (_ & L & E). cbv zeta in L, E.
  unfold Adalogger.daily_step. rewrite L, E, (proj2 (stamp_without_T P ts T)). reflexivity.
Qed.

Lemma fold_left_fixed {A B} (f : A -> B -> A) (l : list B) (a : A) :
  Forall (fun x => f a x = a) l -> fold_left f l a = a.
Proof.
  induction 1 as [|x l Hx _ IH]; [reflexivity|]. cbn [fold_left]. now rewrite Hx.
Qed.

End AdaloggerSteps.

(** X18.  A sample written by [logSample] is read back by the hourly
    rollup.  The text appended to /solar_log.csv is one line; after [trim]
    it parses into the time stamp and the printed source voltage, current
    (divided by 1000) and power; [handleHourly] adds that power to the
    bucket of the hour that the time stamp gives and counts it once, and
    leaves its sums alone when the time stamp gives no hour.  (The time
    stamp and the printed numbers hold no comma and no white space.) *)
Theorem logged_sample_is_counted
  (P : Platform) (Pr : Printer) (ts : string) (r : Adalogger.row)
  (acc : array float * array Z) :
  loggable Pr ts r = true ->
  let line := (logged_line Pr ts r ++ String CR EmptyString)%string in
  let p := toFloat P (print_float Pr (Adalogger.row_power_mW r) 2) in
  Str.readLines (Adalogger.csv_line Pr ts r) = [line] /\
  Adalogger.parseLogLine P (Str.trim line)
  = Some (ts, toFloat P (print_float Pr (Adalogger.row_sourceV r) 3),
          (toFloat P (print_float Pr (Adalogger.row_current_mA r) 3) / lit 1000)%flt, p) /\
  Adalogger.hourly_step P acc line
  = match Adalogger.hour_of P ts with
    | Some h => (upd (fst acc) h (fst acc h + p)%flt, upd (snd acc) h (snd acc h + 1))
    | None => acc
    end.
Proof.
  intro H. cbv zeta.
  destruct (logged_line_parsed P Pr ts r H) as (N & _ & E). cbv zeta in E.
  split; [|split].
  - rewrite csv_line_logged. unfold Str.readLines.
    rewrite (readLines_aux_line _ EmptyString EmptyString N). reflexivity.
  - exact E.
  - now apply hourly_step_logged.
Qed.

Lemma logged_sample_is_counted_witness :
  let r := fst (Adalogger.logSample (Adalogger.mkDateTime 2025 9 21 10 13 45)
                  (Adalogger.mkReadings (lit 7.5) (lit 12)) 5000
                  (Adalogger.setup true (Some (Adalogger.mkDateTime 2025 9 21 10 13 40))
                     true 0)) in
  let zero : array float * array Z := (fun _ => lit 0, fun _ => 0) in
  let acc := Adalogger.hourly_step Utc.platform zero
               (logged_line Utc.printer "2025-09-21T10:13:45" r ++ String CR EmptyString) in
  snd acc 10 = 1 /\ fst acc 10 =~ lit 372000.
Proof.
  cbv zeta.
  rewrite (proj2 (proj2 (logged_sample_is_counted Utc.platform Utc.printer
             "2025-09-21T10:13:45"
             (fst (Adalogger.logSample (Adalogger.mkDateTime 2025 9 21 10 13 45)
                     (Adalogger.mkReadings (lit 7.5) (lit 12)) 5000
                     (Adalogger.setup true (Some (Adalogger.mkDateTime 2025 9 21 10 13 40))
                        true 0)))
             (fun _ => lit 0, fun _ => 0) eq_refl))).
  vm_compute. split; reflexivity.
Defined.

(** X19.  A log written without RTC shows nothing in the charts.  Without
    RTC [logSample] stamps its lines with the seconds since power-up
    followed by the letter s; such a stamp holds no T, so [handleHourly]
    and [handleDaily] skip every line of the log: all hourly means and all
    daily energies are 0, however many samples were logged and whatever
    they measured. *)
Theorem log_without_rtc_charts_nothing
  (P : Platform) (Pr : Printer) (st : Adalogger.state)
  (rtc_hour : option Z) (rtc_now : option Adalogger.DateTime)
  (samples : list (Z * Adalogger.row)) :
  let stamped := map (fun s => (Adalogger.uptime_stamp Pr (fst s), snd s)) samples in
  Forall (fun s => loggable Pr (fst s) (snd s) = true /\ has_char "T" (fst s) = false)
         stamped ->
  Adalogger.handleHourly P rtc_hour (adalogger_log Pr st stamped)
  = map (fun h => (h, lit 0))
        (filter (fun h => h <=? match rtc_hour with Some h' => h' | None => 23 end) (upto 24)) /\
  Adalogger.handleDaily P rtc_now (adalogger_log Pr st stamped)
  = map (fun i => (i, lit 0)) (map (fun k => k + 23) (upto 7)).
Proof.
  intros stamped H.
  assert (HL : Forall (fun s => loggable Pr (fst s) (snd s) = true) stamped).
  { eapply Forall_impl; [|exact H]. intros s [A _]. exact A. }
  pose proof (adalogger_log_data P Pr st stamped HL) as D.
  set (zero := ((fun _ : Z => lit 0, fun _ : Z => 0%Z) : array float * array Z)).
  assert (Hh : match adalogger_log Pr st stamped with
               | Some s => fold_left (Adalogger.hourly_step P) (tl (Str.readLines s)) zero
               | None => zero
               end = zero).
  { destruct (adalogger_log Pr st stamped) as [s|]; [|reflexivity].
    cbn [lines_of] in D. rewrite D. destruct (Adalogger.haveSD st); [|reflexivity].
    apply fold_left_fixed. apply Forall_map.
    eapply Forall_impl; [|exact H]. intros x [A B].
    rewrite (hourly_step_logged P Pr _ _ zero A), (proj1 (stamp_without_T P _ B)). reflexivity. }
  assert (Hd : forall today,
             match adalogger_log Pr st stamped with
             | Some s => fold_left (Adalogger.daily_step P today) (tl (Str.readLines s)) zero
             | None => zero
             end = zero).
  { intro today. destruct (adalogger_log Pr st stamped) as [s|]; [|reflexivity].
    cbn [lines_of] in D. rewrite D. destruct (Adalogger.haveSD st); [|reflexivity].
    apply fold_left_fixed. apply Forall_map.
    eapply Forall_impl; [|exact H]. intros x [A B].
    now apply daily_step_unstamped. }
  split.
  - unfold Adalogger.handleHourly. fold zero. rewrite Hh. reflexivity.
  - unfold Adalogger.handleDaily. fold zero.
    destruct rtc_now as [today|]; [rewrite (Hd today)|]; reflexivity.
Qed.

Lemma log_without_rtc_charts_nothing_witness :
  let st := Adalogger.setup true None true 0 in
  let lib := Adalogger.mkReadings (lit 7.5) (lit 12) in
  let r1 := fst (Adalogger.logSample (Adalogger.mkDateTime 0 0 0 0 0 0) lib 5000 st) in
  let file := adalogger_log Utc.printer st [(Adalogger.uptime_stamp Utc.printer 5000, r1)] in
  lines_of file
  = [(Adalogger.CSV_HEADER ++ String CR EmptyString)%string;
     ("5s,12.008,12.000,7.500,31000.000,372000.00,0.517" ++ String CR EmptyString)%string] /\
  Adalogger.handleHourly Utc.platform None file
  = map (fun h => (h, lit 0)) (filter (fun h => h <=? 23) (upto 24)).
Proof.
  split; [vm_compute; reflexivity|].
  apply (log_without_rtc_charts_nothing Utc.platform Utc.printer
           (Adalogger.setup true None true 0) None None
           [(5000, fst (Adalogger.logSample (Adalogger.mkDateTime 0 0 0 0 0 0)
                          (Adalogger.mkReadings (lit 7.5) (lit 12)) 5000
                          (Adalogger.setup true None true 0)))]).
  repeat constructor.
Defined.

(** ** A total that is not a number (first sketch) *)

Lemma legacy_energy_step (lib : Legacy.adafruit) (nowMs now : Z) (st : Legacy.state) :
  let out := Legacy.data_get_handler lib nowMs now st in
  Legacy.r_energy_Wh (fst (fst out)) = Legacy.energy_Wh (snd out) /\
  (isnan (Legacy.r_power (fst (fst out))) = true -> isnan (Legacy.energy_Wh (snd out)) = true) /\
  (isnan (Legacy.energy_Wh st) = true -> isnan (Legacy.energy_Wh (snd out)) = true).
Proof.
  unfold Legacy.data_get_handler.
  destruct (Legacy.INA219_read_vbus_V (lit 0) (Legacy.i2c st)) as [[vOk v0] b1].
  destruct (Legacy.INA219_read_current_A (lit 0) b1) as [[iOk i0] b2].
  destruct (i2c_read16 64 2 0 b2) as [[o3 v3] b3].
  destruct (i2c_read16 64 0 0 b3) as [[o4 v4] b4].
  destruct (probe 64 b4) as [o5 b5]. destruct (probe 65 b5) as [o6 b6].
  cbn [fst snd Legacy.r_energy_Wh Legacy.r_power Legacy.energy_Wh].
  split; [reflexivity|].
  unfold of_Z, lit. cbn [fdiv]. change (Qzero 3600000) with false. cbn iota.
  split; intro H.
  - match goal with H : isnan ?p = true |- _ => destruct p; try discriminate H end.
    cbn [fmul]. now destruct (Legacy.energy_Wh st).
  - destruct (Legacy.energy_Wh st); try discriminate H. reflexivity.
Qed.

(** X20.  The energy total of the first sketch does not recover from a
    power that is not a number: the request that computes such a power
    (from a driver value or a multiplier that is not a number) turns the
    total into NaN, and from then on every reply of every later request
    reports NaN, whatever is measured, until the next power-up. *)
Theorem legacy_total_never_recovers
  (lib : Legacy.adafruit) (nowMs now : Z) (reqs : list (Legacy.adafruit * Z * Z))
  (st : Legacy.state) :
  let out := Legacy.data_get_handler lib nowMs now st in
  (isnan (Legacy.r_power (fst (fst out))) = true ->
   isnan (Legacy.energy_Wh (snd out)) = true) /\
  (isnan (Legacy.energy_Wh st) = true ->
   Forall (fun r => isnan (Legacy.r_energy_Wh r) = true) (fst (Legacy.serve reqs st)) /\
   isnan (Legacy.energy_Wh (snd (Legacy.serve reqs st))) = true).
Proof.
  split; [apply legacy_energy_step|].
  revert st. induction reqs as [|[[l t] n] rest IH]; intros st H; cbn [Legacy.serve].
  - split; [constructor|exact H].
  - pose proof (legacy_energy_step l t n st) as (E & _ & K). cbv zeta in E, K.
    destruct (Legacy.data_get_handler l t n st) as [[r rw] st1]. cbn [fst snd] in E, K.
    specialize (K H). specialize (IH st1 K).
    destruct (Legacy.serve rest st1) as [rs st2]. cbn [fst snd] in *.
    destruct IH as [F G]. split; [constructor; [now rewrite E|exact F]|exact G].
Qed.

Lemma legacy_total_never_recovers_witness :
  let lib := Legacy.mkAdafruit (lit 12) NaN in
  let good := Legacy.mkAdafruit (lit 12) (lit 1000) in
  let st := snd (Legacy.data_get_handler lib 1000 1700000000 (Legacy.initial (mkBus [] []))) in
  isnan (Legacy.energy_Wh st) = true /\
  Forall (fun r => isnan (Legacy.r_energy_Wh r) = true)
         (fst (Legacy.serve [(good, 6000, 1700000005); (good, 11000, 1700000010)] st)).
Proof.
  split.
  - apply (legacy_total_never_recovers (Legacy.mkAdafruit (lit 12) NaN) 1000 1700000000 []
             (Legacy.initial (mkBus [] []))).
    reflexivity.
  - apply (legacy_total_never_recovers (Legacy.mkAdafruit (lit 12) NaN) 1000 1700000000
             [(Legacy.mkAdafruit (lit 12) (lit 1000), 6000, 1700000005);
              (Legacy.mkAdafruit (lit 12) (lit 1000), 11000, 1700000010)]
             (snd (Legacy.data_get_handler (Legacy.mkAdafruit (lit 12) NaN) 1000 1700000000
                     (Legacy.initial (mkBus [] []))))).
    reflexivity.
Defined.

(** ** Logs too short for an energy (first sketch) *)

(** X21.  The daily and monthly energies of the first sketch need two
    readings: with no /log.csv, and with a log of the header alone or of
    the header and a single row, all thirty daily and all twelve monthly
    values are 0; with no log the twenty-four hourly means are 0 as
    well. *)
Theorem legacy_rollups_need_two_rows
  (P : Platform) (Pr : Printer) (now : Z) (rows : list Legacy.row) :
  Forall (fun r => printable P Pr r = true) rows ->
  (List.length rows <= 1)%nat ->
  (Legacy.daily_get_handler P now (legacy_log P Pr rows) = map (fun i => (i, lit 0)) (upto 30) /\
   Legacy.monthly_get_handler P now (legacy_log P Pr rows)
   = map (fun i => (i, lit 0)) (upto 12)) /\
  (Legacy.hourly_get_handler P now None = map (fun h => (h, lit 0)) (upto 24) /\
   Legacy.daily_get_handler P now None = map (fun i => (i, lit 0)) (upto 30) /\
   Legacy.monthly_get_handler P now None = map (fun i => (i, lit 0)) (upto 12)).
Proof.
  intros H L. split.
  - rewrite legacy_daily_is_trapezoid, legacy_monthly_is_trapezoid.
    rewrite (records_written P Pr rows H).
    destruct rows as [|r [|r' rows]]; [split; reflexivity|split; reflexivity|].
    cbn [List.length] in L. lia.
  - repeat split.
Qed.

Lemma legacy_rollups_need_two_rows_witness :
  let rows := [Legacy.mkRow 1700000000 (lit 12.5) (lit 2) (lit 25)] in
  Legacy.daily_get_handler Utc.platform 1700000010 (legacy_log Utc.platform Utc.printer rows)
  = map (fun i => (i, lit 0)) (upto 30).
Proof.
  apply (legacy_rollups_need_two_rows Utc.platform Utc.printer 1700000010
           [Legacy.mkRow 1700000000 (lit 12.5) (lit 2) (lit 25)]).
  - repeat constructor.
  - cbn. lia.
Defined.

(** ** Weekly chart (RTC + SD sketch) *)

(** X22.  The weekly chart shows seven different weekdays in calendar
    order, ending with today, and only today's bar can differ from 0: its
    value is the energy of the day, the six bars before it are 0 whenever
    that energy is a finite number (and NaN when it is not). *)
Theorem handleWeekly_ends_today (dow : Z) (st : Adalogger.state) :
  0 <= dow <= 6 ->
  let bars := Adalogger.handleWeekly (Some dow) st in
  map fst bars = map (fun i => (dow + 1 + i) mod 7) (upto 7) /\
  NoDup (map fst bars) /\
  fst (nth 6 bars (0, NaN)) = dow /\
  snd (nth 6 bars (0, NaN)) = (Adalogger.energyToday_Wh st * lit 1)%flt /\
  (forall k, (k < 6)%nat ->
     snd (nth k bars (0, NaN))
     =~ (if isfinite (Adalogger.energyToday_Wh st) then lit 0 else NaN)).
Proof.
  intros H bars. subst bars. unfold Adalogger.handleWeekly, Adalogger.weekly_label.
  assert (D : dow = 0 \/ dow = 1 \/ dow = 2 \/ dow = 3 \/ dow = 4 \/ dow = 5 \/ dow = 6) by lia.
  split; [|split; [|split; [|split]]].
  - destruct D as [->|[->|[->|[->|[->|[->| ->]]]]]]; reflexivity.
  - destruct D as [->|[->|[->|[->|[->|[->| ->]]]]]]; cbn;
      repeat constructor; cbn; intuition discriminate.
  - destruct D as [->|[->|[->|[->|[->|[->| ->]]]]]]; reflexivity.
  - reflexivity.
  - intros k Hk. do 6 (destruct k as [|k]; [cbn [nth map upto seq snd Z.eqb Z.of_nat Z.sub];
      cbn; destruct (Adalogger.energyToday_Wh st) as [q|s|]; cbn; [ring|exact I|exact I]|]).
    lia.
Qed.

Lemma handleWeekly_ends_today_witness :
  map fst (Adalogger.handleWeekly (Some 2) Adalogger.initial) = [3; 4; 5; 6; 0; 1; 2].
Proof.
  apply (handleWeekly_ends_today 2 Adalogger.initial). lia.
Defined.
